(** * linuxdo-nin: the cache store, the challenge verifier, the retry policy
      and the session controller of [main.py], embedded in Rocq.

    The script drives a remote browser, sleeps, reads the clock, draws
    random numbers, writes log lines and touches two cache files.  All of
    that is made explicit: a [world] carries the clock, the file system, the
    log, the random draws, the fields of the single [LinuxDoBrowser] object
    and the state of the remote browser, and every Python function becomes a
    state transformer that may finish with a value or with a raised
    exception.  State changes made before an exception is raised are kept,
    as in Python. *)

From Stdlib Require Import QArith Qround Lqa ZArith Lia List String Ascii Bool.
From stdpp Require Import base option list gmap strings.
Import ListNotations.

#[local] Set Warnings "-register-all".
#[local] Open Scope string_scope.
#[local] Open Scope list_scope.

(* ===================================================================== *)
(** ** Python values *)
(* ===================================================================== *)

(** The values that travel through [json.load] / [json.dump]: cookies,
    session metadata and the cache wrapper.  A [str] is represented by its
    UTF-8 encoding, so equality and substring tests are those of Python;
    [len] has to count code points, see [py_len].  A [dict] keeps insertion
    order and is an association list with distinct keys; its keys are
    strings, as are those of every [dict] the script builds.  A [tuple] is a
    value [json.dump] accepts and [json.load] never returns. *)
Inductive value : Type :=
| VNone
| VBool (b : bool)
| VNum (q : Q)
| VStr (s : string)
| VList (l : list value)
| VDict (d : list (string * value))
| VTuple (l : list value).

(** Exceptions are identified by their class.  [sys.exit] raises
    [SystemExit], which is not an [Exception] and therefore passes through
    every [except Exception] of the program. *)
Inductive exception : Type :=
| AttributeError
| TypeError
| JSONDecodeError
| OSError
| FileNotFoundError
| ValueError
| BrowserError (what : string).

Inductive raised : Type :=
| Exception (e : exception)
| SystemExit (code : Z).

Inductive result (A : Type) : Type :=
| Ok (a : A)
| Raise (r : raised).
Arguments Ok {A} a.
Arguments Raise {A} r.

(** [bool(v)]. *)
Definition truthy (v : value) : bool :=
  match v with
  | VNone => false
  | VBool b => b
  | VNum q => negb (Qeq_bool q 0)
  | VStr s => negb (String.eqb s "")
  | VList l => match l with [] => false | _ => true end
  | VDict d => match d with [] => false | _ => true end
  | VTuple l => match l with [] => false | _ => true end
  end.

(** What [json.load] reads back from the text [json.dump] writes for a
    value: a [tuple] is written as an array and comes back as a [list]. *)
Fixpoint json_form (v : value) : value :=
  match v with
  | VList l => VList (map json_form l)
  | VTuple l => VList (map json_form l)
  | VDict d => VDict (map (fun kv => (fst kv, json_form (snd kv))) d)
  | _ => v
  end.

(** A value the JSON text of which is read back as that value: no [tuple]
    in it, at any depth. *)
Fixpoint json_native (v : value) : bool :=
  match v with
  | VList l => forallb json_native l
  | VDict d => forallb (fun kv => json_native (snd kv)) d
  | VTuple _ => false
  | _ => true
  end.

(** [a or b]. *)
Definition py_or (a b : value) : value := if truthy a then a else b.

Fixpoint dict_get (k : string) (d : list (string * value)) : option value :=
  match d with
  | [] => None
  | (k', v) :: d' => if String.eqb k k' then Some v else dict_get k d'
  end.

(** [d[k] = v]: an existing key keeps its position, a new key goes last. *)
Fixpoint dict_set (k : string) (v : value) (d : list (string * value))
  : list (string * value) :=
  match d with
  | [] => [(k, v)]
  | (k', v') :: d' =>
      if String.eqb k k' then (k, v) :: d' else (k', v') :: dict_set k v d'
  end.

(** [v.get(k, default)]; only a [dict] has the method. *)
Definition py_get (v : value) (k : string) (default : value)
  : exception + value :=
  match v with
  | VDict d => inr (match dict_get k d with Some x => x | None => default end)
  | _ => inl AttributeError
  end.

(** [v == s] for a string literal [s]. *)
Definition py_eq_str (v : value) (s : string) : bool :=
  match v with
  | VStr s' => String.eqb s' s
  | _ => false
  end.

(** The number a value stands for in a numeric comparison; [bool] is a
    subclass of [int]. *)
Definition as_number (v : value) : option Q :=
  match v with
  | VNum q => Some q
  | VBool true => Some 1%Q
  | VBool false => Some 0%Q
  | _ => None
  end.

(** [v == q] for a number [q]: false, not an error, on other types. *)
Definition py_eq_num (v : value) (q : Q) : bool :=
  match as_number v with
  | Some x => Qeq_bool x q
  | None => false
  end.

(** [v > q] for a float [q]: [TypeError] unless [v] is a number. *)
Definition py_gt (v : value) (q : Q) : exception + bool :=
  match as_number v with
  | Some x => inr (negb (Qle_bool x q))
  | None => inl TypeError
  end.

(** A byte that continues a UTF-8 sequence: [10xxxxxx]. *)
Definition is_continuation (c : ascii) : bool :=
  let n := nat_of_ascii c in (128 <=? n)%nat && (n <? 192)%nat.

(** The characters of a [str], each with its continuation bytes. *)
Fixpoint chars_from (cur : string) (s : string) : list string :=
  match s with
  | EmptyString => [cur]
  | String c s' =>
      if is_continuation c then chars_from (String.append cur (String c EmptyString)) s'
      else cur :: chars_from (String c EmptyString) s'
  end.

Definition chars (s : string) : list string :=
  match s with
  | EmptyString => []
  | String c s' => chars_from (String c EmptyString) s'
  end.

(** [len(s)]: the number of code points. *)
Definition py_len (s : string) : nat := length (chars s).

(** [needle in hay]. *)
Fixpoint contains (needle hay : string) : bool :=
  String.prefix needle hay ||
  match hay with
  | EmptyString => false
  | String _ hay' => contains needle hay'
  end.

(** [for x in v]: the items a [for] loop visits. *)
Definition py_iter (v : value) : exception + list value :=
  match v with
  | VList l => inr l
  | VTuple l => inr l
  | VDict d => inr (map (fun kv => VStr (fst kv)) d)
  | VStr s => inr (map VStr (chars s))
  | _ => inl TypeError
  end.

(** [l[-n:]]: the last [n] items, all of them when there are fewer. *)
Definition last_n {A} (n : nat) (l : list A) : list A :=
  skipn (length l - n) l.

(* ===================================================================== *)
(** ** The world *)
(* ===================================================================== *)

Inductive file_content : Type :=
| Json (doc : value)         (* a JSON text that [json.load] reads as [doc] *)
| Garbled (bytes : string).  (* bytes [json.load] rejects *)

Record file : Type := File { content : file_content; mtime : Q }.

(** The file-system calls of the write side that may fail. *)
Inductive io_op : Type := OpenWrite | Dump | Utime | Remove.

Inductive level : Type := DEBUG | INFO | SUCCESS | WARNING | ERROR.

(** One constructor per [logger] call site of the functions below. *)
Inductive message : Type :=
| RetryFinalFailure (e : exception)
| RetryAttemptFailed (attempt retries : nat) (e : exception)
| CacheLoaded (file_name : string) (age_hours : Q)
| CacheLoadFailed (file_name : string) (e : exception)
| CacheMissing (file_name : string)
| CacheSaved (file_name : string) (new_age : Q)
| CacheSaveFailed (file_name : string) (e : exception)
| CfStart
| CfCachedCookieValid
| CfBypassedWithCache
| CfBypassFailed (e : exception)
| CfFullFlow
| CfPageLoaded
| CfWaiting (wait_time : Q) (attempt max_attempts : nat)
| CfTimeout
| CfException (attempt : nat) (e : exception)
| CfFinalPassed
| CfFinalUnresolved
| ScriptInjected
| ScriptInjectFailed (e : exception)
| AllCachesSaved
| SaveCachesFailed (e : exception)
| CacheCleared (file_name : string)
| AllCachesCleared
| ClearCachesFailed (e : exception)
| CacheFirstTry
| CacheFirstLoggedIn
| CacheFirstNotLoggedIn
| CacheFirstNoCookie
| CacheFirstFailed (e : exception)
| UserElementFound
| LoginButtonFound
| UsernameInPage
| PageLooksNormal
| LoginStatusUnknown
| LoginStatusError (e : exception)
| UsernameInMenu
| UsernameNotVerified
| TurnstileError (e : exception)
| CachedLoginOk
| LoginStart
| CfNotPassedContinue
| TurnstileToken
| LoginOk
| LoginFailed
| NoTopicsRefresh
| TopicsFound (topic_count browse_count : nat)
| BrowseProgress (i browse_count : nat)
| TopicDelay (delay : Q)
| LoginFailedTerminate
| BrowseDone
| ConnectInfoStart
| ConnectInfoFailed (e : exception)
| ScriptStart
| ScriptDone.

Record entry : Type := Entry { at_time : Q; lvl : level; msg : message }.

(** What a call of [print] sends to the standard output. *)
Inductive printed : Type :=
| Line (text : string)
| Table (rows : list (list string)) (headers : list string).
    (* the text of [tabulate(rows, headers=headers, tablefmt="pretty")] *)

(** [B] is the state of the remote browser.  [session_data] and
    [cache_saved] are the fields of the one [LinuxDoBrowser] object. *)
Record world (B : Type) : Type := World {
  clock : Q;                          (* [time.time()] *)
  isoformat : Q -> string;            (* [datetime.now().isoformat()] at a clock value *)
  fs : gmap string file;
  io_fails : io_op -> string -> bool; (* the calls the system refuses *)
  log : list entry;                   (* oldest first *)
  rng : list Q;                       (* coming draws of [random.random()] *)
  stdout : list printed;
  session_data : value;
  cache_saved : bool;
  browser : B
}.
Arguments World {B}.
Arguments clock {B}.
Arguments isoformat {B}.
Arguments fs {B}.
Arguments io_fails {B}.
Arguments log {B}.
Arguments rng {B}.
Arguments stdout {B}.
Arguments session_data {B}.
Arguments cache_saved {B}.
Arguments browser {B}.

(* ===================================================================== *)
(** ** Computations *)
(* ===================================================================== *)

Definition M (B A : Type) : Type := world B -> result A * world B.

Definition ret {B A} (a : A) : M B A := fun w => (Ok a, w).

Definition bind {B A C} (c : M B A) (k : A -> M B C) : M B C :=
  fun w =>
    match c w with
    | (Ok a, w') => k a w'
    | (Raise r, w') => (Raise r, w')
    end.

Declare Scope py_scope.
Delimit Scope py_scope with py.
Notation "'let*' x ':=' c 'in' k" := (bind c (fun x => k))
  (at level 10, x name, c at level 100, k at level 200) : py_scope.
Notation "c ;; k" := (bind c (fun _ => k))
  (at level 100, k at level 200, right associativity) : py_scope.
#[local] Open Scope py_scope.

Definition raise {B A} (r : raised) : M B A := fun w => (Raise r, w).

(** A library call that either answers or raises an [Exception]. *)
Definition lift {B A} (r : exception + A) : M B A :=
  match r with
  | inl e => raise (Exception e)
  | inr a => ret a
  end.

(** [try: body  except Exception as e: handler(e)]. *)
Definition try_except {B A} (body : M B A) (handler : exception -> M B A)
  : M B A :=
  fun w =>
    match body w with
    | (Raise (Exception e), w') => handler e w'
    | other => other
    end.

(** [try: body  finally: cleanup]: an exception of [cleanup] replaces the
    outcome of [body]. *)
Definition try_finally {B A} (body : M B A) (cleanup : M B unit) : M B A :=
  fun w =>
    match body w with
    | (r, w') =>
        match cleanup w' with
        | (Ok _, w'') => (r, w'')
        | (Raise r', w'') => (Raise r', w'')
        end
    end.

(** What the body of a [for] loop asks for when it ends. *)
Inductive ctl (A : Type) : Type :=
| Next                (* fall off the end of the body, or [continue] *)
| Break
| Return (a : A).
Arguments Next {A}.
Arguments Break {A}.
Arguments Return {A} a.

(** [for x in xs: body(x)]; [Some a] when the body returned [a] from the
    enclosing function, [None] when the loop ended or was broken. *)
Fixpoint for_each {B X A} (xs : list X) (body : X -> M B (ctl A))
  : M B (option A) :=
  match xs with
  | [] => ret None
  | x :: xs' =>
      let* c := body x in
      match c with
      | Next => for_each xs' body
      | Break => ret None
      | Return a => ret (Some a)
      end
  end.

(** [range(n)]. *)
Definition range (n : nat) : list nat := seq 0 n.

Definition time_time {B} : M B Q := fun w => (Ok (clock w), w).

(** The world with one more log line, stamped with the clock. *)
Definition logged {B} (l : level) (m : message) (w : world B) : world B :=
  World (clock w) (isoformat w) (fs w) (io_fails w)
        (log w ++ [Entry (clock w) l m]) (rng w) (stdout w)
        (session_data w) (cache_saved w) (browser w).

Definition logger {B} (l : level) (m : message) : M B unit :=
  fun w => (Ok tt, logged l m w).

Definition print {B} (line : printed) : M B unit :=
  fun w =>
    (Ok tt,
     World (clock w) (isoformat w) (fs w) (io_fails w) (log w) (rng w)
           (stdout w ++ [line]) (session_data w) (cache_saved w) (browser w)).

(** [random.random()]: the next draw, a number of [[0, 1)]. *)
Definition random_random {B} : M B Q :=
  fun w =>
    match rng w with
    | [] => (Ok 0%Q, w)
    | u :: rest =>
        (Ok u,
         World (clock w) (isoformat w) (fs w) (io_fails w) (log w) rest
               (stdout w) (session_data w) (cache_saved w) (browser w))
    end.

(** [random.uniform(a, b)] is [a + (b - a) * random()]. *)
Definition random_uniform {B} (a b : Q) : M B Q :=
  let* u := random_random in ret (a + (b - a) * u)%Q.

(** [Random._randbelow(n)], at the level of its contract: an integer of
    [[0, n)] that the random source determines.  CPython takes it from
    [getrandbits] and draws again while the number is too large; the model
    reads one draw of the stream.  The integer it gives for given draws is
    therefore not the one CPython gives, and what is proved of it is proved
    for every stream of draws. *)
Definition randbelow {B} (n : nat) : M B nat :=
  let* u := random_random in
  ret (Nat.min (Z.to_nat (Qfloor (u * inject_Z (Z.of_nat n)))) (n - 1)).

(** [random.randint(a, b)] is [a + _randbelow(b - a + 1)]. *)
Definition random_randint {B} (a b : nat) : M B nat :=
  let* k := randbelow (b - a + 1) in ret (a + k)%nat.

Definition get_session_data {B} : M B value :=
  fun w => (Ok (session_data w), w).

Definition set_session_data {B} (v : value) : M B unit :=
  fun w =>
    (Ok tt,
     World (clock w) (isoformat w) (fs w) (io_fails w) (log w) (rng w)
           (stdout w) v (cache_saved w) (browser w)).

Definition get_cache_saved {B} : M B bool :=
  fun w => (Ok (cache_saved w), w).

Definition set_cache_saved {B} (b : bool) : M B unit :=
  fun w =>
    (Ok tt,
     World (clock w) (isoformat w) (fs w) (io_fails w) (log w) (rng w)
           (stdout w) (session_data w) b (browser w)).

Definition set_fs {B} (w : world B) (files : gmap string file) : world B :=
  World (clock w) (isoformat w) files (io_fails w) (log w) (rng w)
        (stdout w) (session_data w) (cache_saved w) (browser w).

(* ===================================================================== *)
(** ** The remote browser *)
(* ===================================================================== *)

(** What a browser command gives back: its answer or the exception it
    raised, the time it took and the browser's next state. *)
Record reply (B A : Type) : Type := Reply {
  answer : exception + A;
  took : Q;
  after : B
}.
Arguments Reply {B A}.
Arguments answer {B A}.
Arguments took {B A}.
Arguments after {B A}.

(** The elements the script looks up, named after their locators. *)
Inductive selector : Type :=
| sel_current_user               (* '#current-user' *)
| sel_toggle_current_user        (* '#toggle-current-user' *)
| sel_dropdown_current_user      (* '.header-dropdown-toggle.current-user' *)
| sel_img_avatar                 (* 'img.avatar' *)
| sel_user_menu                  (* '.user-menu' *)
| sel_data_user_menu             (* '[data-user-menu]' *)
| sel_login_button               (* '.login-button' *)
| sel_button_denglu              (* 'button:has-text(登录)' *)
| sel_button_log_in              (* 'button:has-text(Log In)' *)
| sel_btn_icon_text_login        (* '.btn.btn-icon-text.login-button' *)
| sel_dot_current_user           (* '.current-user' *)
| sel_header_dropdown_toggle     (* '.header-dropdown-toggle' *)
| sel_body                       (* 'body' *)
| sel_login_account_name         (* '@id=login-account-name' *)
| sel_login_account_password     (* '@id=login-account-password' *)
| sel_id_login_button.           (* '@id=login-button' *)

(** An element of the main page, as the driver hands it out: a handle on a
    node of the live page. *)
Definition element : Type := nat.

(** The scripts handed to [run_js]. *)
Inductive script : Type :=
| js_enhanced_script
| js_turnstile_reset
| js_turnstile_get_response.

(** The narrow interface to the browser.  Queries read the main page: they
    leave the browser as it is and take [query_lag] to answer.  Commands
    change it.  [elapse] is what the browser does while the script sleeps.
    The topics of the list are elements of the main page, and
    [ele_attr_href] is [topic.attr("href")], read from the page at the time
    of the call.  The helpers of a topic visit that catch their own
    exceptions ([trigger_statistical_events], [click_like]) cannot raise. *)
Class Chromium (B : Type) : Type := {
  page_title : B -> exception + string;
  page_url : B -> exception + string;
  page_html : B -> exception + string;
  page_ele : selector -> B -> exception + bool;
  ele_attr_href : element -> B -> exception + option string;
  query_lag : B -> Q;
  elapse : Q -> B -> B;
  page_set_cookies : value -> B -> reply B unit;
  page_get : string -> B -> reply B unit;
  page_refresh : B -> reply B unit;
  page_run_js : script -> B -> reply B value;
  ele_click : selector -> B -> reply B unit;
  ele_input : selector -> option string -> B -> reply B unit;
  turnstile_click : B -> reply B unit;
  browser_cookies : B -> reply B value;
  list_area_titles : B -> reply B (list element);
  new_tab : B -> reply B unit;
  tab_get : string -> B -> reply B unit;
  tab_trigger_statistical_events : B -> unit * Q * B;
  tab_enhanced_browse_post : B -> reply B unit;
  tab_click_like : B -> bool * Q * B;
  tab_connect_rows : B -> reply B (list (list string));
  tab_close : B -> reply B unit;
  page_close : B -> reply B unit;
  browser_quit : B -> reply B unit
}.

Section Effects.
Context {B : Type} `{Chromium B}.

(** The world after [d] seconds, with the browser in state [b]. *)
Definition waited (d : Q) (b : B) (w : world B) : world B :=
  World (clock w + d)%Q (isoformat w) (fs w) (io_fails w) (log w) (rng w)
        (stdout w) (session_data w) (cache_saved w) b.

(** [time.sleep(d)]: the clock moves and the browser lives on. *)
Definition time_sleep (d : Q) : M B unit :=
  fun w => (Ok tt, waited d (elapse d (browser w)) w).

Definition query {A} (q : B -> exception + A) : M B A :=
  fun w =>
    let b := browser w in
    lift (q b) (waited (query_lag b) b w).

Definition command {A} (c : B -> reply B A) : M B A :=
  fun w =>
    let r := c (browser w) in
    lift (answer r) (waited (took r) (after r) w).

(** A helper of the script that catches its own exceptions. *)
Definition guarded {A} (c : B -> A * Q * B) : M B A :=
  fun w =>
    let '(a, d, b) := c (browser w) in
    (Ok a, waited d b w).

End Effects.

Definition HOME_URL : string := "https://linux.do/".
Definition LOGIN_URL : string := "https://linux.do/login".
Definition cookies_file : string := "linuxdo_cookies.json".
Definition session_file : string := "linuxdo_session.json".

(* ===================================================================== *)
(** ** class CacheManager *)
(* ===================================================================== *)

Module CacheManager.
Section WithWorld.
Context {B : Type}.

(** [os.path.exists]. *)
Definition os_path_exists (file_name : string) : M B bool :=
  fun w =>
    (Ok (match fs w !! file_name with Some _ => true | None => false end), w).

(** [os.path.getmtime]. *)
Definition os_path_getmtime (file_name : string) : M B Q :=
  fun w =>
    match fs w !! file_name with
    | Some f => (Ok (mtime f), w)
    | None => (Raise (Exception FileNotFoundError), w)
    end.

(** [os.path.getsize]; the size only shows in a log line, so the model
    keeps the check that the file is there and drops the number. *)
Definition os_path_getsize (file_name : string) : M B unit :=
  fun w =>
    match fs w !! file_name with
    | Some _ => (Ok tt, w)
    | None => (Raise (Exception FileNotFoundError), w)
    end.

(** [with open(file_name, "r") as f: json.load(f)]. *)
Definition json_load (file_name : string) : M B value :=
  fun w =>
    match fs w !! file_name with
    | Some (File (Json doc) _) => (Ok doc, w)
    | Some (File (Garbled _) _) => (Raise (Exception JSONDecodeError), w)
    | None => (Raise (Exception FileNotFoundError), w)
    end.

(** [open(file_name, "w")]: the file is created or truncated. *)
Definition open_write (file_name : string) : M B unit :=
  fun w =>
    if io_fails w OpenWrite file_name then (Raise (Exception OSError), w)
    else (Ok tt, set_fs w (<[file_name := File (Garbled "") (clock w)]> (fs w))).

(** [json.dump(doc, f, ...)] and the close of the [with] block: the file
    holds the JSON text of [doc], which [json.load] reads as [json_form doc]. *)
Definition json_dump (doc : value) (file_name : string) : M B unit :=
  fun w =>
    if io_fails w Dump file_name then (Raise (Exception OSError), w)
    else
      (Ok tt,
       set_fs w (<[file_name := File (Json (json_form doc)) (clock w)]> (fs w))).

(** [os.utime(file_name, (t, t))]. *)
Definition os_utime (file_name : string) (t : Q) : M B unit :=
  fun w =>
    if io_fails w Utime file_name then (Raise (Exception OSError), w)
    else
      match fs w !! file_name with
      | Some f => (Ok tt, set_fs w (<[file_name := File (content f) t]> (fs w)))
      | None => (Raise (Exception FileNotFoundError), w)
      end.

(** [os.remove(file_name)]. *)
Definition os_remove (file_name : string) : M B unit :=
  fun w =>
    if io_fails w Remove file_name then (Raise (Exception OSError), w)
    else
      match fs w !! file_name with
      | Some _ => (Ok tt, set_fs w (delete file_name (fs w)))
      | None => (Raise (Exception FileNotFoundError), w)
      end.

Definition datetime_now_isoformat : M B string :=
  fun w => (Ok (isoformat w (clock w)), w).

Definition get_file_age_hours (file_name : string) : M B (option Q) :=
  let* there := os_path_exists file_name in
  if negb there then ret None
  else
    let* file_mtime := os_path_getmtime file_name in
    let* current_time := time_time in
    ret (Some ((current_time - file_mtime) / 3600)%Q).

Definition load_cache (file_name : string) : M B value :=
  let* there := os_path_exists file_name in
  if there then
    try_except
      (let* data := json_load file_name in
       let* age_hours := get_file_age_hours file_name in
       match age_hours with
       | Some a => logger INFO (CacheLoaded file_name a)
       | None => ret tt
       end ;;
       lift (py_get data "data" data))
      (fun e => logger WARNING (CacheLoadFailed file_name e) ;; ret VNone)
  else
    logger INFO (CacheMissing file_name) ;; ret VNone.

(** The document [save_cache] writes at clock value [now]. *)
Definition data_to_save (data : value) (iso : string) (now : Q) : value :=
  VDict [("data", data);
         ("cache_timestamp", VStr iso);
         ("cache_version", VStr "1.0");
         ("file_created", VNum now)].

Definition save_cache (data : value) (file_name : string) : M B bool :=
  try_except
    (let* iso := datetime_now_isoformat in
     let* created := time_time in
     open_write file_name ;;
     json_dump (data_to_save data iso created) file_name ;;
     let* current_time := time_time in
     os_utime file_name current_time ;;
     let* new_age := get_file_age_hours file_name in
     os_path_getsize file_name ;;
     match new_age with
     | Some a => logger INFO (CacheSaved file_name a)
     | None => raise (Exception TypeError)  (* [None] under [:.3f] *)
     end ;;
     ret true)
    (fun e => logger ERROR (CacheSaveFailed file_name e) ;; ret false).

Definition load_cookies : M B value := load_cache cookies_file.

Definition save_cookies (cookies : value) : M B bool :=
  save_cache cookies cookies_file.

Definition load_session : M B value :=
  let* v := load_cache session_file in ret (py_or v (VDict [])).

Definition save_session (session : value) : M B bool :=
  save_cache session session_file.

End WithWorld.
End CacheManager.

(* ===================================================================== *)
(** ** class CloudflareHandler *)
(* ===================================================================== *)

Module CloudflareHandler.
Section WithBrowser.
Context {B : Type} `{Chromium B}.

(** [page_title != "请稍候…" and "Checking" not in page_title]. *)
Definition page_loaded (page_title : string) : bool :=
  negb (String.eqb page_title "请稍候…") && negb (contains "Checking" page_title).

(** The body of the loop over the cookies. *)
Definition check_cookie (cookie : value) : M B (ctl bool) :=
  let* name := lift (py_get cookie "name" VNone) in
  if py_eq_str name "cf_clearance" then
    let* expires := lift (py_get cookie "expires" (VNum 0)) in
    let* live :=
      (if py_eq_num expires (-1) then ret true
       else let* now := time_time in lift (py_gt expires now)) in
    if live then ret (Return true) else ret Next
  else ret Next.

Definition is_cf_cookie_valid (cookies : value) : M B bool :=
  try_except
    (let* items := lift (py_iter cookies) in
     let* found := for_each items check_cookie in
     match found with
     | Some b => ret b
     | None => ret false
     end)
    (fun _ => ret false).

(** The attempt to get past the challenge with the cached cookies;
    [Some true] stands for the [return True] inside it. *)
Definition try_cached_cookies (cached_cookies : value) : M B (option bool) :=
  logger SUCCESS CfCachedCookieValid ;;
  try_except
    (if truthy cached_cookies then
       command (page_set_cookies cached_cookies) ;;
       command (page_get HOME_URL) ;;
       time_sleep 5 ;;
       let* title := query page_title in
       if page_loaded title then
         logger SUCCESS CfBypassedWithCache ;; ret (Some true)
       else ret None
     else ret None)
    (fun e => logger WARNING (CfBypassFailed e) ;; ret None).

(** One turn of the polling loop. *)
Definition poll_once (start_time timeout : Q) (max_attempts attempt : nat)
  : M B (ctl bool) :=
  try_except
    (let* current_url := query page_url in
     let* title := query page_title in
     if page_loaded title then
       logger SUCCESS CfPageLoaded ;; ret (Return true)
     else
       let* wait_time := random_uniform 8 15 in
       logger INFO (CfWaiting wait_time (attempt + 1) max_attempts) ;;
       time_sleep wait_time ;;
       let* now := time_time in
       if negb (Qle_bool (now - start_time) timeout) then
         logger WARNING CfTimeout ;; ret Break
       else ret Next)
    (fun e =>
       logger ERROR (CfException (attempt + 1) e) ;;
       time_sleep 10 ;;
       ret Next).

(** The loop and the final check. *)
Definition full_flow (start_time timeout : Q) (max_attempts : nat) : M B bool :=
  logger INFO CfFullFlow ;;
  let* returned :=
    for_each (range max_attempts) (poll_once start_time timeout max_attempts) in
  match returned with
  | Some b => ret b
  | None =>
      let* title := query page_title in
      if page_loaded title then logger SUCCESS CfFinalPassed ;; ret true
      else logger WARNING CfFinalUnresolved ;; ret true
  end.

Definition handle_cloudflare (max_attempts : nat) (timeout : Q) : M B bool :=
  let* start_time := time_time in
  logger INFO CfStart ;;
  let* cached_cookies := CacheManager.load_cookies in
  let* cached_cf_valid := is_cf_cookie_valid (py_or cached_cookies (VList [])) in
  let* bypassed :=
    (if cached_cf_valid then try_cached_cookies cached_cookies else ret None) in
  match bypassed with
  | Some b => ret b
  | None => full_flow start_time timeout max_attempts
  end.

(** The defaults of the signature. *)
Definition default_max_attempts : nat := 8.
Definition default_timeout : Q := 180.

End WithBrowser.
End CloudflareHandler.

(* ===================================================================== *)
(** ** retry_decorator *)
(* ===================================================================== *)

Section Retry.
Context {B : Type} `{Chromium B}.

(** One turn of [for attempt in range(retries)] in [wrapper]. *)
Definition retry_once (retries : nat) (func : M B value) (attempt : nat)
  : M B (ctl value) :=
  try_except
    (let* v := func in ret (Return v))
    (fun e =>
       (if Nat.eqb attempt (retries - 1) then logger ERROR (RetryFinalFailure e)
        else ret tt) ;;
       logger WARNING (RetryAttemptFailed (attempt + 1) retries e) ;;
       time_sleep 1 ;;
       ret Next).

(** [retry_decorator(retries)(func)], the wrapper around a call of [func]
    with its arguments. *)
Definition retry_decorator (retries : nat) (func : M B value) : M B value :=
  let* returned := for_each (range retries) (retry_once retries func) in
  match returned with
  | Some v => ret v
  | None => ret VNone
  end.

End Retry.

(* ===================================================================== *)
(** ** Module-level settings *)
(* ===================================================================== *)

(** [USERNAME], [PASSWORD] and [BROWSE_ENABLED] as the module computes them
    from the environment when it is loaded. *)
Record config : Type := Config {
  USERNAME : option string;
  PASSWORD : option string;
  BROWSE_ENABLED : bool
}.

(** [not s] for the result of [os.getenv]. *)
Definition unset (s : option string) : bool :=
  match s with
  | None => true
  | Some s' => String.eqb s' ""
  end.

(** [X = os.getenv(primary)], then [if not X: X = os.getenv(fallback)]. *)
Definition getenv_or (environ : gmap string string) (primary fallback : string)
  : option string :=
  if unset (environ !! primary) then environ !! fallback else environ !! primary.

Definition read_config (environ : gmap string string) (browse_enabled : bool)
  : config :=
  Config (getenv_or environ "LINUXDO_USERNAME" "USERNAME")
         (getenv_or environ "LINUXDO_PASSWORD" "PASSWORD")
         browse_enabled.

(** [v.append]: the bound method, looked up before its argument is
    evaluated; only a [list] has it. *)
Definition py_append (v : value) : exception + (value -> value) :=
  match v with
  | VList l => inr (fun x => VList (l ++ [x]))
  | _ => inl AttributeError
  end.

(** [v[-n:]]. *)
Definition py_last (n : nat) (v : value) : exception + value :=
  match v with
  | VList l => inr (VList (last_n n l))
  | VTuple l => inr (VTuple (last_n n l))
  | VStr s => inr (VStr (String.concat "" (last_n n (chars s))))
  | _ => inl TypeError
  end.

(** [v[k] = x] for a string key. *)
Definition py_setitem (v : value) (k : string) (x : value) : exception + value :=
  match v with
  | VDict d => inr (VDict (dict_set k x d))
  | _ => inl TypeError
  end.

(** [v.update({k1: x1, ...})]. *)
Definition py_update (v : value) (items : list (string * value))
  : exception + value :=
  match v with
  | VDict d => inr (VDict (fold_left (fun acc kv => dict_set (fst kv) (snd kv) acc) items d))
  | _ => inl AttributeError
  end.

(** [v + 1]. *)
Definition py_succ (v : value) : exception + value :=
  match as_number v with
  | Some q => inr (VNum (q + 1)%Q)
  | None => inl TypeError
  end.

(** The value of an attribute that may be missing. *)
Definition attr_value (a : option string) : value :=
  match a with
  | Some s => VStr s
  | None => VNone
  end.

(** The outcome of the process for a run of the script. *)
Definition exit_code {A} (r : result A) : Z :=
  match r with
  | Ok _ => 0
  | Raise (SystemExit code) => code
  | Raise (Exception _) => 1   (* traceback of an uncaught exception *)
  end.

(** [sys.exit(code)] and the builtin [exit(code)]. *)
Definition sys_exit {B A} (code : Z) : M B A := raise (SystemExit code).

(* ===================================================================== *)
(** ** class LinuxDoBrowser *)
(* ===================================================================== *)

Module LinuxDoBrowser.
Section WithBrowser.
Context {B : Type} `{Chromium B}.
Variable cfg : config.
(** [str.lower], the interpreter's Unicode lower-casing. *)
Variable str_lower : string -> string.

Definition user_indicators : list selector :=
  [sel_current_user; sel_toggle_current_user; sel_dropdown_current_user;
   sel_img_avatar; sel_user_menu; sel_data_user_menu].

Definition login_buttons : list selector :=
  [sel_login_button; sel_button_denglu; sel_button_log_in;
   sel_btn_icon_text_login].

Definition user_click_selectors : list selector :=
  [sel_img_avatar; sel_dot_current_user; sel_data_user_menu;
   sel_header_dropdown_toggle].

Definition cache_files : list string := [cookies_file; session_file].

(** [USERNAME.lower() in text.lower()]. *)
Definition username_in (text : string) : exception + bool :=
  match USERNAME cfg with
  | Some u => inr (contains (str_lower u) (str_lower text))
  | None => inl AttributeError
  end.

Definition inject_enhanced_script : M B unit :=
  try_except
    (command (page_run_js js_enhanced_script) ;;
     logger INFO ScriptInjected)
    (fun e => logger WARNING (ScriptInjectFailed e)).

(** [__init__], after the browser has been started. *)
Definition init : M B unit :=
  let* session := CacheManager.load_session in
  set_session_data session ;;
  set_cache_saved false ;;
  inject_enhanced_script.

Definition save_all_caches : M B unit :=
  try_except
    (let* cookies := command browser_cookies in
     (if truthy cookies then
        CacheManager.save_cookies cookies ;; ret tt
      else ret tt) ;;
     let* last_success := CacheManager.datetime_now_isoformat in
     let* last_updated := CacheManager.datetime_now_isoformat in
     let* session := get_session_data in
     let* updated :=
       lift (py_update session
               [("last_success", VStr last_success);
                ("login_status", VStr "success");
                ("last_updated", VStr last_updated)]) in
     set_session_data updated ;;
     CacheManager.save_session updated ;;
     logger INFO AllCachesSaved ;;
     set_cache_saved true)
    (fun e => logger ERROR (SaveCachesFailed e)).

Definition clear_one (file_name : string) : M B (ctl unit) :=
  let* there := CacheManager.os_path_exists file_name in
  (if there then
     CacheManager.os_remove file_name ;;
     logger INFO (CacheCleared file_name)
   else ret tt) ;;
  ret Next.

Definition clear_caches : M B unit :=
  try_except
    (for_each cache_files clear_one ;;
     set_session_data (VDict []) ;;
     logger INFO AllCachesCleared)
    (fun e => logger ERROR (ClearCachesFailed e)).

(** One turn of the loop over [user_click_selectors]. *)
Definition open_user_menu (sel : selector) : M B (ctl bool) :=
  let* user_elem := query (page_ele sel) in
  if user_elem then
    command (ele_click sel) ;;
    time_sleep 2 ;;
    let* user_menu_content := query page_html in
    let* shown := lift (username_in user_menu_content) in
    if shown then
      logger SUCCESS UsernameInMenu ;;
      command (ele_click sel_body) ;;
      ret (Return true)
    else
      command (ele_click sel_body) ;;
      time_sleep 1 ;;
      ret Break
  else ret Next.

Definition verify_username : M B bool :=
  let* page_content := query page_html in
  let* shown := lift (username_in page_content) in
  if shown then logger SUCCESS UsernameInPage ;; ret true
  else
    let* returned :=
      try_except (for_each user_click_selectors open_user_menu)
                 (fun _ => ret None) in
    match returned with
    | Some b => ret b
    | None => logger WARNING UsernameNotVerified ;; ret false
    end.

(** One turn of the loop over [user_indicators]; [verify_username] is
    called inside the [try]. *)
Definition probe_user (sel : selector) : M B (ctl bool) :=
  try_except
    (let* user_elem := query (page_ele sel) in
     if user_elem then
       logger SUCCESS UserElementFound ;;
       let* verified := verify_username in
       ret (Return verified)
     else ret Next)
    (fun _ => ret Next).

(** One turn of the loop over [login_buttons]. *)
Definition probe_login_button (sel : selector) : M B (ctl bool) :=
  try_except
    (let* login_btn := query (page_ele sel) in
     if login_btn then
       logger WARNING LoginButtonFound ;; ret (Return false)
     else ret Next)
    (fun _ => ret Next).

(** The end of [check_login_status], reached when neither loop returned. *)
Definition undetermined_status : M B bool :=
  let* page_content := query page_html in
  let* title1 := query page_title in
  let* clear :=
    (if negb (contains "请稍候" title1) then
       let* title2 := query page_title in
       ret (negb (contains "Checking" title2))
     else ret false) in
  let* guessed :=
    (if clear then
       let* shown := lift (username_in page_content) in
       if shown then logger SUCCESS UsernameInPage ;; ret (Some true)
       else if (1000 <? py_len page_content)%nat then
         logger SUCCESS PageLooksNormal ;; ret (Some true)
       else ret None
     else ret None) in
  match guessed with
  | Some b => ret b
  | None =>
      let* title3 := query page_title in
      logger WARNING LoginStatusUnknown ;;
      ret false
  end.

Definition check_login_status : M B bool :=
  try_except
    (let* by_user := for_each user_indicators probe_user in
     match by_user with
     | Some b => ret b
     | None =>
         let* by_button := for_each login_buttons probe_login_button in
         match by_button with
         | Some b => ret b
         | None => undetermined_status
         end
     end)
    (fun e => logger WARNING (LoginStatusError e) ;; ret false).

Definition try_cache_first_approach : M B bool :=
  try_except
    (let* cached_cookies := CacheManager.load_cookies in
     let* cached_cf_valid :=
       CloudflareHandler.is_cf_cookie_valid (py_or cached_cookies (VList [])) in
     if cached_cf_valid then
       logger INFO CacheFirstTry ;;
       (if truthy cached_cookies then command (page_set_cookies cached_cookies)
        else ret tt) ;;
       command (page_get HOME_URL) ;;
       time_sleep 5 ;;
       let* login_status := check_login_status in
       if login_status then logger SUCCESS CacheFirstLoggedIn ;; ret true
       else logger WARNING CacheFirstNotLoggedIn ;; ret false
     else logger INFO CacheFirstNoCookie ;; ret false)
    (fun e => logger ERROR (CacheFirstFailed e) ;; ret false).

(** One turn of the loop of [getTurnstileToken]. *)
Definition turnstile_once (i : nat) : M B (ctl value) :=
  let* c :=
    try_except
      (let* response := command (page_run_js js_turnstile_get_response) in
       if truthy response then ret (Return response)
       else command turnstile_click ;; ret Next)
      (fun e => logger WARNING (TurnstileError e) ;; ret Next) in
  match c with
  | Return v => ret (Return v)
  | _ => time_sleep 1 ;; ret Next
  end.

Definition getTurnstileToken : M B value :=
  command (page_run_js js_turnstile_reset) ;;
  let* returned := for_each (seq 0 5) turnstile_once in
  match returned with
  | Some v => ret v
  | None => ret VNone
  end.

Definition login : M B bool :=
  let* cache_success := try_cache_first_approach in
  if cache_success then
    logger SUCCESS CachedLoginOk ;;
    let* saved := get_cache_saved in
    (if negb saved then save_all_caches else ret tt) ;;
    ret true
  else
    logger INFO LoginStart ;;
    command (page_get LOGIN_URL) ;;
    time_sleep 2 ;;
    let* cf_success :=
      CloudflareHandler.handle_cloudflare
        CloudflareHandler.default_max_attempts
        CloudflareHandler.default_timeout in
    (if negb cf_success then logger WARNING CfNotPassedContinue else ret tt) ;;
    let* turnstile_token := getTurnstileToken in
    logger INFO TurnstileToken ;;
    command (ele_input sel_login_account_name (USERNAME cfg)) ;;
    command (ele_input sel_login_account_password (PASSWORD cfg)) ;;
    command (ele_click sel_id_login_button) ;;
    time_sleep 10 ;;
    let* login_success := check_login_status in
    if login_success then
      logger INFO LoginOk ;;
      let* saved := get_cache_saved in
      (if negb saved then save_all_caches else ret tt) ;;
      ret true
    else logger ERROR LoginFailed ;; ret false.

(** The loop of [random.sample] over a pool: an item is drawn, and the
    last item of the pool takes its place.  The pool never runs out while
    [k] is at most its length. *)
Fixpoint sample_pool {A} (pool : list A) (k : nat) : M B (list A) :=
  match k with
  | O => ret []
  | S k' =>
      let* j := randbelow (length pool) in
      match pool !! j, pool !! (length pool - 1)%nat with
      | Some x, Some y =>
          let* rest := sample_pool (take (length pool - 1) (<[j := y]> pool)) k' in
          ret (x :: rest)
      | _, _ => ret []
      end
  end.

(** [random.sample(population, k)]: [ValueError] when [k] exceeds the
    population, else [k] items from [k] different positions, in the order
    they were drawn.  CPython draws them from a pool, as modelled, when the
    population is small (at most 21 items, more when [k > 5]) and otherwise
    draws positions until it has [k] different ones; either way the result
    is such a selection, and which one is for the random source to say. *)
Definition random_sample {A} (population : list A) (k : nat) : M B (list A) :=
  if (length population <? k)%nat then raise (Exception ValueError)
  else sample_pool population k.

(** The body of [click_one_topic], before decoration. *)
Definition click_one_topic_body (topic_url : value) : M B value :=
  command new_tab ;;
  try_finally
    (let* full_url :=
       match topic_url with
       | VStr u => ret (if String.prefix "/" u then String.append "https://linux.do" u else u)
       | _ => raise (Exception AttributeError)
       end in
     command (tab_get full_url) ;;
     time_sleep 3 ;;
     guarded tab_trigger_statistical_events ;;
     command tab_enhanced_browse_post ;;
     let* u := random_random in
     (if negb (Qle_bool (1 # 4) u) then guarded tab_click_like ;; ret tt
      else ret tt) ;;
     ret VNone)
    (command tab_close).

(** [@retry_decorator()]. *)
Definition click_one_topic (topic_url : value) : M B value :=
  retry_decorator 3 (click_one_topic_body topic_url).

(** The three lines that update the browse history after the visit of
    [topic]; the [href] is read from the page a second time. *)
Definition update_browse_history (topic : element) : M B unit :=
  let* session := get_session_data in
  let* browse_history := lift (py_get session "browse_history" (VList [])) in
  let* append := lift (py_append browse_history) in
  let* href := query (ele_attr_href topic) in
  let* kept := lift (py_last 50 (append (attr_value href))) in
  let* session' := lift (py_setitem session "browse_history" kept) in
  set_session_data session'.

(** One turn of the loop over [enumerate(selected_topics)].  The reads of
    the [href] are calls to the browser outside of [click_one_topic] and
    its retry wrapper. *)
Definition visit_topic (browse_count : nat) (it : nat * element)
  : M B (ctl unit) :=
  let '(i, topic) := it in
  logger INFO (BrowseProgress (i + 1) browse_count) ;;
  let* href := query (ele_attr_href topic) in
  click_one_topic (attr_value href) ;;
  update_browse_history topic ;;
  (if (i <? browse_count - 1)%nat then
     let* delay := random_uniform 8 15 in
     logger INFO (TopicDelay delay) ;;
     time_sleep delay
   else ret tt) ;;
  ret Next.

Definition enumerate {A} (l : list A) : list (nat * A) :=
  combine (seq 0 (length l)) l.

Definition click_topic : M B unit :=
  let* first_list := command list_area_titles in
  let* topic_list :=
    (match first_list with
     | [] =>
         logger WARNING NoTopicsRefresh ;;
         command page_refresh ;;
         time_sleep 3 ;;
         command list_area_titles
     | _ => ret first_list
     end) in
  let topic_count := length topic_list in
  let* drawn := random_randint 4 8 in
  let browse_count := Nat.min drawn topic_count in
  logger INFO (TopicsFound topic_count browse_count) ;;
  let* selected_topics := random_sample topic_list browse_count in
  for_each (enumerate selected_topics) (visit_topic browse_count) ;;
  ret tt.

Definition print_connect_info : M B unit :=
  logger INFO ConnectInfoStart ;;
  command new_tab ;;
  command (tab_get "https://connect.linux.do/") ;;
  time_sleep 3 ;;
  try_except
    (let* info := command tab_connect_rows in
     print (Line "--------------Connect Info-----------------") ;;
     print (Table info ["项目"; "当前"; "要求"]))
    (fun e => logger ERROR (ConnectInfoFailed e)) ;;
  command tab_close.

Definition run : M B unit :=
  let* logged_in := login in
  (if negb logged_in then
     logger ERROR LoginFailedTerminate ;;
     clear_caches ;;
     sys_exit 1
   else ret tt) ;;
  (if BROWSE_ENABLED cfg then
     click_topic ;;
     logger INFO BrowseDone ;;
     let* last_browse := CacheManager.datetime_now_isoformat in
     let* session := get_session_data in
     let* session1 := lift (py_setitem session "last_browse" (VStr last_browse)) in
     set_session_data session1 ;;
     let* total := lift (py_get session1 "total_browsed" (VNum 0)) in
     let* total' := lift (py_succ total) in
     let* session2 := lift (py_setitem session1 "total_browsed" total') in
     set_session_data session2 ;;
     let* saved := get_cache_saved in
     if negb saved then save_all_caches else ret tt
   else ret tt) ;;
  print_connect_info ;;
  command page_close ;;
  command browser_quit.

(** The [if __name__ == "__main__":] block. *)
Definition main : M B unit :=
  if unset (USERNAME cfg) || unset (PASSWORD cfg) then
    print (Line "Please set LINUXDO_USERNAME and LINUXDO_PASSWORD environment variables") ;;
    sys_exit 1
  else
    logger INFO ScriptStart ;;
    init ;;
    run ;;
    logger INFO ScriptDone.

End WithBrowser.
End LinuxDoBrowser.

(* ===================================================================== *)
(** ** A simulated browser, to run the script on concrete inputs *)
(* ===================================================================== *)

(** The main page answers with fixed values; [sim_topics] holds, for each
    topic of the list, what reading its [href] gives; loading a page in the
    auxiliary tab fails as many times as [sim_tab_failures] says and is
    recorded in [sim_visited] when it works. *)
Record sim : Type := Sim {
  sim_title : exception + string;
  sim_url : exception + string;
  sim_html : exception + string;
  sim_ele : selector -> exception + bool;
  sim_lag : Q;
  sim_topics : list (exception + option string);
  sim_tab_failures : nat;
  sim_visited : list string
}.

Definition sim_done {A} (a : A) (b : sim) : reply sim A := Reply (inr a) 0 b.

Definition sim_attr_href (topic : element) (b : sim) : exception + option string :=
  match sim_topics b !! topic with
  | Some a => a
  | None => inl (BrowserError "no such element")
  end.

Definition sim_tab_get (url : string) (b : sim) : reply sim unit :=
  match sim_tab_failures b with
  | O =>
      Reply (inr tt) 0
            (Sim (sim_title b) (sim_url b) (sim_html b) (sim_ele b) (sim_lag b)
                 (sim_topics b) 0 (sim_visited b ++ [url]))
  | S n =>
      Reply (inl (BrowserError "load failed")) 0
            (Sim (sim_title b) (sim_url b) (sim_html b) (sim_ele b) (sim_lag b)
                 (sim_topics b) n (sim_visited b))
  end.

#[export] Instance sim_chromium : Chromium sim := {
  page_title := sim_title;
  page_url := sim_url;
  page_html := sim_html;
  page_ele := fun sel b => sim_ele b sel;
  ele_attr_href := sim_attr_href;
  query_lag := sim_lag;
  elapse := fun _ b => b;
  page_set_cookies := fun _ => sim_done tt;
  page_get := fun _ => sim_done tt;
  page_refresh := sim_done tt;
  page_run_js := fun _ => sim_done VNone;
  ele_click := fun _ => sim_done tt;
  ele_input := fun _ _ => sim_done tt;
  turnstile_click := sim_done tt;
  browser_cookies := sim_done (VList []);
  list_area_titles := fun b => sim_done (seq 0 (length (sim_topics b))) b;
  new_tab := sim_done tt;
  tab_get := sim_tab_get;
  tab_trigger_statistical_events := fun b => (tt, 0%Q, b);
  tab_enhanced_browse_post := sim_done tt;
  tab_click_like := fun b => (false, 0%Q, b);
  tab_connect_rows := sim_done [];
  tab_close := sim_done tt;
  page_close := sim_done tt;
  browser_quit := sim_done tt
}.

(** No element is found. *)
Definition no_element (sel : selector) : exception + bool := inr false.

(** A world at clock value [now] with the given files and browser, an empty
    log and no failing system call. *)
Definition boot {B} (now : Q) (files : gmap string file) (b : B) : world B :=
  World now (fun _ => "2024-01-01T00:00:00") files (fun _ _ => false)
        [] [] [] (VDict []) false b.

(** A browser that has stopped answering: every query of the main page
    hangs for 30 seconds and then raises. *)
Definition hung_browser : sim :=
  Sim (inl (BrowserError "timeout")) (inl (BrowserError "timeout"))
      (inl (BrowserError "timeout")) no_element 30 [] 0 [].

(** A page that stays on the interstitial. *)
Definition interstitial_page : sim :=
  Sim (inr "请稍候…") (inr "https://linux.do/login") (inr "<html></html>")
      no_element 0 [] 0 [].

(* ===================================================================== *)
(** ** Vocabulary of the statements *)
(* ===================================================================== *)

(** The document on disk after a save at the clock value of [w]. *)
Definition saved_file {B} (w : world B) (data : value) : file :=
  File (Json (json_form
                (CacheManager.data_to_save data (isoformat w (clock w)) (clock w))))
       (clock w).

(** Some call of the write path of [save_cache] fails for this file. *)
Definition save_fails {B} (w : world B) (file_name : string) : bool :=
  io_fails w OpenWrite file_name || io_fails w Dump file_name
  || io_fails w Utime file_name.

(** What [check_cookie] decides for one item at clock value [now]. *)
Definition cookie_verdict (now : Q) (cookie : value) : exception + bool :=
  match py_get cookie "name" VNone with
  | inl e => inl e
  | inr name =>
      if py_eq_str name "cf_clearance" then
        match py_get cookie "expires" (VNum 0) with
        | inl e => inl e
        | inr expires =>
            if py_eq_num expires (-1) then inr true else py_gt expires now
        end
      else inr false
  end.

(** An entry of a cookie set: a record with a numeric [expires]. *)
Definition cookie_entry (c : value) : Prop :=
  exists d e, c = VDict d /\ dict_get "expires" d = Some (VNum e).

(** An entry named [cf_clearance] whose [expires] is [-1] or lies after
    [now]. *)
Definition live_clearance (now : Q) (c : value) : Prop :=
  exists d e,
    c = VDict d
    /\ dict_get "name" d = Some (VStr "cf_clearance")
    /\ dict_get "expires" d = Some (VNum e)
    /\ (e == -1 \/ now < e)%Q.

(** A clearance cookie as the browser reports it. *)
Definition clearance_cookie (expires : Q) : value :=
  VDict [("name", VStr "cf_clearance");
         ("value", VStr "token");
         ("domain", VStr ".linux.do");
         ("expires", VNum expires)].

(** The log lines that mark a turn of the polling loop. *)
Definition is_attempt (e : entry) : bool :=
  match msg e with
  | CfPageLoaded | CfWaiting _ _ _ | CfException _ _ => true
  | _ => false
  end.

Definition attempts (l : list entry) : nat :=
  length (List.filter is_attempt l).
Arguments attempts l : simpl never.

(** A computation that leaves the session metadata alone and never ends
    the process. *)
Definition exits {A} (r : result A) : bool :=
  match r with
  | Raise (SystemExit _) => true
  | _ => false
  end.

Definition tame {B A} (c : M B A) : Prop :=
  forall w r w',
    c w = (r, w') -> session_data w' = session_data w /\ exits r = false.

Section IdentityVocabulary.
Context {B : Type} `{Chromium B}.
Variable cfg : config.
Variable str_lower : string -> string.


(** Some marker of a logged-in user is on the page. *)
Definition user_element_found (b : B) : Prop :=
  Exists (fun sel => page_ele sel b = inr true) LinuxDoBrowser.user_indicators.

End IdentityVocabulary.


Definition alice : config := Config (Some "Alice") (Some "secret") true.

(** Lower-casing of the ASCII letters. *)
Fixpoint ascii_lower (s : string) : string :=
  match s with
  | EmptyString => EmptyString
  | String c s' =>
      let n := nat_of_ascii c in
      String (if (65 <=? n)%nat && (n <=? 90)%nat then ascii_of_nat (n + 32)
              else c)
             (ascii_lower s')
  end.

(** The browse history a session holds: empty when the key is missing,
    nothing when the session or the entry has another type. *)
Definition browse_history_of (session : value) : option (list value) :=
  match session with
  | VDict d =>
      match dict_get "browse_history" d with
      | Some (VList l) => Some l
      | Some _ => None
      | None => Some []
      end
  | _ => None
  end.

Section RetryVocabulary.
Context {B : Type} `{Chromium B}.

(** The world after the [except] branch of [wrapper] has handled the
    exception [e] of attempt number [attempt]. *)
Definition backed_off (retries attempt : nat) (e : exception) (w : world B)
  : world B :=
  let w1 :=
    if Nat.eqb attempt (retries - 1) then logged ERROR (RetryFinalFailure e) w
    else w in
  let w2 := logged WARNING (RetryAttemptFailed (attempt + 1) retries e) w1 in
  waited 1 (elapse 1 (browser w2)) w2.

End RetryVocabulary.

(** A session whose browse history is full, on a page that lists one
    topic. *)
Definition full_history : world sim :=
  World 0 (fun _ => "2024-01-01T00:00:00") ∅ (fun _ _ => false) [] [] []
        (VDict [("total_browsed", VNum 7);
                ("browse_history", VList (List.repeat (VStr "/t/topic/old") 50))])
        false
        (Sim (inr "LINUX DO") (inr "https://linux.do/") (inr "<html></html>")
             no_element 0 [inr (Some "/t/topic/new")] 0 []).

(** A topic list on a browser whose tab fails to load twice. *)
Definition flaky_tab : sim :=
  Sim (inr "LINUX DO") (inr "https://linux.do/") (inr "<html></html>")
      no_element 0 [inr (Some "/t/topic/1"); inr (Some "/t/topic/2")] 2 [].

(** The login page: the only marker found is the login button. *)
Definition login_page : sim :=
  Sim (inr "LINUX DO") (inr LOGIN_URL) (inr "<html></html>")
      (fun sel => match sel with
                  | sel_login_button => inr true
                  | _ => inr false
                  end)
      0 [] 0 [].

(** Both cache files on disk, written at clock value 0. *)
Definition both_caches : gmap string file :=
  <[cookies_file :=
      File (Json (CacheManager.data_to_save (VList [clearance_cookie 900])
                    "1970-01-01T00:00:00" 0)) 0]>
    (<[session_file :=
         File (Json (CacheManager.data_to_save
                       (VDict [("login_status", VStr "success")])
                       "1970-01-01T00:00:00" 0)) 0]> ∅).

(** A world at clock value 1000 where the system refuses to remove files. *)
Definition undeletable (b : sim) : world sim :=
  World 1000 (fun _ => "2024-01-01T00:00:00") both_caches
        (fun op _ => match op with Remove => true | _ => false end)
        [] [] [] (VDict []) false b.

(** A world, with both cache files, where the disk is full: a file can be
    opened for writing, and writing to it fails. *)
Definition disk_full {B} (now : Q) (b : B) : world B :=
  World now (fun _ => "2024-01-01T00:00:00") both_caches
        (fun op _ => match op with Dump => true | _ => false end)
        [] [] [] (VDict []) false b.

(** A draw of [random.random()]. *)
Definition unit_draw (u : Q) : Prop := (0 <= u <= 1)%Q.

(** An interstitial that each query takes 100 seconds to read. *)
Definition slow_interstitial : sim :=
  Sim (inr "请稍候…") (inr "https://linux.do/login") (inr "<html></html>")
      no_element 100 [] 0 [].

(** Cached cookies with a clearance cookie that never expires. *)
Definition fresh_caches : gmap string file :=
  <[cookies_file :=
      File (Json (CacheManager.data_to_save (VList [clearance_cookie (-1)])
                    "1970-01-01T00:00:00" 0)) 0]> ∅.

(** The log lines of the retry wrapper. *)
Definition is_retry_warning (e : entry) : bool :=
  match lvl e, msg e with
  | WARNING, RetryAttemptFailed _ _ _ => true
  | _, _ => false
  end.

Definition is_retry_error (e : entry) : bool :=
  match lvl e, msg e with
  | ERROR, RetryFinalFailure _ => true
  | _, _ => false
  end.

Definition count (p : entry -> bool) (l : list entry) : nat :=
  length (List.filter p l).
Arguments count p l : simpl never.

(** A function that always fails, at once and without a log line. *)
Definition always_failing {B} (func : M B value) : Prop :=
  forall w, exists e w',
    func w = (Raise (Exception e), w')
    /\ (clock w' == clock w)%Q /\ log w' = log w.

(** A page that names Alice and still offers the login button. *)
Definition guest_page : sim :=
  Sim (inr "LINUX DO") (inr HOME_URL) (inr "<p>latest post by alice</p>")
      (fun sel => match sel with
                  | sel_btn_icon_text_login => inr true
                  | sel_login_button => inl (BrowserError "stale element")
                  | _ => inr false
                  end)
      0 [] 0 [].

(** A page with the avatar of the user and her name. *)
Definition member_page : sim :=
  Sim (inr "LINUX DO") (inr HOME_URL) (inr "<a href='/u/alice'>Alice</a>")
      (fun sel => match sel with
                  | sel_img_avatar => inr true
                  | sel_current_user => inl (BrowserError "stale element")
                  | _ => inr false
                  end)
      0 [] 0 [].

Definition nobody : config := Config None (Some "secret") true.

(** The session metadata after the update of [save_all_caches] at the time
    stamp [iso]. *)
Definition marked_success (d : list (string * value)) (iso : string)
  : list (string * value) :=
  dict_set "last_updated" (VStr iso)
    (dict_set "login_status" (VStr "success")
       (dict_set "last_success" (VStr iso) d)).

(** No system call is refused. *)
Definition healthy {B} (w : world B) : Prop :=
  forall op file_name, io_fails w op file_name = false.

(** [w'] differs from [w] by consumed random draws only. *)
Definition only_draws {B} (w w' : world B) : Prop :=
  clock w' = clock w /\ log w' = log w /\ fs w' = fs w
  /\ io_fails w' = io_fails w /\ session_data w' = session_data w
  /\ cache_saved w' = cache_saved w /\ browser w' = browser w.

(** The browse history after visits of topics with the addresses [hrefs],
    in order. *)
Definition history_after (old : list value) (hrefs : list (option string))
  : list value :=
  fold_left (fun h href => last_n 50 (h ++ [attr_value href])) hrefs old.


(** A property of the main page that survives the passing of time and
    everything the script does in an auxiliary tab. *)
Definition kept_by_tabs {B} `{Chromium B} (P : B -> Prop) : Prop :=
  (forall d b, P b -> P (elapse d b))
  /\ (forall b, P b -> P (after (new_tab b)))
  /\ (forall url b, P b -> P (after (tab_get url b)))
  /\ (forall b, P b -> P (snd (tab_trigger_statistical_events b)))
  /\ (forall b, P b -> P (after (tab_enhanced_browse_post b)))
  /\ (forall b, P b -> P (snd (tab_click_like b)))
  /\ (forall b, P b -> P (after (tab_close b))).

(** A computation that keeps a property of the browser. *)
Definition keeps {B A} (P : B -> Prop) (c : M B A) : Prop :=
  forall w r w', P (browser w) -> c w = (r, w') -> P (browser w').

(** A browser that lists its topics and refuses everything else, opening a
    tab included. *)
Record kiosk : Type := Kiosk { kiosk_topics : list (option string) }.

Definition kiosk_refuses {A} (b : kiosk) : reply kiosk A :=
  Reply (inl (BrowserError "refused")) 0 b.

#[export] Instance kiosk_chromium : Chromium kiosk := {
  page_title := fun _ => inr "LINUX DO";
  page_url := fun _ => inr HOME_URL;
  page_html := fun _ => inr "<html></html>";
  page_ele := fun _ _ => inr false;
  ele_attr_href := fun topic b =>
    match kiosk_topics b !! topic with
    | Some a => inr a
    | None => inl (BrowserError "no such element")
    end;
  query_lag := fun _ => 0%Q;
  elapse := fun _ b => b;
  page_set_cookies := fun _ => kiosk_refuses;
  page_get := fun _ => kiosk_refuses;
  page_refresh := kiosk_refuses;
  page_run_js := fun _ => kiosk_refuses;
  ele_click := fun _ => kiosk_refuses;
  ele_input := fun _ _ => kiosk_refuses;
  turnstile_click := kiosk_refuses;
  browser_cookies := kiosk_refuses;
  list_area_titles := fun b => Reply (inr (seq 0 (length (kiosk_topics b)))) 0 b;
  new_tab := kiosk_refuses;
  tab_get := fun _ => kiosk_refuses;
  tab_trigger_statistical_events := fun b => (tt, 0%Q, b);
  tab_enhanced_browse_post := kiosk_refuses;
  tab_click_like := fun b => (false, 0%Q, b);
  tab_connect_rows := kiosk_refuses;
  tab_close := kiosk_refuses;
  page_close := kiosk_refuses;
  browser_quit := kiosk_refuses
}.

(** Six topics on such a browser. *)
Definition six_topics : kiosk :=
  Kiosk [Some "/t/1"; Some "/t/2"; None; Some "/t/4"; Some "/t/5"; Some "/t/6"].

(** A log line of level [INFO]. *)
Definition is_info (e : entry) : Prop := lvl e = INFO.


(** A page that lists five topics, the last of which is gone from the
    page when its address is read. *)
Definition lost_topic : sim :=
  Sim (inr "LINUX DO") (inr HOME_URL) (inr "<html></html>") no_element 0
      [inr (Some "/t/1"); inr (Some "/t/2"); inr (Some "/t/3");
       inr (Some "/t/4"); inl (BrowserError "element lost")]
      0 [].

(* ===================================================================== *)
(** * Properties *)
(* ===================================================================== *)

(** ** Values and their JSON form *)

(** Induction on values, through the lists they contain. *)
Lemma value_nested_ind (P : value -> Prop) :
  P VNone ->
  (forall b, P (VBool b)) ->
  (forall q, P (VNum q)) ->
  (forall s, P (VStr s)) ->
  (forall l, Forall P l -> P (VList l)) ->
  (forall d, Forall (fun kv => P (snd kv)) d -> P (VDict d)) ->
  (forall l, Forall P l -> P (VTuple l)) ->
  forall v, P v.
Proof.
  intros HNone HBool HNum HStr HList HDict HTuple.
  fix IH 1. intros [| b | q | s | l | d | l].
  - exact HNone.
  - apply HBool.
  - apply HNum.
  - apply HStr.
  - apply HList. revert l. fix IHl 1. intros [| x l].
    + constructor.
    + constructor; [apply IH | apply IHl].
  - apply HDict. revert d. fix IHd 1. intros [| [k x] d].
    + constructor.
    + constructor; [apply IH | apply IHd].
  - apply HTuple. revert l. fix IHl 1. intros [| x l].
    + constructor.
    + constructor; [apply IH | apply IHl].
Qed.

(** A value without tuples is read back as it was written. *)
Lemma json_form_native v : json_native v = true -> json_form v = v.
Proof.
  induction v as [| b | q | s | l IHl | d IHd | l IHl] using value_nested_ind;
    cbn [json_native json_form]; intros Hnative;
    try reflexivity; try discriminate.
  - f_equal. induction IHl as [| x l Hx _ IH]; [reflexivity |].
    cbn in Hnative. apply andb_prop in Hnative as [Hhead Htail].
    cbn. rewrite (Hx Hhead), (IH Htail). reflexivity.
  - f_equal. induction IHd as [| [k x] d Hx _ IH]; [reflexivity |].
    cbn in Hnative. apply andb_prop in Hnative as [Hhead Htail].
    cbn in Hx |- *. rewrite (Hx Hhead), (IH Htail). reflexivity.
Qed.

(** A record stays free of tuples when a member without tuples is set. *)
Lemma json_native_dict_set k v d :
  json_native (VDict d) = true -> json_native v = true ->
  json_native (VDict (dict_set k v d)) = true.
Proof.
  cbn [json_native]. intros Hd Hv.
  induction d as [| [k' v'] d IH]; cbn.
  - rewrite Hv. reflexivity.
  - cbn in Hd. apply andb_prop in Hd as [Hhead Htail].
    destruct (String.eqb k k'); cbn.
    + rewrite Hv, Htail. reflexivity.
    + rewrite Hhead, (IH Htail). reflexivity.
Qed.

(** ** The log *)

Lemma attempts_snoc l e :
  attempts (l ++ [e]) = (attempts l + (if is_attempt e then 1 else 0))%nat.
Proof.
  unfold attempts. rewrite List.filter_app, length_app. cbn.
  destruct (is_attempt e); reflexivity.
Qed.

(** ** The cache store *)

Section CacheFacts.
Context {B : Type}.
Implicit Types (w : world B) (file_name : string).

Lemma get_file_age_hours_present w file_name f :
  fs w !! file_name = Some f ->
  CacheManager.get_file_age_hours file_name w
  = (Ok (Some ((clock w - mtime f) / 3600)%Q), w).
Proof.
  intros Hf.
  unfold CacheManager.get_file_age_hours, bind, CacheManager.os_path_exists,
    CacheManager.os_path_getmtime, time_time, ret.
  rewrite Hf. cbn. rewrite Hf. reflexivity.
Qed.

(** [load_cache] on a file that holds a JSON document. *)
Lemma load_cache_json w file_name doc t :
  fs w !! file_name = Some (File (Json doc) t) ->
  CacheManager.load_cache file_name w
  = match py_get doc "data" doc with
    | inr payload =>
        (Ok payload,
         logged INFO (CacheLoaded file_name ((clock w - t) / 3600)%Q) w)
    | inl e =>
        (Ok VNone,
         logged WARNING (CacheLoadFailed file_name e)
           (logged INFO (CacheLoaded file_name ((clock w - t) / 3600)%Q) w))
    end.
Proof.
  intros Hf.
  unfold CacheManager.load_cache, bind, CacheManager.os_path_exists, try_except.
  rewrite Hf.
  unfold CacheManager.json_load. rewrite Hf.
  rewrite (get_file_age_hours_present w file_name _ Hf). cbn [mtime].
  unfold logger, lift.
  destruct (py_get doc "data" doc) as [e | payload]; reflexivity.
Qed.

Lemma load_cache_garbled w file_name bytes t :
  fs w !! file_name = Some (File (Garbled bytes) t) ->
  CacheManager.load_cache file_name w
  = (Ok VNone, logged WARNING (CacheLoadFailed file_name JSONDecodeError) w).
Proof.
  intros Hf.
  unfold CacheManager.load_cache, bind, CacheManager.os_path_exists, try_except.
  rewrite Hf.
  unfold CacheManager.json_load. rewrite Hf. reflexivity.
Qed.

Lemma load_cache_missing w file_name :
  fs w !! file_name = None ->
  CacheManager.load_cache file_name w
  = (Ok VNone, logged INFO (CacheMissing file_name) w).
Proof.
  intros Hf.
  unfold CacheManager.load_cache, bind, CacheManager.os_path_exists.
  rewrite Hf. reflexivity.
Qed.

(** A document that is not a record has no [get]: the [except] branch
    takes it for a failed load. *)
Lemma load_cache_bare_list w file_name l t :
  fs w !! file_name = Some (File (Json (VList l)) t) ->
  exists w',
    CacheManager.load_cache file_name w = (Ok VNone, w')
    /\ log w'
       = log w ++ [Entry (clock w) INFO (CacheLoaded file_name ((clock w - t) / 3600)%Q);
                   Entry (clock w) WARNING (CacheLoadFailed file_name AttributeError)].
Proof.
  intros Hf. rewrite (load_cache_json _ _ _ _ Hf). cbn [py_get].
  eexists. split; [reflexivity |]. cbn. rewrite <- app_assoc. reflexivity.
Qed.

(** [load_cache] always hands a value back and leaves the files alone. *)
Lemma load_cache_returns w file_name :
  exists v w', CacheManager.load_cache file_name w = (Ok v, w')
               /\ fs w' = fs w /\ clock w' = clock w
               /\ io_fails w' = io_fails w /\ browser w' = browser w
               /\ session_data w' = session_data w
               /\ attempts (log w') = attempts (log w).
Proof.
  destruct (fs w !! file_name) as [[[doc | bytes] t] |] eqn:Hf.
  - rewrite (load_cache_json _ _ _ _ Hf).
    destruct (py_get doc "data" doc); do 2 eexists;
      (split; [reflexivity |]); cbn; rewrite !attempts_snoc; cbn;
      repeat split; lia.
  - rewrite (load_cache_garbled _ _ _ _ Hf). do 2 eexists.
    split; [reflexivity |]. cbn. rewrite !attempts_snoc. cbn.
    repeat split; lia.
  - rewrite (load_cache_missing _ _ Hf). do 2 eexists.
    split; [reflexivity |]. cbn. rewrite !attempts_snoc. cbn.
    repeat split; lia.
Qed.

(** [save_cache] when every call goes through. *)
Lemma save_cache_success w data file_name :
  save_fails w file_name = false ->
  exists w',
    CacheManager.save_cache data file_name w = (Ok true, w')
    /\ fs w' = <[file_name := saved_file w data]> (fs w)
    /\ clock w' = clock w /\ isoformat w' = isoformat w
    /\ io_fails w' = io_fails w /\ browser w' = browser w
    /\ exists age, log w' = log w ++ [Entry (clock w) INFO (CacheSaved file_name age)].
Proof.
  unfold save_fails. intros Hok.
  apply orb_false_elim in Hok as [Hok Hutime].
  apply orb_false_elim in Hok as [Hopen Hdump].
  unfold CacheManager.save_cache, try_except, bind,
    CacheManager.datetime_now_isoformat, time_time, CacheManager.open_write.
  rewrite Hopen.
  unfold CacheManager.json_dump, set_fs. cbn. rewrite Hdump.
  unfold CacheManager.os_utime. cbn. rewrite Hutime.
  rewrite lookup_insert_eq. cbn.
  unfold CacheManager.get_file_age_hours, bind, CacheManager.os_path_exists.
  cbn. rewrite lookup_insert_eq. cbn.
  unfold CacheManager.os_path_getmtime. cbn. rewrite lookup_insert_eq. cbn.
  unfold CacheManager.os_path_getsize. cbn. rewrite lookup_insert_eq. cbn.
  eexists. split; [reflexivity |]. cbn.
  repeat split; eauto.
  unfold saved_file. rewrite !insert_insert_eq. reflexivity.
Qed.

(** [save_cache] when a call fails: the exception is caught and logged. *)
Lemma save_cache_failure w data file_name :
  save_fails w file_name = true ->
  exists w',
    CacheManager.save_cache data file_name w = (Ok false, w')
    /\ log w' = log w ++ [Entry (clock w) ERROR (CacheSaveFailed file_name OSError)].
Proof.
  unfold save_fails. intros Hbad.
  unfold CacheManager.save_cache, try_except, bind,
    CacheManager.datetime_now_isoformat, time_time, CacheManager.open_write.
  destruct (io_fails w OpenWrite file_name) eqn:Hopen.
  { eexists. split; reflexivity. }
  unfold CacheManager.json_dump, set_fs. cbn.
  destruct (io_fails w Dump file_name) eqn:Hdump.
  { eexists. split; reflexivity. }
  unfold CacheManager.os_utime. cbn.
  destruct (io_fails w Utime file_name) eqn:Hutime.
  { eexists. split; reflexivity. }
  discriminate Hbad.
Qed.

End CacheFacts.

(** C7. For every cache key, [load_cache] never raises: it hands back the
    stored payload when the file exists and deserializes to a record with a
    [data] member, and [None] both when the file does not exist (an info
    line is logged) and when deserialization fails (a warning is logged). *)
Theorem load_cache_payload_or_absent {B} (w : world B) (file_name : string) :
  (exists v w', CacheManager.load_cache file_name w = (Ok v, w'))
  /\ (fs w !! file_name = None ->
      CacheManager.load_cache file_name w
      = (Ok VNone, logged INFO (CacheMissing file_name) w))
  /\ (forall bytes t,
        fs w !! file_name = Some (File (Garbled bytes) t) ->
        CacheManager.load_cache file_name w
        = (Ok VNone,
           logged WARNING (CacheLoadFailed file_name JSONDecodeError) w))
  /\ (forall d t payload,
        fs w !! file_name = Some (File (Json (VDict d)) t) ->
        dict_get "data" d = Some payload ->
        exists w', CacheManager.load_cache file_name w = (Ok payload, w')
                   /\ fs w' = fs w).
Proof.
  split; [| split; [| split]].
  - destruct (load_cache_returns w file_name) as (v & w' & Hrun & _). eauto.
  - apply load_cache_missing.
  - intros bytes t. apply load_cache_garbled.
  - intros d t payload Hf Hdata.
    rewrite (load_cache_json _ _ _ _ Hf). cbn [py_get]. rewrite Hdata.
    eexists. split; reflexivity.
Qed.

Lemma load_cache_payload_or_absent_witness :
  CacheManager.load_cache cookies_file
    (boot 5 (<[cookies_file := File (Garbled "{") 1]> ∅) tt)
  = (Ok VNone,
     logged WARNING (CacheLoadFailed cookies_file JSONDecodeError)
       (boot 5 (<[cookies_file := File (Garbled "{") 1]> ∅) tt)).
Proof.
  apply (proj1 (proj2 (proj2 (load_cache_payload_or_absent _ _))) "{" 1%Q).
  vm_compute. reflexivity.
Defined.

(** C8. For every payload and cache key, [save_cache] never raises.  When no
    call of its write path fails it writes the document
    [{data, cache_timestamp, cache_version: "1.0", file_created}], with the
    payload in its JSON form under [data], sets the file's modification time
    to the current time after writing and returns [True]; when a call fails
    it returns [False] and logs the error. *)
Theorem save_cache_document_or_false {B} (w : world B) (data : value)
    (file_name : string) :
  exists w',
    CacheManager.save_cache data file_name w
    = (Ok (negb (save_fails w file_name)), w')
    /\ (save_fails w file_name = false ->
        fs w' !! file_name
        = Some (File (Json (VDict [("data", json_form data);
                                   ("cache_timestamp", VStr (isoformat w (clock w)));
                                   ("cache_version", VStr "1.0");
                                   ("file_created", VNum (clock w))]))
                     (clock w)))
    /\ (save_fails w file_name = true ->
        log w' = log w ++ [Entry (clock w) ERROR (CacheSaveFailed file_name OSError)]).
Proof.
  destruct (save_fails w file_name) eqn:Hfaults.
  - destruct (save_cache_failure w data file_name Hfaults) as (w' & Hrun & Hlog).
    exists w'. repeat split; [exact Hrun | discriminate | intros _; exact Hlog].
  - destruct (save_cache_success w data file_name Hfaults)
      as (w' & Hrun & Hfs & _).
    exists w'. repeat split; [exact Hrun | | discriminate].
    intros _. rewrite Hfs, lookup_insert_eq. reflexivity.
Qed.

Lemma save_cache_document_or_false_witness :
  exists w',
    CacheManager.save_cache (VList [VStr "a"]) cookies_file (boot 7 ∅ tt)
    = (Ok true, w')
    /\ fs w' !! cookies_file
       = Some (File (Json (VDict [("data", VList [VStr "a"]);
                                  ("cache_timestamp", VStr "2024-01-01T00:00:00");
                                  ("cache_version", VStr "1.0");
                                  ("file_created", VNum 7)]))
                    7).
Proof.
  destruct (save_cache_document_or_false (boot 7 ∅ tt) (VList [VStr "a"])
              cookies_file) as (w' & Hrun & Hdoc & _).
  exists w'. split; [exact Hrun | apply Hdoc; reflexivity].
Defined.

(** C3, as the code has it.  After a [save_cache] that returned [True] the
    file holds the wrapper [{data, cache_timestamp, cache_version,
    file_created}] with the payload in its JSON form and the time stamps of
    that save; a [load_cache] of the file as it was written returns the
    payload in its JSON form and nothing of the wrapper, which is the
    payload that was saved whenever that holds no tuple.  A later save over
    the file writes the wrapper anew, with its own time stamps. *)
Theorem save_load_round_trip {B} (w w1 : world B) (data : value)
    (file_name : string) :
  CacheManager.save_cache data file_name w = (Ok true, w1) ->
  fs w1 !! file_name
  = Some (File (Json (VDict [("data", json_form data);
                             ("cache_timestamp", VStr (isoformat w (clock w)));
                             ("cache_version", VStr "1.0");
                             ("file_created", VNum (clock w))]))
               (clock w))
  /\ (forall w1' : world B,
        fs w1' !! file_name = fs w1 !! file_name ->
        exists w2,
          CacheManager.load_cache file_name w1' = (Ok (json_form data), w2)
          /\ (json_native data = true ->
              CacheManager.load_cache file_name w1' = (Ok data, w2)))
  /\ (forall (w2 w3 : world B) (data' : value),
        fs w2 !! file_name = fs w1 !! file_name ->
        CacheManager.save_cache data' file_name w2 = (Ok true, w3) ->
        fs w3 !! file_name
        = Some (File (Json (VDict [("data", json_form data');
                                   ("cache_timestamp",
                                    VStr (isoformat w2 (clock w2)));
                                   ("cache_version", VStr "1.0");
                                   ("file_created", VNum (clock w2))]))
                     (clock w2))).
Proof.
  intros Hsave.
  assert (Hwritten :
    forall (u u' : world B) (payload : value),
      CacheManager.save_cache payload file_name u = (Ok true, u') ->
      fs u' !! file_name = Some (saved_file u payload)).
  { intros u u' payload Hrun.
    destruct (save_fails u file_name) eqn:Hfaults.
    - destruct (save_cache_failure u payload file_name Hfaults)
        as (u1 & Hrun1 & _).
      rewrite Hrun1 in Hrun. discriminate Hrun.
    - destruct (save_cache_success u payload file_name Hfaults)
        as (u1 & Hrun1 & Hfs & _).
      rewrite Hrun1 in Hrun. injection Hrun as <-.
      rewrite Hfs. apply lookup_insert_eq. }
  pose proof (Hwritten w w1 data Hsave) as Hfile.
  split; [exact Hfile |]. split.
  - intros w1' Hsame. rewrite Hfile in Hsame.
    rewrite (load_cache_json _ _ _ _ Hsame). cbn.
    eexists. split; [reflexivity |].
    intros Hnative. rewrite (json_form_native data Hnative). reflexivity.
  - intros w2 w3 data' _ Hagain. exact (Hwritten w2 w3 data' Hagain).
Qed.

Lemma save_load_round_trip_witness :
  exists w2,
    CacheManager.load_cache session_file
      (snd (CacheManager.save_cache (VDict [("total_browsed", VNum 3)])
              session_file (boot 9 ∅ tt)))
    = (Ok (VDict [("total_browsed", VNum 3)]), w2).
Proof.
  destruct (save_load_round_trip (boot 9 ∅ tt)
              (snd (CacheManager.save_cache (VDict [("total_browsed", VNum 3)])
                      session_file (boot 9 ∅ tt)))
              (VDict [("total_browsed", VNum 3)]) session_file)
    as (_ & Hload & _); [vm_compute; reflexivity |].
  destruct (Hload _ eq_refl) as (w2 & _ & Hnative).
  exists w2. apply Hnative. reflexivity.
Defined.

(** A tuple does not survive the round trip: it is saved, and what is
    loaded is a list, which is not equal to it. *)
Theorem tuple_payload_comes_back_as_list :
  let payload := VTuple [VStr "a"; VStr "b"] in
  let saved := CacheManager.save_cache payload session_file (boot 9 ∅ tt) in
  fst saved = Ok true
  /\ fst (CacheManager.load_cache session_file (snd saved))
     = Ok (VList [VStr "a"; VStr "b"])
  /\ VList [VStr "a"; VStr "b"] <> payload.
Proof. split; [| split]; [vm_compute; reflexivity .. | discriminate]. Qed.

(** ** The clearance cookie *)

Section CookieFacts.
Context {B : Type}.
Implicit Types (w : world B).

Lemma check_cookie_verdict w cookie :
  CloudflareHandler.check_cookie cookie w
  = (match cookie_verdict (clock w) cookie with
     | inl e => Raise (Exception e)
     | inr true => Ok (Return true)
     | inr false => Ok Next
     end, w).
Proof.
  unfold CloudflareHandler.check_cookie, cookie_verdict, bind, lift.
  destruct (py_get cookie "name" VNone) as [e | name]; [reflexivity |].
  cbn. destruct (py_eq_str name "cf_clearance"); [| reflexivity].
  destruct (py_get cookie "expires" (VNum 0)) as [e | expires]; [reflexivity |].
  cbn. destruct (py_eq_num expires (-1)); [reflexivity |].
  cbn. unfold time_time. destruct (py_gt expires (clock w)) as [e | []];
    reflexivity.
Qed.

Lemma cookie_entry_verdict now c :
  cookie_entry c ->
  exists b, cookie_verdict now c = inr b /\ (b = true <-> live_clearance now c).
Proof.
  intros (d & e & -> & Hexp).
  unfold cookie_verdict. cbn [py_get]. rewrite Hexp.
  destruct (dict_get "name" d) as [name |] eqn:Hname.
  2:{ exists false. split; [reflexivity |]. split; [discriminate |].
      intros (d' & e' & [= <-] & Hn & _). congruence. }
  destruct (py_eq_str name "cf_clearance") eqn:Hcf.
  - destruct name; try discriminate Hcf. cbn in Hcf.
    apply String.eqb_eq in Hcf. subst s.
    unfold py_eq_num, py_gt. cbn [as_number].
    destruct (Qeq_bool e (-1)) eqn:Heq.
    + exists true. split; [reflexivity |]. split; [| reflexivity].
      intros _. exists d, e. apply Qeq_bool_iff in Heq. auto.
    + exists (negb (Qle_bool e now)). split; [reflexivity |]. split.
      * intros Hgt. exists d, e. repeat split; auto. right.
        apply negb_true_iff in Hgt. apply Qnot_le_lt. intros Hle.
        apply Qle_bool_iff in Hle. congruence.
      * intros (d' & e' & [= <-] & _ & He' & Hlive).
        rewrite Hexp in He'. injection He' as <-.
        destruct Hlive as [Hm1 | Hlt].
        -- apply Qeq_bool_iff in Hm1. congruence.
        -- apply negb_true_iff. destruct (Qle_bool e now) eqn:Hle; [| reflexivity].
           apply Qle_bool_iff in Hle. exfalso. apply (Qlt_not_le _ _ Hlt Hle).
  - exists false. split; [reflexivity |]. split; [discriminate |].
    intros (d' & e' & [= <-] & Hn & _).
    rewrite Hname in Hn. injection Hn as ->. discriminate Hcf.
Qed.

Lemma scan_cookie_entries w cookies :
  Forall cookie_entry cookies ->
  exists found,
    for_each cookies CloudflareHandler.check_cookie w = (Ok found, w)
    /\ (found = Some true \/ found = None)
    /\ (found = Some true <-> Exists (live_clearance (clock w)) cookies).
Proof.
  induction 1 as [| c cookies Hc _ IH].
  - exists None. cbn. repeat split; auto; [discriminate | inversion 1].
  - destruct (cookie_entry_verdict (clock w) c Hc) as (b & Hb & Hlive).
    cbn [for_each]. unfold bind at 1. rewrite check_cookie_verdict, Hb.
    destruct b.
    + exists (Some true). repeat split; auto.
      intros _. constructor. apply Hlive. reflexivity.
    + destruct IH as (found & Hrun & Hshape & Hfound).
      exists found. repeat split; auto.
      * intros Hsome. apply Exists_cons_tl. apply Hfound, Hsome.
      * intros Hex. apply Hfound. inversion Hex as [? ? Hhd | ? ? Htl]; subst.
        -- apply Hlive in Hhd. discriminate Hhd.
        -- exact Htl.
Qed.

(** [is_cf_cookie_valid] on a cookie set. *)
Lemma is_cf_cookie_valid_entries w cookies :
  Forall cookie_entry cookies ->
  exists b,
    CloudflareHandler.is_cf_cookie_valid (VList cookies) w = (Ok b, w)
    /\ (b = true <-> Exists (live_clearance (clock w)) cookies).
Proof.
  intros Hall.
  destruct (scan_cookie_entries w cookies Hall) as (found & Hrun & Hshape & Hlive).
  unfold CloudflareHandler.is_cf_cookie_valid, try_except, bind.
  cbn [py_iter lift]. unfold ret at 1. rewrite Hrun.
  destruct Hshape as [-> | ->].
  - exists true. split; [reflexivity |]. split; [intros _; apply Hlive |]; auto.
  - exists false. split; [reflexivity |]. split; [discriminate |].
    intros Hex. apply Hlive in Hex. discriminate Hex.
Qed.

(** A record without [expires] is read as expiring at 0: never valid on a
    clock that is not negative. *)
Lemma cookie_without_expires now d :
  (0 <= now)%Q ->
  dict_get "expires" d = None ->
  cookie_verdict now (VDict d) = inr false.
Proof.
  intros Hnow Hnone. unfold cookie_verdict. cbn [py_get]. rewrite Hnone.
  destruct (py_eq_str _ "cf_clearance"); [| reflexivity].
  unfold py_eq_num, py_gt. cbn [as_number].
  replace (Qeq_bool 0 (-1)) with false by reflexivity.
  destruct (Qle_bool 0 now) eqn:Hle; [reflexivity |].
  apply Qle_bool_iff in Hnow. congruence.
Qed.

(** [is_cf_cookie_valid] never raises and changes nothing. *)
Lemma for_each_check_cookie_still w items :
  (exists found, for_each items CloudflareHandler.check_cookie w = (Ok found, w))
  \/ (exists e, for_each items CloudflareHandler.check_cookie w
                 = (Raise (Exception e), w)).
Proof.
  induction items as [| c items IH]; [left; eexists; reflexivity |].
  cbn [for_each]. unfold bind. rewrite check_cookie_verdict.
  destruct (cookie_verdict (clock w) c) as [e | []].
  - right. eexists; reflexivity.
  - left. eexists; reflexivity.
  - exact IH.
Qed.

Lemma is_cf_cookie_valid_returns w cookies :
  exists b, CloudflareHandler.is_cf_cookie_valid cookies w = (Ok b, w).
Proof.
  unfold CloudflareHandler.is_cf_cookie_valid, try_except, bind.
  destruct (py_iter cookies) as [e | items]; cbn [lift].
  - eexists; reflexivity.
  - unfold ret at 1.
    destruct (for_each_check_cookie_still w items) as [(found & ->) | (e & ->)].
    + destruct found; eexists; reflexivity.
    + eexists; reflexivity.
Qed.

(** Cached data that is not a cookie set: an item that is not a record
    makes the scan raise, and the answer is [False] whatever follows. *)
Lemma is_cf_cookie_valid_not_a_record w item rest :
  (forall d, item <> VDict d) ->
  CloudflareHandler.is_cf_cookie_valid (VList (item :: rest)) w = (Ok false, w).
Proof.
  intros Hitem.
  unfold CloudflareHandler.is_cf_cookie_valid, try_except. unfold bind at 1.
  cbn [py_iter lift]. unfold ret at 1. unfold bind at 1.
  cbn [for_each]. unfold bind at 1.
  rewrite check_cookie_verdict. unfold cookie_verdict.
  destruct item; try reflexivity. exfalso. apply (Hitem d). reflexivity.
Qed.

End CookieFacts.

(** ** The challenge verifier *)

Section ChallengeFacts.
Context {B : Type} `{Chromium B}.
Implicit Types (w : world B).

(** The attempt with the cached cookies ends in [return True] or falls
    through to the polling loop; it never raises. *)
Lemma try_cached_cookies_outcome w cached :
  exists found w',
    CloudflareHandler.try_cached_cookies cached w = (Ok found, w')
    /\ (found = Some true \/ found = None)
    /\ attempts (log w') = attempts (log w).
Proof.
  assert (Hdone : forall found w',
             (found = Some true \/ found = None) ->
             attempts (log w') = attempts (log w) ->
             exists found' w'',
               (Ok found, w') = (Ok found', w'')
               /\ (found' = Some true \/ found' = None)
               /\ attempts (log w'') = attempts (log w)) by eauto 6.
  unfold CloudflareHandler.try_cached_cookies, try_except, bind, logger.
  destruct (truthy cached).
  2:{ apply Hdone; [auto |]. cbn. rewrite attempts_snoc. cbn. lia. }
  unfold command at 1, lift.
  destruct (answer (page_set_cookies cached _)) as [e | []].
  { cbn. apply Hdone; [auto |]. cbn. rewrite !attempts_snoc. cbn. lia. }
  cbn. unfold command, lift.
  destruct (answer (page_get HOME_URL _)) as [e | []].
  { cbn. apply Hdone; [auto |]. cbn. rewrite !attempts_snoc. cbn. lia. }
  cbn. unfold query, lift. cbn.
  destruct (page_title _) as [e | title].
  { cbn. apply Hdone; [auto |]. cbn. rewrite !attempts_snoc. cbn. lia. }
  cbn. destruct (CloudflareHandler.page_loaded title); cbn;
    (apply Hdone; [auto |]); cbn; rewrite !attempts_snoc; cbn; lia.
Qed.

(** A turn of the polling loop never raises, asks for the next turn, a
    [break] or [return True], and writes one attempt line. *)
Lemma poll_once_outcome w start_time timeout max_attempts attempt :
  exists c w',
    CloudflareHandler.poll_once start_time timeout max_attempts attempt w
    = (Ok c, w')
    /\ (c = Next \/ c = Break \/ c = Return true)
    /\ attempts (log w') = S (attempts (log w)).
Proof.
  unfold CloudflareHandler.poll_once, try_except, bind, query, lift.
  destruct (page_url (browser w)) as [e | url].
  { cbn. do 2 eexists. split; [reflexivity |]. split; [auto |].
    cbn. rewrite attempts_snoc. cbn. lia. }
  cbn. destruct (page_title (browser w)) as [e | title].
  { cbn. do 2 eexists. split; [reflexivity |]. split; [auto |].
    cbn. rewrite attempts_snoc. cbn. lia. }
  cbn. destruct (CloudflareHandler.page_loaded title).
  { cbn. do 2 eexists. split; [reflexivity |]. split; [auto |].
    cbn. rewrite attempts_snoc. cbn. lia. }
  unfold random_uniform, random_random, bind. cbn.
  destruct (rng w) as [| u rest]; cbn.
  - match goal with |- context [Qle_bool ?a ?b] => destruct (Qle_bool a b) end;
      cbn; do 2 eexists; (split; [reflexivity |]); (split; [auto |]);
      cbn; rewrite !attempts_snoc; cbn; lia.
  - match goal with |- context [Qle_bool ?a ?b] => destruct (Qle_bool a b) end;
      cbn; do 2 eexists; (split; [reflexivity |]); (split; [auto |]);
      cbn; rewrite !attempts_snoc; cbn; lia.
Qed.

(** The polling loop makes at most as many turns as its range has items. *)
Lemma polling_loop_outcome w start_time timeout max_attempts turns :
  exists found w',
    for_each turns
      (CloudflareHandler.poll_once start_time timeout max_attempts) w
    = (Ok found, w')
    /\ (found = Some true \/ found = None)
    /\ (attempts (log w) <= attempts (log w') <= attempts (log w) + length turns)%nat.
Proof.
  revert w. induction turns as [| attempt turns IH]; intros w.
  - exists None, w. cbn. repeat split; auto; lia.
  - cbn [for_each]. unfold bind at 1.
    destruct (poll_once_outcome w start_time timeout max_attempts attempt)
      as (c & w1 & -> & Hc & Hcount).
    destruct Hc as [-> | [-> | ->]].
    + destruct (IH w1) as (found & w' & -> & Hfound & Hle).
      exists found, w'. repeat split; auto; cbn [length]; lia.
    + exists None, w1. repeat split; auto; cbn [length]; lia.
    + exists (Some true), w1. repeat split; auto; cbn [length]; lia.
Qed.

(** A turn whose two probes answered lets the loop go on only while the
    elapsed time is within [timeout]. *)
Lemma poll_once_checks_timeout w w' start_time timeout max_attempts attempt
    url title :
  page_url (browser w) = inr url ->
  page_title (browser w) = inr title ->
  CloudflareHandler.poll_once start_time timeout max_attempts attempt w
  = (Ok Next, w') ->
  (clock w' - start_time <= timeout)%Q.
Proof.
  intros Hurl Htitle.
  unfold CloudflareHandler.poll_once, try_except, bind, query, lift.
  rewrite Hurl. cbn. rewrite Htitle. cbn.
  destruct (CloudflareHandler.page_loaded title); [discriminate |].
  unfold random_uniform, random_random, bind. cbn.
  destruct (rng w) as [| u rest]; cbn;
    match goal with |- context [Qle_bool ?a ?b] => destruct (Qle_bool a b) eqn:Hle end;
    cbn; intros [= <-]; cbn; apply Qle_bool_iff in Hle; exact Hle.
Qed.

(** A turn whose first probe raises asks for the next turn whatever the
    elapsed time is: the [except] branch sleeps and does not look at the
    clock. *)
Lemma poll_once_skips_timeout_check w start_time timeout max_attempts attempt e :
  page_url (browser w) = inl e ->
  CloudflareHandler.poll_once start_time timeout max_attempts attempt w
  = (Ok Next,
     waited 10 (elapse 10 (browser w))
       (logged ERROR (CfException (attempt + 1) e)
          (waited (query_lag (browser w)) (browser w) w))).
Proof.
  intros Hurl.
  unfold CloudflareHandler.poll_once, try_except, bind, query, lift.
  rewrite Hurl. reflexivity.
Qed.

(** The loop and the final check: [True], or the exception of the final
    read of the title; at most [max_attempts] turns are made. *)
Lemma full_flow_outcome w start_time timeout max_attempts :
  exists r w',
    CloudflareHandler.full_flow start_time timeout max_attempts w = (r, w')
    /\ (r = Ok true
        \/ exists e, r = Raise (Exception e) /\ page_title (browser w') = inl e)
    /\ (attempts (log w') <= attempts (log w) + max_attempts)%nat.
Proof.
  unfold CloudflareHandler.full_flow, bind at 1, logger.
  unfold bind at 1.
  destruct (polling_loop_outcome (logged INFO CfFullFlow w) start_time timeout
              max_attempts (range max_attempts))
    as (found & w1 & -> & Hfound & Hcount).
  unfold range in Hcount. rewrite length_seq in Hcount.
  cbn [log logged] in Hcount. rewrite attempts_snoc in Hcount. cbn in Hcount.
  destruct Hfound as [-> | ->].
  { do 2 eexists. split; [reflexivity |]. split; [auto | lia]. }
  unfold bind, query, lift.
  destruct (page_title (browser w1)) as [e | title] eqn:Htitle.
  { do 2 eexists. split; [reflexivity |]. cbn. split; [eauto | lia]. }
  cbn. destruct (CloudflareHandler.page_loaded title); cbn;
    do 2 eexists; (split; [reflexivity |]); cbn; rewrite attempts_snoc; cbn;
    (split; [auto | lia]).
Qed.

Lemma handle_cloudflare_outcome w max_attempts timeout :
  exists r w',
    CloudflareHandler.handle_cloudflare max_attempts timeout w = (r, w')
    /\ (r = Ok true
        \/ exists e, r = Raise (Exception e) /\ page_title (browser w') = inl e)
    /\ (attempts (log w') <= attempts (log w) + max_attempts)%nat.
Proof.
  unfold CloudflareHandler.handle_cloudflare, bind at 1, time_time.
  unfold bind at 1, logger. unfold bind at 1, CacheManager.load_cookies.
  destruct (load_cache_returns (logged INFO CfStart w) cookies_file)
    as (cached & w1 & -> & _ & _ & _ & _ & _ & Hcount1).
  cbn [log logged] in Hcount1. rewrite attempts_snoc in Hcount1. cbn in Hcount1.
  unfold bind at 1.
  destruct (is_cf_cookie_valid_returns w1 (py_or cached (VList []))) as (valid & ->).
  unfold bind at 1. destruct valid.
  - destruct (try_cached_cookies_outcome w1 cached)
      as (found & w2 & -> & Hfound & Hcount2).
    destruct Hfound as [-> | ->].
    + do 2 eexists. split; [reflexivity |]. split; [auto | lia].
    + destruct (full_flow_outcome w2 (clock w) timeout max_attempts)
        as (r & w' & -> & Hr & Hcount).
      do 2 eexists. split; [reflexivity |]. split; [exact Hr | lia].
  - unfold ret at 1.
    destruct (full_flow_outcome w1 (clock w) timeout max_attempts)
      as (r & w' & -> & Hr & Hcount).
    do 2 eexists. split; [reflexivity |]. split; [exact Hr | lia].
Qed.

End ChallengeFacts.

(** C10, as the code has it.  Whenever [handle_cloudflare] returns it
    returns [True], also when the final inspection still shows the
    interstitial, so a caller that branches on the result always takes the
    [True] branch.  It returns unless the final read of the page title, which
    no [try] guards, raises; that exception reaches the caller. *)
Theorem handle_cloudflare_never_false {B} `{Chromium B} (w : world B)
    (max_attempts : nat) (timeout : Q) :
  (exists r w',
     CloudflareHandler.handle_cloudflare max_attempts timeout w = (r, w')
     /\ (r = Ok true
         \/ exists e, r = Raise (Exception e) /\ page_title (browser w') = inl e)
     /\ (forall title, page_title (browser w') = inr title -> r = Ok true))
  /\ (forall (C : Type) (k : bool -> M B C),
        (let* cf_success :=
           CloudflareHandler.handle_cloudflare max_attempts timeout in
         k cf_success) w
        = (CloudflareHandler.handle_cloudflare max_attempts timeout ;; k true) w).
Proof.
  destruct (handle_cloudflare_outcome w max_attempts timeout)
    as (r & w' & Hrun & Hr & _).
  split.
  - exists r, w'. split; [exact Hrun |]. split; [exact Hr |].
    intros title Htitle. destruct Hr as [-> | (e & -> & He)]; [reflexivity |].
    congruence.
  - intros C k. unfold bind. rewrite Hrun.
    destruct Hr as [-> | (e & -> & _)]; reflexivity.
Qed.

Lemma handle_cloudflare_never_false_witness :
  fst (CloudflareHandler.handle_cloudflare 8 180 (boot 0 ∅ interstitial_page))
  = Ok true.
Proof.
  destruct (handle_cloudflare_never_false (boot 0 ∅ interstitial_page) 8 180)
    as [(r & w' & Hrun & _ & Hreturns) _].
  rewrite Hrun. cbn [fst].
  apply (Hreturns "请稍候…").
  apply (f_equal snd) in Hrun. cbn [snd] in Hrun. subst w'.
  vm_compute. reflexivity.
Defined.

(** With a browser that has stopped answering, [handle_cloudflare] does not
    return [True]: the final read of the title raises. *)
Lemma handle_cloudflare_may_raise :
  fst (CloudflareHandler.handle_cloudflare 8 180 (boot 0 ∅ hung_browser))
  <> Ok true.
Proof. vm_compute. discriminate. Qed.

(** C1, where the code departs from it.  With the defaults
    [max_attempts = 8] and [timeout = 180] and a browser whose probes hang
    for 30 seconds and raise, the loop makes all eight turns: the elapsed
    time passes 180 seconds during the fifth, and turns six to eight are
    still made, at 230, 270 and 310 seconds; the loop is left after 320
    seconds, and the final read of the title ends at 350 seconds. *)
Theorem polling_ignores_timeout_when_probes_raise :
  let w' := snd (CloudflareHandler.handle_cloudflare 8 180
                   (boot 0 ∅ hung_browser)) in
  map (fun e => (at_time e, msg e)) (List.filter is_attempt (log w'))
  = [(30%Q, CfException 1 (BrowserError "timeout"));
     (70%Q, CfException 2 (BrowserError "timeout"));
     (110%Q, CfException 3 (BrowserError "timeout"));
     (150%Q, CfException 4 (BrowserError "timeout"));
     (190%Q, CfException 5 (BrowserError "timeout"));
     (230%Q, CfException 6 (BrowserError "timeout"));
     (270%Q, CfException 7 (BrowserError "timeout"));
     (310%Q, CfException 8 (BrowserError "timeout"))]
  /\ clock w' = 350%Q.
Proof. vm_compute. split; reflexivity. Qed.

(** C2.  For every cookie set, [is_cf_cookie_valid] returns [True] exactly
    when some entry named [cf_clearance] has [expires] equal to [-1] or
    later than the current time.  A clearance cookie whose [expires] is the
    time stamp ten seconds before now is not valid, and with no valid
    clearance cookie in the cache [handle_cloudflare] goes to the polling
    path without trying the cached cookies. *)
Theorem cf_cookie_valid_iff_live {B} `{Chromium B} (w : world B)
    (cookies : list value) :
  Forall cookie_entry cookies ->
  (exists b,
     CloudflareHandler.is_cf_cookie_valid (VList cookies) w = (Ok b, w)
     /\ (b = true <-> Exists (live_clearance (clock w)) cookies))
  /\ ((0 <= clock w - 10)%Q ->
      CloudflareHandler.is_cf_cookie_valid
        (VList [clearance_cookie (clock w - 10)]) w = (Ok false, w))
  /\ (forall d t max_attempts timeout,
        fs w !! cookies_file = Some (File (Json (VDict d)) t) ->
        dict_get "data" d = Some (VList cookies) ->
        ~ Exists (live_clearance (clock w)) cookies ->
        CloudflareHandler.handle_cloudflare max_attempts timeout w
        = CloudflareHandler.full_flow (clock w) timeout max_attempts
            (logged INFO (CacheLoaded cookies_file ((clock w - t) / 3600)%Q)
               (logged INFO CfStart w))).
Proof.
  intros Hall. split; [| split].
  - apply is_cf_cookie_valid_entries, Hall.
  - intros Hstamp.
    destruct (is_cf_cookie_valid_entries w [clearance_cookie (clock w - 10)])
      as (b & Hrun & Hlive).
    { constructor; [| constructor]. unfold cookie_entry, clearance_cookie.
      do 2 eexists. split; reflexivity. }
    rewrite Hrun. destruct b; [| reflexivity].
    exfalso. destruct Hlive as [Hlive _]. specialize (Hlive eq_refl).
    inversion Hlive as [? ? (d & e & Hd & _ & He & Hlate) | ? ? Hnil]; subst.
    + unfold clearance_cookie in Hd. injection Hd as <-.
      cbn in He. injection He as <-. destruct Hlate; lra.
    + inversion Hnil.
  - intros d t max_attempts timeout Hfile Hdata Hstale.
    unfold CloudflareHandler.handle_cloudflare, bind at 1, time_time.
    unfold bind at 1, logger. unfold bind at 1, CacheManager.load_cookies.
    rewrite (load_cache_json (logged INFO CfStart w) cookies_file (VDict d) t Hfile).
    cbn [py_get]. rewrite Hdata. cbn [clock logged].
    assert (Hor : py_or (VList cookies) (VList []) = VList cookies).
    { unfold py_or. destruct cookies; reflexivity. }
    rewrite Hor. unfold bind at 1.
    match goal with
    | |- context [CloudflareHandler.is_cf_cookie_valid _ ?w1] =>
        destruct (is_cf_cookie_valid_entries w1 cookies Hall) as (b & -> & Hlive)
    end.
    destruct b.
    + exfalso. apply Hstale. apply Hlive. reflexivity.
    + reflexivity.
Qed.

Lemma cf_cookie_valid_iff_live_witness :
  CloudflareHandler.is_cf_cookie_valid (VList [clearance_cookie 990])
    (boot 1000 ∅ interstitial_page)
  = (Ok false, boot 1000 ∅ interstitial_page).
Proof.
  refine (proj1 (proj2 (cf_cookie_valid_iff_live
                          (boot 1000 ∅ interstitial_page)
                          [clearance_cookie (1000 - 10)] _)) _).
  - constructor; [| constructor]. exists
      [("name", VStr "cf_clearance"); ("value", VStr "token");
       ("domain", VStr ".linux.do"); ("expires", VNum (1000 - 10))],
      (1000 - 10)%Q.
    split; reflexivity.
  - vm_compute. discriminate.
Defined.

(** The scenario of the stale clearance cookie: at clock value 1000 the
    cache holds a clearance cookie that expired at 900; the cached attempt
    is skipped and the polling loop finds the page loaded. *)
Example stale_clearance_takes_polling_path :
  let w' := snd (CloudflareHandler.handle_cloudflare 8 180
                   (boot 1000 both_caches login_page)) in
  map msg (log w')
  = [CfStart; CacheLoaded cookies_file ((1000 - 0) / 3600)%Q; CfFullFlow;
     CfPageLoaded].
Proof. vm_compute. reflexivity. Qed.

(** ** Computations that keep the session and never exit *)

Section TameFacts.
Context {B : Type} `{Chromium B}.

Lemma tame_ret {A} (a : A) : tame (B := B) (ret a).
Proof. intros w r w' [= <- <-]. split; reflexivity. Qed.

Lemma tame_lift {A} (x : exception + A) : tame (B := B) (lift x).
Proof.
  intros w r w'. destruct x; cbn; intros [= <- <-];
    (split; reflexivity).
Qed.

Lemma tame_raise_exception {A} (e : exception) :
  tame (B := B) (A := A) (raise (Exception e)).
Proof. intros w r w' [= <- <-]. split; reflexivity. Qed.

Lemma tame_logger l m : tame (B := B) (logger l m).
Proof. intros w r w' [= <- <-]. split; reflexivity. Qed.

Lemma tame_time_time : tame (B := B) time_time.
Proof. intros w r w' [= <- <-]. split; reflexivity. Qed.

Lemma tame_time_sleep d : tame (time_sleep d).
Proof. intros w r w' [= <- <-]. split; reflexivity. Qed.

Lemma tame_random_random : tame (B := B) random_random.
Proof.
  intros w r w'. unfold random_random.
  destruct (rng w); intros [= <- <-]; (split; reflexivity).
Qed.

Lemma tame_query {A} (q : B -> exception + A) : tame (query q).
Proof.
  intros w r w'. unfold query, lift.
  destruct (q (browser w)); cbn; intros [= <- <-];
    (split; reflexivity).
Qed.

Lemma tame_command {A} (c : B -> reply B A) : tame (command c).
Proof.
  intros w r w'. unfold command, lift.
  destruct (answer (c (browser w))); cbn; intros [= <- <-];
    (split; reflexivity).
Qed.

Lemma tame_guarded {A} (c : B -> A * Q * B) : tame (guarded c).
Proof.
  intros w r w'. unfold guarded.
  destruct (c (browser w)) as [[a d] b]. intros [= <- <-].
  split; reflexivity.
Qed.

Lemma tame_bind {A C} (c : M B A) (k : A -> M B C) :
  tame c -> (forall a, tame (k a)) -> tame (bind c k).
Proof.
  intros Hc Hk w r w'. unfold bind.
  destruct (c w) as [[a | r1] w1] eqn:Hrun; intros Hrest.
  - destruct (Hc _ _ _ Hrun) as [Hs1 _].
    destruct (Hk a _ _ _ Hrest) as [Hs2 Hr]. split; [congruence | exact Hr].
  - injection Hrest as <- <-. exact (Hc _ _ _ Hrun).
Qed.

Lemma tame_try_except {A} (body : M B A) (handler : exception -> M B A) :
  tame body -> (forall e, tame (handler e)) -> tame (try_except body handler).
Proof.
  intros Hb Hh w r w'. unfold try_except.
  destruct (body w) as [[a | [e | code]] w1] eqn:Hrun; intros Hrest.
  - injection Hrest as <- <-. exact (Hb _ _ _ Hrun).
  - destruct (Hb _ _ _ Hrun) as [Hs1 _].
    destruct (Hh e _ _ _ Hrest) as [Hs2 Hr]. split; [congruence | exact Hr].
  - injection Hrest as <- <-. exact (Hb _ _ _ Hrun).
Qed.

Lemma tame_try_finally {A} (body : M B A) (cleanup : M B unit) :
  tame body -> tame cleanup -> tame (try_finally body cleanup).
Proof.
  intros Hb Hc w r w'. unfold try_finally.
  destruct (body w) as [r1 w1] eqn:Hrun.
  destruct (cleanup w1) as [[[] | r2] w2] eqn:Hclean; intros [= <- <-];
    destruct (Hb _ _ _ Hrun) as [Hs1 Hr1];
    destruct (Hc _ _ _ Hclean) as [Hs2 Hr2];
    (split; [congruence | assumption]).
Qed.

Lemma tame_for_each {X A} (xs : list X) (body : X -> M B (ctl A)) :
  (forall x, tame (body x)) -> tame (for_each xs body).
Proof.
  intros Hbody. induction xs as [| x xs IH]; cbn [for_each].
  - apply tame_ret.
  - apply tame_bind; [apply Hbody |].
    intros [| | a]; [exact IH | apply tame_ret | apply tame_ret].
Qed.

Lemma tame_random_uniform a b : tame (B := B) (random_uniform a b).
Proof.
  apply tame_bind; [apply tame_random_random | intros; apply tame_ret].
Qed.

(** A tame body under a handler that returns: the whole [try] returns. *)
Lemma try_except_returns {A} (body : M B A) (handler : exception -> M B A) w :
  tame body ->
  (forall e w1, exists a w2, handler e w1 = (Ok a, w2)) ->
  exists a w', try_except body handler w = (Ok a, w').
Proof.
  intros Hb Hh. unfold try_except.
  destruct (body w) as [[a | [e | code]] w1] eqn:Hrun.
  - eauto.
  - apply Hh.
  - destruct (Hb _ _ _ Hrun) as [_ Hr]. discriminate Hr.
Qed.

End TameFacts.

Create HintDb tame.
#[local] Hint Resolve tame_ret tame_lift tame_raise_exception tame_logger
  tame_time_time tame_time_sleep tame_random_random tame_random_uniform
  tame_query tame_command tame_guarded : tame.

(** Splits a computation along its structure into tame pieces. *)
Ltac tame_step :=
  first
    [ apply tame_bind; [| intros ?]
    | apply tame_try_except; [| intros ?]
    | apply tame_try_finally
    | apply tame_for_each; intros ?
    | solve [auto with tame]
    | match goal with
      | |- tame (if ?b then _ else _) => destruct b
      | |- tame (match ?x with _ => _ end) => destruct x
      end ].

Ltac tame := repeat tame_step.

(** Reads the fields of a world that was built step by step. *)
Ltac world_simpl :=
  cbn [clock isoformat fs io_fails log rng stdout session_data cache_saved
       browser logged set_fs waited] in *.

(** ** The identity check *)

Section IdentityFacts.
Context {B : Type} `{Chromium B}.
Variable cfg : config.
Variable str_lower : string -> string.
Implicit Types (w : world B).

Lemma query_run {A} (q : B -> exception + A) w :
  query q w
  = (match q (browser w) with
     | inl e => Raise (Exception e)
     | inr a => Ok a
     end,
     waited (query_lag (browser w)) (browser w) w).
Proof. unfold query, lift. destruct (q (browser w)); reflexivity. Qed.

Lemma tame_verify_username :
  tame (LinuxDoBrowser.verify_username cfg str_lower).
Proof.
  unfold LinuxDoBrowser.verify_username. tame.
Qed.

Lemma tame_undetermined_status :
  tame (LinuxDoBrowser.undetermined_status cfg str_lower).
Proof. unfold LinuxDoBrowser.undetermined_status. tame. Qed.

Lemma tame_probe_user sel :
  tame (LinuxDoBrowser.probe_user cfg str_lower sel).
Proof.
  unfold LinuxDoBrowser.probe_user. tame.
Qed.

Lemma tame_probe_login_button sel :
  tame (LinuxDoBrowser.probe_login_button (B := B) sel).
Proof. unfold LinuxDoBrowser.probe_login_button. tame. Qed.

(** [check_login_status] always returns a boolean. *)
Lemma check_login_status_returns w :
  exists b w', LinuxDoBrowser.check_login_status cfg str_lower w = (Ok b, w').
Proof.
  unfold LinuxDoBrowser.check_login_status.
  apply try_except_returns.
  - tame; auto using tame_probe_user, tame_probe_login_button,
      tame_undetermined_status.
  - intros e w1. do 2 eexists. reflexivity.
Qed.


(** An exception of a probe counts as "nothing found". *)
Lemma probe_user_raises w sel e :
  page_ele sel (browser w) = inl e ->
  LinuxDoBrowser.probe_user cfg str_lower sel w
  = (Ok Next, waited (query_lag (browser w)) (browser w) w).
Proof.
  intros He. unfold LinuxDoBrowser.probe_user, try_except, bind.
  rewrite query_run, He. reflexivity.
Qed.


(** Without a user element the first loop ends without a verdict. *)
Lemma probe_users_nothing sels w :
  Exists (fun sel => page_ele sel (browser w) = inr true) sels
  \/ exists w1,
       for_each sels (LinuxDoBrowser.probe_user cfg str_lower) w = (Ok None, w1)
       /\ browser w1 = browser w.
Proof.
  revert w. induction sels as [| sel sels IH]; intros w.
  - right. exists w. split; reflexivity.
  - destruct (page_ele sel (browser w)) as [e | [|]] eqn:Hele.
    + cbn [for_each]. unfold bind.
      rewrite (probe_user_raises _ _ _ Hele).
      destruct (IH (waited (query_lag (browser w)) (browser w) w))
        as [Hfound | (w1 & Hrun & Hb)].
      * left. apply Exists_cons_tl. exact Hfound.
      * right. exists w1. split; [exact Hrun | exact Hb].
    + left. constructor. exact Hele.
    + cbn [for_each]. unfold bind.
      unfold LinuxDoBrowser.probe_user at 1, try_except, bind.
      rewrite query_run, Hele.
      destruct (IH (waited (query_lag (browser w)) (browser w) w))
        as [Hfound | (w1 & Hrun & Hb)].
      * left. apply Exists_cons_tl. exact Hfound.
      * right. exists w1. split; [exact Hrun | exact Hb].
Qed.

(** The second loop answers [False] or nothing, and only looks. *)
Lemma probe_login_buttons_outcome sels w :
  exists found w1,
    for_each sels LinuxDoBrowser.probe_login_button w = (Ok found, w1)
    /\ (found = Some false \/ found = None)
    /\ browser w1 = browser w.
Proof.
  revert w. induction sels as [| sel sels IH]; intros w.
  - exists None, w. auto.
  - cbn [for_each]. unfold bind.
    unfold LinuxDoBrowser.probe_login_button at 1, try_except, bind.
    rewrite query_run.
    destruct (page_ele sel (browser w)) as [e | [|]]; cbn.
    + destruct (IH (waited (query_lag (browser w)) (browser w) w))
        as (found & w1 & -> & Hfound & Hb). eauto.
    + do 2 eexists. split; [reflexivity |]. auto.
    + destruct (IH (waited (query_lag (browser w)) (browser w) w))
        as (found & w1 & -> & Hfound & Hb). eauto.
Qed.

End IdentityFacts.



(** ** The browse history *)

Section HistoryFacts.
Context {B : Type} `{Chromium B}.
Implicit Types (w : world B).

Lemma dict_get_set_eq k v d : dict_get k (dict_set k v d) = Some v.
Proof.
  induction d as [| [k' v'] d IH]; cbn.
  - rewrite String.eqb_refl. reflexivity.
  - destruct (String.eqb k k') eqn:Hk; cbn; rewrite ?Hk, ?String.eqb_refl;
      [reflexivity | exact IH].
Qed.

Lemma last_n_length {A} n (l : list A) : (length (last_n n l) <= n)%nat.
Proof. unfold last_n. rewrite length_skipn. lia. Qed.

Lemma last_n_short {A} n (l : list A) : (length l <= n)%nat -> last_n n l = l.
Proof.
  intros Hle. unfold last_n. replace (length l - n)%nat with 0%nat by lia.
  reflexivity.
Qed.

(** With [n] items kept, one more evicts the oldest. *)
Lemma last_n_evicts {A} n (l : list A) x :
  (0 < n)%nat -> length l = n -> last_n n (l ++ [x]) = tl l ++ [x].
Proof.
  intros Hpos Hlen. unfold last_n. rewrite length_app. cbn [length].
  replace (length l + 1 - n)%nat with 1%nat by lia.
  destruct l as [| y l]; [cbn in Hlen; lia | reflexivity].
Qed.

Lemma last_n_app {A} n (l l' : list A) :
  last_n n (last_n n l ++ l') = last_n n (l ++ l').
Proof.
  unfold last_n. rewrite !length_app, length_skipn.
  destruct (Nat.le_gt_cases (length l) n) as [Hle | Hgt].
  - replace (length l - n)%nat with 0%nat by lia. cbn [skipn].
    f_equal. lia.
  - rewrite <- (drop_app_le l l' (length l - n)) by lia.
    rewrite drop_drop. f_equal. lia.
Qed.

(** What the three lines of the history update do. *)
Lemma update_browse_history_run w topic :
  LinuxDoBrowser.update_browse_history topic w
  = match session_data w with
    | VDict d =>
        match browse_history_of (VDict d) with
        | Some old =>
            match ele_attr_href topic (browser w) with
            | inr href =>
                set_session_data
                  (VDict (dict_set "browse_history"
                            (VList (last_n 50 (old ++ [attr_value href]))) d))
                  (waited (query_lag (browser w)) (browser w) w)
            | inl e =>
                (Raise (Exception e),
                 waited (query_lag (browser w)) (browser w) w)
            end
        | None => (Raise (Exception AttributeError), w)
        end
    | _ => (Raise (Exception AttributeError), w)
    end.
Proof.
  unfold LinuxDoBrowser.update_browse_history, bind, get_session_data.
  destruct (session_data w) as [| | | | | d |] eqn:Hsession; try reflexivity.
  cbn [py_get lift browse_history_of].
  destruct (dict_get "browse_history" d) as [[| | | | l | |] |];
    try reflexivity; cbn [py_append lift ret]; unfold query;
    cbn [browser waited];
    destruct (ele_attr_href topic (browser w)) as [e | href];
    cbn [lift raise ret py_last]; unfold waited; cbn; rewrite ?Hsession;
    reflexivity.
Qed.

Lemma browse_history_of_set d l :
  browse_history_of (VDict (dict_set "browse_history" (VList l) d)) = Some l.
Proof. unfold browse_history_of. rewrite dict_get_set_eq. reflexivity. Qed.

End HistoryFacts.

(** C6.  After any update the browse history of the session has at most 50
    entries: an update appends the URL of the topic, as the page gives it at
    that time, and keeps the 50 most recent entries, so that appending to a
    history of 50 evicts the oldest one.  The update goes through whenever
    the session holds a history or none yet and the URL can be read. *)
Theorem browse_history_capped {B} `{Chromium B} (w : world B)
    (topic : element) :
  (forall w',
     LinuxDoBrowser.update_browse_history topic w = (Ok tt, w') ->
     exists old kept href,
       browse_history_of (session_data w) = Some old
       /\ ele_attr_href topic (browser w) = inr href
       /\ browse_history_of (session_data w') = Some kept
       /\ kept = last_n 50 (old ++ [attr_value href])
       /\ (length kept <= 50)%nat)
  /\ (forall old href,
        browse_history_of (session_data w) = Some old ->
        ele_attr_href topic (browser w) = inr href ->
        exists w', LinuxDoBrowser.update_browse_history topic w = (Ok tt, w'))
  /\ (forall (old : list value) (href : value),
        length old = 50%nat -> last_n 50 (old ++ [href]) = tl old ++ [href])
  /\ (forall (old : list value) (href : value),
        (length old < 50)%nat -> last_n 50 (old ++ [href]) = old ++ [href]).
Proof.
  split; [| split; [| split]].
  - intros w'. rewrite update_browse_history_run.
    destruct (session_data w) as [| | | | | d |] eqn:Hs; try discriminate.
    destruct (browse_history_of (VDict d)) as [old |] eqn:Hold; [| discriminate].
    destruct (ele_attr_href topic (browser w)) as [e | href] eqn:Hhref;
      [discriminate |].
    intros [= <-]. exists old, (last_n 50 (old ++ [attr_value href])), href.
    cbn [session_data]. rewrite browse_history_of_set.
    repeat split; [apply last_n_length].
  - intros old href. rewrite update_browse_history_run.
    destruct (session_data w) as [| | | | | d |]; try discriminate.
    intros -> ->. eexists. reflexivity.
  - intros old href Hlen. apply last_n_evicts; [lia | exact Hlen].
  - intros old href Hlen. apply last_n_short. rewrite length_app. cbn. lia.
Qed.

Lemma browse_history_capped_witness :
  exists old kept href,
    browse_history_of (session_data full_history) = Some old
    /\ ele_attr_href 0%nat (browser full_history) = inr href
    /\ browse_history_of
         (session_data
            (snd (LinuxDoBrowser.update_browse_history 0%nat full_history)))
       = Some kept
    /\ kept = last_n 50 (old ++ [attr_value href])
    /\ (length kept <= 50)%nat.
Proof.
  apply (proj1 (browse_history_capped full_history 0%nat)).
  vm_compute. reflexivity.
Defined.

(** The 51st entry of the full history takes the place of the oldest. *)
Example browse_history_of_full_history :
  browse_history_of
    (session_data
       (snd (LinuxDoBrowser.update_browse_history 0%nat full_history)))
  = Some (List.repeat (VStr "/t/topic/old") 49 ++ [VStr "/t/topic/new"]).
Proof. vm_compute. reflexivity. Qed.

(** ** The retry policy *)

Section RetryFacts.
Context {B : Type} `{Chromium B}.
Implicit Types (w : world B) (func : M B value).

(** A turn of the wrapper's loop, by the outcome of the call. *)
Lemma retry_once_run retries func attempt w :
  retry_once retries func attempt w
  = match func w with
    | (Ok v, w1) => (Ok (Return v), w1)
    | (Raise (Exception e), w1) => (Ok Next, backed_off retries attempt e w1)
    | (Raise (SystemExit code), w1) => (Raise (SystemExit code), w1)
    end.
Proof.
  unfold retry_once, try_except, bind, backed_off.
  destruct (func w) as [[v | [e | code]] w1]; try reflexivity.
  destruct (Nat.eqb attempt (retries - 1)); reflexivity.
Qed.

(** The wrapper lets no [Exception] through. *)
Lemma retry_loop_catches retries func turns w e w' :
  for_each turns (retry_once retries func) w <> (Raise (Exception e), w').
Proof.
  revert w. induction turns as [| attempt turns IH]; intros w; [discriminate |].
  cbn [for_each]. unfold bind. rewrite retry_once_run.
  destruct (func w) as [[v | [e1 | code]] w1]; try discriminate.
  apply IH.
Qed.

Lemma retry_decorator_catches retries func w e w' :
  retry_decorator retries func w <> (Raise (Exception e), w').
Proof.
  unfold retry_decorator, bind.
  destruct (for_each (range retries) (retry_once retries func) w)
    as [[[v |] | [e1 | code]] w1] eqn:Hloop; try discriminate.
  exfalso. exact (retry_loop_catches _ _ _ _ _ _ Hloop).
Qed.

Lemma tame_retry_decorator retries func :
  tame func -> tame (retry_decorator retries func).
Proof. intros Hf. unfold retry_decorator, retry_once. tame. Qed.

(** Around a tame function the wrapper always returns. *)
Lemma retry_decorator_returns retries func w :
  tame func ->
  exists v w',
    retry_decorator retries func w = (Ok v, w')
    /\ session_data w' = session_data w.
Proof.
  intros Hf.
  destruct (retry_decorator retries func w) as [[v | [e | code]] w'] eqn:Hrun.
  - exists v, w'. split; [reflexivity |].
    apply (tame_retry_decorator retries func Hf _ _ _ Hrun).
  - exfalso. exact (retry_decorator_catches _ _ _ _ _ Hrun).
  - destruct (tame_retry_decorator retries func Hf _ _ _ Hrun) as [_ Hexit].
    discriminate Hexit.
Qed.

Lemma tame_click_one_topic_body topic_url :
  tame (LinuxDoBrowser.click_one_topic_body (B := B) topic_url).
Proof. unfold LinuxDoBrowser.click_one_topic_body. tame. Qed.

Lemma enumerated_topics {A} (l : list A) first :
  map snd (combine (seq first (length l)) l) = l.
Proof.
  revert first. induction l as [| x l IH]; intros first; [reflexivity |].
  cbn. rewrite IH. reflexivity.
Qed.

(** *** What a topic visit leaves of the main page *)

Section KeepFacts.
Variable P : B -> Prop.
Hypothesis HP : kept_by_tabs P.

Lemma keeps_ret {A} (a : A) : keeps P (ret (B := B) a).
Proof. intros w r w' Hw [= <- <-]. exact Hw. Qed.

Lemma keeps_raise {A} (r0 : raised) : keeps P (raise (B := B) (A := A) r0).
Proof. intros w r w' Hw [= <- <-]. exact Hw. Qed.

Lemma keeps_logger l m : keeps P (logger (B := B) l m).
Proof. intros w r w' Hw [= <- <-]. exact Hw. Qed.

Lemma keeps_random_random : keeps P (random_random (B := B)).
Proof.
  intros w r w' Hw. unfold random_random.
  destruct (rng w); intros [= <- <-]; exact Hw.
Qed.

Lemma keeps_time_sleep d : keeps P (time_sleep d).
Proof. intros w r w' Hw [= <- <-]. cbn. apply HP. exact Hw. Qed.

Lemma keeps_command {A} (c : B -> reply B A) :
  (forall b, P b -> P (after (c b))) -> keeps P (command c).
Proof.
  intros Hc w r w' Hw. unfold command, lift.
  destruct (answer (c (browser w))); intros [= <- <-]; apply Hc; exact Hw.
Qed.

Lemma keeps_guarded {A} (c : B -> A * Q * B) :
  (forall b, P b -> P (snd (c b))) -> keeps P (guarded c).
Proof.
  intros Hc w r w' Hw. unfold guarded. specialize (Hc _ Hw).
  destruct (c (browser w)) as [[a d] b]. intros [= <- <-]. exact Hc.
Qed.

Lemma keeps_bind {A C} (c : M B A) (k : A -> M B C) :
  keeps P c -> (forall a, keeps P (k a)) -> keeps P (bind c k).
Proof.
  intros Hc Hk w r w' Hw. unfold bind.
  destruct (c w) as [[a | r0] w1] eqn:Hrun.
  - apply (Hk a w1 r w'). exact (Hc _ _ _ Hw Hrun).
  - intros [= <- <-]. exact (Hc _ _ _ Hw Hrun).
Qed.

Lemma keeps_try_except {A} (body : M B A) (handler : exception -> M B A) :
  keeps P body -> (forall e, keeps P (handler e)) ->
  keeps P (try_except body handler).
Proof.
  intros Hb Hh w r w' Hw. unfold try_except.
  destruct (body w) as [[a | [e | code]] w1] eqn:Hrun.
  - intros [= <- <-]. exact (Hb _ _ _ Hw Hrun).
  - apply (Hh e w1 r w'). exact (Hb _ _ _ Hw Hrun).
  - intros [= <- <-]. exact (Hb _ _ _ Hw Hrun).
Qed.

Lemma keeps_try_finally {A} (body : M B A) (cleanup : M B unit) :
  keeps P body -> keeps P cleanup -> keeps P (try_finally body cleanup).
Proof.
  intros Hb Hc w r w' Hw. unfold try_finally.
  destruct (body w) as [r1 w1] eqn:Hrun.
  pose proof (Hb _ _ _ Hw Hrun) as Hw1.
  destruct (cleanup w1) as [[[] | r2] w2] eqn:Hclean;
    intros [= <- <-]; exact (Hc _ _ _ Hw1 Hclean).
Qed.

Lemma keeps_for_each {X A} (xs : list X) (body : X -> M B (ctl A)) :
  (forall x, keeps P (body x)) -> keeps P (for_each xs body).
Proof.
  intros Hb. induction xs as [| x xs IH]; cbn [for_each].
  - apply keeps_ret.
  - apply keeps_bind; [apply Hb |].
    intros [| | a]; [exact IH | apply keeps_ret | apply keeps_ret].
Qed.

Lemma keeps_click_one_topic_body topic_url :
  keeps P (LinuxDoBrowser.click_one_topic_body topic_url).
Proof.
  destruct HP as (Helapse & Hnew & Hget & Htrigger & Hpost & Hlike & Hclose).
  unfold LinuxDoBrowser.click_one_topic_body.
  apply keeps_bind; [apply keeps_command; exact Hnew | intros _].
  apply keeps_try_finally; [| apply keeps_command; exact Hclose].
  apply keeps_bind.
  { destruct topic_url; first [apply keeps_ret | apply keeps_raise]. }
  intros full_url.
  apply keeps_bind; [apply keeps_command; apply Hget | intros _].
  apply keeps_bind; [apply keeps_time_sleep | intros _].
  apply keeps_bind; [apply keeps_guarded; exact Htrigger | intros _].
  apply keeps_bind; [apply keeps_command; exact Hpost | intros _].
  apply keeps_bind; [apply keeps_random_random | intros u].
  apply keeps_bind; [| intros _; apply keeps_ret].
  destruct (negb (Qle_bool (1 # 4) u)); [| apply keeps_ret].
  apply keeps_bind; [apply keeps_guarded; exact Hlike | intros _].
  apply keeps_ret.
Qed.

Lemma keeps_retry_decorator retries func :
  keeps P func -> keeps P (retry_decorator retries func).
Proof.
  intros Hf. unfold retry_decorator, retry_once.
  apply keeps_bind.
  - apply keeps_for_each. intros attempt. apply keeps_try_except.
    + apply keeps_bind; [exact Hf | intros v; apply keeps_ret].
    + intros e. apply keeps_bind.
      { destruct (Nat.eqb attempt (retries - 1));
          [apply keeps_logger | apply keeps_ret]. }
      intros _. apply keeps_bind; [apply keeps_logger | intros _].
      apply keeps_bind; [apply keeps_time_sleep | intros _].
      apply keeps_ret.
  - intros [v |]; apply keeps_ret.
Qed.

End KeepFacts.

(** A visit handles its topic and asks for the next one, whatever the tab
    did, when the address of the topic can be read.  Besides the call of
    [click_one_topic] it writes lines of level [INFO] only. *)
Lemma visit_topic_continues P browse_count it href w old :
  kept_by_tabs P ->
  P (browser w) ->
  (forall b, P b -> ele_attr_href (snd it) b = inr href) ->
  browse_history_of (session_data w) = Some old ->
  exists v w1 w' extra,
    LinuxDoBrowser.click_one_topic (attr_value href)
      (waited (query_lag (browser w)) (browser w)
         (logged INFO (BrowseProgress (fst it + 1) browse_count) w))
    = (Ok v, w1)
    /\ LinuxDoBrowser.visit_topic browse_count it w = (Ok Next, w')
    /\ P (browser w')
    /\ browse_history_of (session_data w')
       = Some (last_n 50 (old ++ [attr_value href]))
    /\ log w' = log w1 ++ extra
    /\ Forall is_info extra.
Proof.
  intros HP Hw Hhref Hold. destruct it as [i topic]. cbn [fst snd] in *.
  unfold LinuxDoBrowser.visit_topic. unfold bind at 1, logger.
  unfold bind at 1, query. cbn [browser logged]. rewrite (Hhref _ Hw).
  cbn [lift ret].
  set (w0 := waited (query_lag (browser w)) (browser w)
               (logged INFO (BrowseProgress (i + 1) browse_count) w)).
  unfold bind at 1, LinuxDoBrowser.click_one_topic.
  destruct (retry_decorator_returns 3
              (LinuxDoBrowser.click_one_topic_body (attr_value href)) w0
              (tame_click_one_topic_body _))
    as (v & w1 & Hvisit & Hs1).
  assert (Hw1 : P (browser w1)).
  { apply (keeps_retry_decorator P HP 3 _
             (keeps_click_one_topic_body P HP _) w0 _ _ Hw Hvisit). }
  exists v, w1. rewrite Hvisit.
  subst w0. cbn [session_data waited logged] in Hs1. rewrite <- Hs1 in Hold.
  unfold bind at 1. rewrite update_browse_history_run, (Hhref _ Hw1).
  revert Hold. destruct (session_data w1) as [| | | | | d |]; try discriminate.
  intros ->. unfold set_session_data.
  unfold bind at 1.
  destruct HP as (Helapse & _).
  destruct (i <? browse_count - 1)%nat.
  - unfold bind at 1, random_uniform, bind, random_random. cbn [rng waited].
    destruct (rng w1); cbn; do 2 eexists; (split; [reflexivity |]);
      (split; [reflexivity |]); cbn;
      (split; [apply Helapse; exact Hw1 |]);
      (split; [apply browse_history_of_set |]);
      (split; [reflexivity |]); repeat constructor.
  - cbn. eexists. exists []. split; [reflexivity |].
    split; [reflexivity |]. cbn. split; [exact Hw1 |].
    split; [apply browse_history_of_set |].
    split; [rewrite app_nil_r; reflexivity | constructor].
Qed.

(** The loop over the selected topics reaches every topic when the
    addresses can be read. *)
Lemma visits_reach_every_topic P browse_count items href_of w old :
  kept_by_tabs P ->
  P (browser w) ->
  (forall it b,
     In it items -> P b -> ele_attr_href (snd it) b = inr (href_of (snd it))) ->
  browse_history_of (session_data w) = Some old ->
  exists w',
    for_each items (LinuxDoBrowser.visit_topic browse_count) w = (Ok None, w')
    /\ P (browser w')
    /\ browse_history_of (session_data w')
       = Some (history_after old (map (fun it => href_of (snd it)) items)).
Proof.
  intros HP. revert w old.
  induction items as [| it items IH]; intros w old Hw Hhref Hold.
  - exists w. split; [reflexivity |]. split; [exact Hw | exact Hold].
  - cbn [for_each map]. unfold history_after. cbn [fold_left]. unfold bind.
    destruct (visit_topic_continues P browse_count it (href_of (snd it)) w old)
      as (v & w1 & w2 & extra & _ & -> & Hw2 & Hs2 & _);
      [exact HP | exact Hw
      | intros b; apply Hhref; left; reflexivity | exact Hold |].
    apply (IH w2 _ Hw2); [| exact Hs2].
    intros it' b Hin. apply Hhref. right. exact Hin.
Qed.

(** From a history within the cap, the visits leave the last 50 of the old
    entries followed by the topics in the order of the visits. *)
Lemma visited_history_closed (hrefs : list (option string)) old :
  (length old <= 50)%nat ->
  history_after old hrefs = last_n 50 (old ++ map attr_value hrefs).
Proof.
  intros Hold. unfold history_after.
  rewrite <- (last_n_short 50 old Hold) at 1.
  clear Hold. revert old. induction hrefs as [| href hrefs IH]; intros old.
  - cbn. rewrite app_nil_r. reflexivity.
  - cbn [fold_left map]. rewrite last_n_app.
    rewrite <- (last_n_short 50 (last_n 50 (old ++ [attr_value href])))
      by apply last_n_length.
    rewrite IH. rewrite last_n_app. rewrite <- app_assoc. reflexivity.
Qed.

(** The wrapper by the outcomes of three attempts. *)
Lemma three_failures_give_none func w e1 w1 e2 w2 e3 w3 :
  func w = (Raise (Exception e1), w1) ->
  func (backed_off 3 0 e1 w1) = (Raise (Exception e2), w2) ->
  func (backed_off 3 1 e2 w2) = (Raise (Exception e3), w3) ->
  retry_decorator 3 func w = (Ok VNone, backed_off 3 2 e3 w3).
Proof.
  intros Hfirst Hsecond Hthird.
  unfold retry_decorator, range, bind. cbn [seq for_each]. unfold bind.
  rewrite retry_once_run, Hfirst. rewrite retry_once_run, Hsecond.
  rewrite retry_once_run, Hthird. reflexivity.
Qed.




End RetryFacts.





(** The same when the address of a topic cannot be read: the exception of
    the read is outside of the wrapper and ends the loop. *)
Example click_topic_on_lost_topic :
  let run := LinuxDoBrowser.click_topic (boot 0 ∅ lost_topic) in
  fst run = Raise (Exception (BrowserError "element lost"))
  /\ sim_visited (browser (snd run)) = ["https://linux.do/t/1"].
Proof. vm_compute. split; reflexivity. Qed.

(** The scenario of the flaky tab: the first topic needs three attempts,
    and both topics are visited and recorded. *)
Example click_topic_on_flaky_tab :
  let w' := snd (LinuxDoBrowser.click_topic (boot 0 ∅ flaky_tab)) in
  sim_visited (browser w')
  = ["https://linux.do/t/topic/1"; "https://linux.do/t/topic/2"]
  /\ browse_history_of (session_data w')
     = Some [VStr "/t/topic/1"; VStr "/t/topic/2"]
  /\ map (fun e => (at_time e, lvl e, msg e))
         (List.filter (fun e => match lvl e with WARNING => true | _ => false end)
            (log w'))
     = [(0%Q, WARNING, RetryAttemptFailed 1 3 (BrowserError "load failed"));
        (1%Q, WARNING, RetryAttemptFailed 2 3 (BrowserError "load failed"))].
Proof. vm_compute. repeat split; reflexivity. Qed.

(** ** The end of a failed login *)

Section ExitFacts.
Context {B : Type} `{Chromium B}.
Variable cfg : config.
Variable str_lower : string -> string.
Implicit Types (w : world B).

Lemma cache_files_differ : cookies_file <> session_file.
Proof. discriminate. Qed.

(** [clear_caches] never raises; it leaves no cache file behind unless a
    removal failed, and then it logs the failure. *)
Lemma clear_caches_outcome w :
  exists w',
    LinuxDoBrowser.clear_caches w = (Ok tt, w')
    /\ (io_fails w Remove cookies_file = false ->
        io_fails w Remove session_file = false ->
        fs w' !! cookies_file = None /\ fs w' !! session_file = None
        /\ session_data w' = VDict [])
    /\ ((fs w' !! cookies_file = None /\ fs w' !! session_file = None)
        \/ exists t, In (Entry t ERROR (ClearCachesFailed OSError)) (log w')).
Proof.
  pose proof cache_files_differ as Hne.
  assert (Hother : session_file <> cookies_file) by (intros Heq; congruence).
  unfold LinuxDoBrowser.clear_caches, LinuxDoBrowser.cache_files, try_except.
  cbn [for_each]. unfold LinuxDoBrowser.clear_one, bind,
    CacheManager.os_path_exists, CacheManager.os_remove, logger, ret,
    set_session_data.
  destruct (fs w !! cookies_file) as [f1 |] eqn:Hf1;
    [destruct (io_fails w Remove cookies_file) eqn:Hr1 |];
    world_simpl; rewrite ?Hf1; world_simpl;
    rewrite ?(lookup_delete_ne (fs w) cookies_file session_file Hne);
    (destruct (fs w !! session_file) as [f2 |] eqn:Hf2;
     [destruct (io_fails w Remove session_file) eqn:Hr2 |]);
    do 3 (world_simpl;
          rewrite ?(lookup_delete_ne (fs w) cookies_file session_file Hne),
            ?Hf2, ?Hr2);
    world_simpl;
    (eexists; split; [reflexivity |]); world_simpl;
    rewrite ?lookup_delete_eq,
      ?(lookup_delete_ne _ session_file cookies_file Hother),
      ?(lookup_delete_ne _ cookies_file session_file Hne),
      ?lookup_delete_eq, ?Hf1, ?Hf2;
    (split; [first [discriminate | intros _; discriminate | intros _ _; auto] |]);
    first [ left; split; reflexivity
          | right; exists (clock w); apply in_or_app; right; left; reflexivity ].
Qed.

(** [run] after a login that failed. *)
Lemma run_after_failed_login w w1 :
  LinuxDoBrowser.login cfg str_lower w = (Ok false, w1) ->
  exists w',
    LinuxDoBrowser.clear_caches (logged ERROR LoginFailedTerminate w1) = (Ok tt, w')
    /\ LinuxDoBrowser.run cfg str_lower w = (Raise (SystemExit 1), w').
Proof.
  intros Hlogin.
  destruct (clear_caches_outcome (logged ERROR LoginFailedTerminate w1))
    as (w' & Hclear & _).
  exists w'. split; [exact Hclear |].
  unfold LinuxDoBrowser.run. unfold bind at 1. rewrite Hlogin.
  cbn [negb]. unfold bind at 1. unfold bind at 1. unfold bind at 1, logger.
  unfold bind at 1. rewrite Hclear. reflexivity.
Qed.

End ExitFacts.

(** C4, as the code has it.  When the login fails after the full flow, [run]
    clears the caches and ends the process with exit code 1: both cache files
    are gone when no removal is refused, and a refused removal is logged as
    an error and ends the clearing.  The process also exits with code 1,
    before it starts the browser, when the user name or the password is
    missing from the environment. *)
Theorem failed_login_clears_and_exits {B} `{Chromium B} (cfg : config)
    (str_lower : string -> string) (w : world B) :
  (forall w1,
     LinuxDoBrowser.login cfg str_lower w = (Ok false, w1) ->
     exists w',
       LinuxDoBrowser.run cfg str_lower w = (Raise (SystemExit 1), w')
       /\ exit_code (fst (LinuxDoBrowser.run cfg str_lower w)) = 1%Z
       /\ (io_fails w1 Remove cookies_file = false ->
           io_fails w1 Remove session_file = false ->
           fs w' !! cookies_file = None /\ fs w' !! session_file = None)
       /\ ((fs w' !! cookies_file = None /\ fs w' !! session_file = None)
           \/ exists t, In (Entry t ERROR (ClearCachesFailed OSError)) (log w')))
  /\ (unset (USERNAME cfg) || unset (PASSWORD cfg) = true ->
      exit_code (fst (LinuxDoBrowser.main cfg str_lower w)) = 1%Z
      /\ fs (snd (LinuxDoBrowser.main cfg str_lower w)) = fs w
      /\ log (snd (LinuxDoBrowser.main cfg str_lower w)) = log w)
  /\ (unset (USERNAME cfg) || unset (PASSWORD cfg) = false ->
      forall wi w1,
        LinuxDoBrowser.init (logged INFO ScriptStart w) = (Ok tt, wi) ->
        LinuxDoBrowser.login cfg str_lower wi = (Ok false, w1) ->
        exit_code (fst (LinuxDoBrowser.main cfg str_lower w)) = 1%Z)
  /\ (forall (environ : gmap string string) (browse_enabled : bool),
        (environ !! "LINUXDO_USERNAME" = None /\ environ !! "USERNAME" = None)
        \/ (environ !! "LINUXDO_PASSWORD" = None /\ environ !! "PASSWORD" = None) ->
        exit_code (fst (LinuxDoBrowser.main (read_config environ browse_enabled)
                          str_lower w)) = 1%Z).
Proof.
  split; [| split; [| split]].
  - intros w1 Hlogin.
    destruct (run_after_failed_login cfg str_lower w w1 Hlogin)
      as (w' & Hclear & Hrun).
    destruct (clear_caches_outcome (logged ERROR LoginFailedTerminate w1))
      as (w'' & Hclear' & Hclean & Hlogged).
    rewrite Hclear in Hclear'. injection Hclear' as <-.
    exists w'. rewrite Hrun. split; [reflexivity |]. split; [reflexivity |].
    split; [| exact Hlogged].
    intros Hr1 Hr2. destruct (Hclean Hr1 Hr2) as (? & ? & _). auto.
  - intros Hmissing. unfold LinuxDoBrowser.main. rewrite Hmissing.
    repeat split.
  - intros Hset wi w1 Hinit Hlogin. unfold LinuxDoBrowser.main. rewrite Hset.
    unfold bind at 1, logger. unfold bind at 1. rewrite Hinit.
    unfold bind at 1.
    destruct (run_after_failed_login cfg str_lower wi w1 Hlogin)
      as (w' & _ & ->).
    reflexivity.
  - intros environ browse_enabled Hmissing.
    unfold LinuxDoBrowser.main, read_config. cbn [USERNAME PASSWORD].
    assert (Hunset : unset (getenv_or environ "LINUXDO_USERNAME" "USERNAME")
                     || unset (getenv_or environ "LINUXDO_PASSWORD" "PASSWORD")
                     = true).
    { unfold getenv_or.
      destruct Hmissing as [[-> ->] | [-> ->]]; cbn;
        [reflexivity | apply orb_true_r]. }
    rewrite Hunset. reflexivity.
Qed.

Lemma failed_login_clears_and_exits_witness :
  exit_code (fst (LinuxDoBrowser.main (read_config ∅ true) ascii_lower
                    (boot 0 both_caches login_page))) = 1%Z.
Proof.
  apply (proj2 (proj2 (proj2
           (failed_login_clears_and_exits (read_config ∅ true) ascii_lower
              (boot 0 both_caches login_page))))).
  left. split; reflexivity.
Defined.

(** C4 as stated fails: the login fails after the full flow, the process
    exits with code 1, and both cache files are still there, because the
    system refused to remove the first one. *)
Lemma failed_login_may_keep_cache_files :
  let w := undeletable login_page in
  let w' := snd (LinuxDoBrowser.run alice ascii_lower w) in
  fst (LinuxDoBrowser.login alice ascii_lower w) = Ok false
  /\ fst (LinuxDoBrowser.run alice ascii_lower w) = Raise (SystemExit 1)
  /\ fs w' !! cookies_file <> None
  /\ fs w' !! session_file <> None.
Proof. vm_compute. repeat split; discriminate. Qed.

(** Without a refused removal the same run leaves no cache file. *)
Example failed_login_on_login_page :
  let w := boot 1000 both_caches login_page in
  let w' := snd (LinuxDoBrowser.run alice ascii_lower w) in
  fst (LinuxDoBrowser.run alice ascii_lower w) = Raise (SystemExit 1)
  /\ fs w' !! cookies_file = None
  /\ fs w' !! session_file = None.
Proof. vm_compute. repeat split; reflexivity. Qed.

(* ===================================================================== *)
(** * Further properties of the cache store *)
(* ===================================================================== *)

Section CacheFrame.
Context {B : Type}.
Implicit Types (w : world B) (file_name : string).

(** What [save_cache] leaves alone, and what a refused call leaves of the
    file. *)
Lemma save_cache_effect w data file_name :
  exists b w',
    CacheManager.save_cache data file_name w = (Ok b, w')
    /\ clock w' = clock w /\ isoformat w' = isoformat w
    /\ io_fails w' = io_fails w /\ browser w' = browser w
    /\ session_data w' = session_data w /\ cache_saved w' = cache_saved w
    /\ rng w' = rng w
    /\ attempts (log w') = attempts (log w)
    /\ (forall other, other <> file_name -> fs w' !! other = fs w !! other)
    /\ (io_fails w OpenWrite file_name = true -> fs w' = fs w)
    /\ (io_fails w OpenWrite file_name = false ->
        io_fails w Dump file_name = true ->
        fs w' !! file_name = Some (File (Garbled "") (clock w))).
Proof.
  unfold CacheManager.save_cache, try_except, bind,
    CacheManager.datetime_now_isoformat, time_time, CacheManager.open_write.
  destruct (io_fails w OpenWrite file_name) eqn:Hopen.
  { do 2 eexists. split; [reflexivity |]. cbn. rewrite attempts_snoc. cbn.
    repeat split; try reflexivity; try lia; discriminate. }
  unfold CacheManager.json_dump, set_fs. cbn.
  destruct (io_fails w Dump file_name) eqn:Hdump.
  { do 2 eexists. split; [reflexivity |]. cbn. rewrite attempts_snoc. cbn.
    repeat split; try reflexivity; try lia; try discriminate.
    - intros other Hne. apply lookup_insert_ne. congruence.
    - intros _ _. apply lookup_insert_eq. }
  unfold CacheManager.os_utime. cbn.
  destruct (io_fails w Utime file_name) eqn:Hutime.
  { do 2 eexists. split; [reflexivity |]. cbn. rewrite attempts_snoc. cbn.
    repeat split; try reflexivity; try lia; try discriminate.
    intros other Hne. rewrite !lookup_insert_ne by congruence. reflexivity. }
  rewrite lookup_insert_eq. cbn.
  unfold CacheManager.get_file_age_hours, bind, CacheManager.os_path_exists.
  cbn. rewrite lookup_insert_eq. cbn.
  unfold CacheManager.os_path_getmtime. cbn. rewrite lookup_insert_eq. cbn.
  unfold CacheManager.os_path_getsize. cbn. rewrite lookup_insert_eq. cbn.
  do 2 eexists. split; [reflexivity |]. cbn. rewrite attempts_snoc. cbn.
  repeat split; try reflexivity; try lia; try discriminate.
  intros other Hne. rewrite !lookup_insert_ne by congruence. reflexivity.
Qed.

(** A save that answered [True] left the document of that save on disk. *)
Lemma save_cache_true_file w w1 data file_name :
  CacheManager.save_cache data file_name w = (Ok true, w1) ->
  save_fails w file_name = false
  /\ fs w1 = <[file_name := saved_file w data]> (fs w)
  /\ clock w1 = clock w /\ io_fails w1 = io_fails w.
Proof.
  intros Hsave.
  destruct (save_fails w file_name) eqn:Hfaults.
  { destruct (save_cache_failure w data file_name Hfaults) as (w' & Hrun & _).
    rewrite Hrun in Hsave. discriminate Hsave. }
  destruct (save_cache_success w data file_name Hfaults)
    as (w' & Hrun & Hfs & Hclock & _ & Hio & _).
  rewrite Hrun in Hsave. injection Hsave as <-. auto.
Qed.

End CacheFrame.

(** X1.  [get_file_age_hours] answers [None] for a file that is not there;
    for a file that [save_cache] wrote at clock value [T] and that is read
    at clock value [T'] it answers [(T' - T) / 3600]. *)
Theorem file_age_counts_from_the_save {B} (w w1 w2 : world B) (data : value)
    (file_name : string) :
  (fs w !! file_name = None ->
   CacheManager.get_file_age_hours file_name w = (Ok None, w))
  /\ (CacheManager.save_cache data file_name w = (Ok true, w1) ->
      fs w2 !! file_name = fs w1 !! file_name ->
      CacheManager.get_file_age_hours file_name w2
      = (Ok (Some ((clock w2 - clock w) / 3600)%Q), w2)).
Proof.
  split.
  - intros Hnone.
    unfold CacheManager.get_file_age_hours, bind, CacheManager.os_path_exists.
    rewrite Hnone. reflexivity.
  - intros Hsave Hsame.
    destruct (save_cache_true_file w w1 data file_name Hsave) as (_ & Hfs & _).
    rewrite Hfs, lookup_insert_eq in Hsame.
    rewrite (get_file_age_hours_present w2 file_name _ Hsame). reflexivity.
Qed.

Lemma file_age_counts_from_the_save_witness :
  CacheManager.get_file_age_hours session_file
    (waited 7200 tt
       (snd (CacheManager.save_cache (VDict []) session_file (boot 100 ∅ tt))))
  = (Ok (Some ((100 + 7200 - 100) / 3600)%Q),
     waited 7200 tt
       (snd (CacheManager.save_cache (VDict []) session_file (boot 100 ∅ tt)))).
Proof.
  refine (proj2 (file_age_counts_from_the_save (boot 100 ∅ tt) _ _ (VDict [])
                   session_file) _ _).
  - vm_compute. reflexivity.
  - reflexivity.
Defined.

(** X2.  A stored document that is a record without a [data] member (the
    format without the wrapper) is handed back whole by [load_cache]. *)
Theorem load_cache_unwrapped_record {B} (w : world B) (file_name : string)
    (d : list (string * value)) (t : Q) :
  fs w !! file_name = Some (File (Json (VDict d)) t) ->
  dict_get "data" d = None ->
  CacheManager.load_cache file_name w
  = (Ok (VDict d),
     logged INFO (CacheLoaded file_name ((clock w - t) / 3600)%Q) w).
Proof.
  intros Hf Hdata. rewrite (load_cache_json _ _ _ _ Hf). cbn [py_get].
  rewrite Hdata. reflexivity.
Qed.

Lemma load_cache_unwrapped_record_witness :
  fst (CacheManager.load_cache session_file
         (boot 10 (<[session_file :=
                       File (Json (VDict [("total_browsed", VNum 4)])) 3]> ∅) tt))
  = Ok (VDict [("total_browsed", VNum 4)]).
Proof.
  rewrite (load_cache_unwrapped_record _ session_file
             [("total_browsed", VNum 4)] 3%Q); reflexivity.
Defined.

(** X3.  A stored document that is not a record (a bare list, a string, a
    number, [null]) makes [load_cache] answer [None]: the missing [get]
    method is caught like a failed load and logged as a warning. *)
Theorem load_cache_rejects_non_record {B} (w : world B) (file_name : string)
    (doc : value) (t : Q) :
  fs w !! file_name = Some (File (Json doc) t) ->
  (forall d, doc <> VDict d) ->
  CacheManager.load_cache file_name w
  = (Ok VNone,
     logged WARNING (CacheLoadFailed file_name AttributeError)
       (logged INFO (CacheLoaded file_name ((clock w - t) / 3600)%Q) w)).
Proof.
  intros Hf Hdoc. rewrite (load_cache_json _ _ _ _ Hf).
  destruct doc; try reflexivity. exfalso. apply (Hdoc d). reflexivity.
Qed.

Lemma load_cache_rejects_non_record_witness :
  fst (CacheManager.load_cache cookies_file
         (boot 10 (<[cookies_file :=
                       File (Json (VList [clearance_cookie (-1)])) 3]> ∅) tt))
  = Ok VNone.
Proof.
  rewrite (load_cache_rejects_non_record _ cookies_file
             (VList [clearance_cookie (-1)]) 3%Q);
    [reflexivity | reflexivity | discriminate].
Defined.

(** X4.  Whatever its outcome, [save_cache] touches no file but the one it
    is given and changes neither the clock, the session metadata nor the
    browser. *)
Theorem save_cache_touches_one_file {B} (w w' : world B) (data : value)
    (file_name : string) (r : result bool) :
  CacheManager.save_cache data file_name w = (r, w') ->
  (forall other, other <> file_name -> fs w' !! other = fs w !! other)
  /\ clock w' = clock w
  /\ session_data w' = session_data w
  /\ cache_saved w' = cache_saved w
  /\ browser w' = browser w.
Proof.
  intros Hrun.
  destruct (save_cache_effect w data file_name)
    as (b & w1 & Hrun1 & Hclock & _ & _ & Hb & Hs & Hc & _ & _ & Hframe & _).
  rewrite Hrun1 in Hrun. injection Hrun as <- <-. auto.
Qed.

Lemma save_cache_touches_one_file_witness :
  fs (snd (CacheManager.save_cache (VList []) cookies_file
             (boot 1 both_caches tt))) !! session_file
  = both_caches !! session_file.
Proof.
  refine (proj1 (save_cache_touches_one_file (boot 1 both_caches tt) _
                   (VList []) cookies_file
                   (fst (CacheManager.save_cache (VList []) cookies_file
                           (boot 1 both_caches tt))) _)
            session_file _).
  - apply surjective_pairing.
  - discriminate.
Defined.

(** X5.  [save_cache] is not atomic.  When the file could be opened and the
    write then fails, [save_cache] answers [False] and the previous content
    is lost: the next [load_cache] of the file answers [None] with a
    warning.  When the file could not be opened, the files are as before. *)
Theorem failed_write_loses_the_cache {B} (w : world B) (data : value)
    (file_name : string) :
  (io_fails w OpenWrite file_name = false ->
   io_fails w Dump file_name = true ->
   exists w',
     CacheManager.save_cache data file_name w = (Ok false, w')
     /\ forall w2 : world B,
          fs w2 !! file_name = fs w' !! file_name ->
          CacheManager.load_cache file_name w2
          = (Ok VNone,
             logged WARNING (CacheLoadFailed file_name JSONDecodeError) w2))
  /\ (io_fails w OpenWrite file_name = true ->
      exists w',
        CacheManager.save_cache data file_name w = (Ok false, w')
        /\ fs w' = fs w).
Proof.
  destruct (save_cache_effect w data file_name)
    as (b & w' & Hrun & _ & _ & _ & _ & _ & _ & _ & _ & _ & Hopen & Hdump).
  split.
  - intros Hopened Hfailed.
    assert (Hfaults : save_fails w file_name = true).
    { unfold save_fails. rewrite Hopened, Hfailed. reflexivity. }
    destruct (save_cache_failure w data file_name Hfaults) as (w1 & Hrun1 & _).
    rewrite Hrun1 in Hrun. injection Hrun as <- <-.
    exists w1. split; [exact Hrun1 |].
    intros w2 Hsame. rewrite (Hdump Hopened Hfailed) in Hsame.
    apply (load_cache_garbled _ _ _ _ Hsame).
  - intros Hrefused.
    assert (Hfaults : save_fails w file_name = true).
    { unfold save_fails. rewrite Hrefused. reflexivity. }
    destruct (save_cache_failure w data file_name Hfaults) as (w1 & Hrun1 & _).
    rewrite Hrun1 in Hrun. injection Hrun as <- <-.
    exists w1. split; [exact Hrun1 | exact (Hopen Hrefused)].
Qed.

Lemma failed_write_loses_the_cache_witness :
  exists w',
    CacheManager.save_cache (VList [clearance_cookie (-1)]) cookies_file
      (disk_full 50 tt) = (Ok false, w')
    /\ fst (CacheManager.load_cache cookies_file w') = Ok VNone.
Proof.
  destruct (proj1 (failed_write_loses_the_cache (disk_full 50 tt)
                     (VList [clearance_cookie (-1)]) cookies_file)
              eq_refl eq_refl) as (w' & Hrun & Hload).
  exists w'. split; [exact Hrun |]. rewrite (Hload w' eq_refl). reflexivity.
Defined.

(** X6.  [load_session] never raises and never answers [None].  A missing
    session file, an unreadable one, a document that is no record and a
    stored payload that is falsy all give the empty record; a stored payload
    that is truthy is handed back as it is: the [data] member of a wrapper
    document, and the document itself when it is a record without [data]. *)
Theorem load_session_defaults_to_empty {B} (w : world B) :
  (exists v w',
     CacheManager.load_session w = (Ok v, w')
     /\ (v = VDict [] \/ truthy v = true))
  /\ (fs w !! session_file = None ->
      fst (CacheManager.load_session w) = Ok (VDict []))
  /\ (forall bytes t,
        fs w !! session_file = Some (File (Garbled bytes) t) ->
        fst (CacheManager.load_session w) = Ok (VDict []))
  /\ (forall d t payload,
        fs w !! session_file = Some (File (Json (VDict d)) t) ->
        dict_get "data" d = Some payload ->
        fst (CacheManager.load_session w)
        = Ok (if truthy payload then payload else VDict []))
  /\ (forall d t,
        fs w !! session_file = Some (File (Json (VDict d)) t) ->
        dict_get "data" d = None ->
        fst (CacheManager.load_session w) = Ok (VDict d))
  /\ (forall doc t,
        fs w !! session_file = Some (File (Json doc) t) ->
        (forall d, doc <> VDict d) ->
        fst (CacheManager.load_session w) = Ok (VDict [])).
Proof.
  unfold CacheManager.load_session, bind.
  repeat apply conj.
  - destruct (load_cache_returns w session_file) as (v & w' & -> & _).
    exists (py_or v (VDict [])), w'. split; [reflexivity |].
    unfold py_or. destruct (truthy v) eqn:Hv; auto.
  - intros Hnone. rewrite (load_cache_missing _ _ Hnone). reflexivity.
  - intros bytes t Hf. rewrite (load_cache_garbled _ _ _ _ Hf). reflexivity.
  - intros d t payload Hf Hdata. rewrite (load_cache_json _ _ _ _ Hf).
    cbn [py_get]. rewrite Hdata. reflexivity.
  - intros d t Hf Hdata. rewrite (load_cache_json _ _ _ _ Hf).
    cbn [py_get]. rewrite Hdata. cbn. unfold py_or.
    destruct d as [| kv d]; reflexivity.
  - intros doc t Hf Hdoc. rewrite (load_cache_json _ _ _ _ Hf).
    destruct doc as [| | | | | d |]; try reflexivity.
    exfalso. exact (Hdoc d eq_refl).
Qed.

Lemma load_session_defaults_to_empty_witness :
  fst (CacheManager.load_session (boot 1000 both_caches tt))
  = Ok (VDict [("login_status", VStr "success")]).
Proof.
  refine (proj1 (proj2 (proj2 (proj2 (load_session_defaults_to_empty
                                        (boot 1000 both_caches tt)))))
            _ 0%Q (VDict [("login_status", VStr "success")]) _ _);
    vm_compute; reflexivity.
Defined.

(** X7.  The two caches do not disturb each other: after [save_cookies]
    and [save_session] have both answered [True], [load_cookies] answers the
    cookies and [load_session] the session that were saved, in their JSON
    form, which is the saved values themselves when they hold no tuple. *)
Theorem caches_are_independent {B} (w w1 w2 : world B) (cookies session : value) :
  CacheManager.save_cookies cookies w = (Ok true, w1) ->
  CacheManager.save_session session w1 = (Ok true, w2) ->
  fst (CacheManager.load_cookies w2) = Ok (json_form cookies)
  /\ fst (CacheManager.load_session w2)
     = Ok (py_or (json_form session) (VDict []))
  /\ (json_native cookies = true ->
      fst (CacheManager.load_cookies w2) = Ok cookies)
  /\ (json_native session = true ->
      fst (CacheManager.load_session w2) = Ok (py_or session (VDict []))).
Proof.
  unfold CacheManager.save_cookies, CacheManager.save_session,
    CacheManager.load_cookies, CacheManager.load_session.
  intros Hcookies Hsession.
  destruct (save_cache_true_file _ _ _ _ Hcookies) as (_ & Hfs1 & _).
  destruct (save_cache_true_file _ _ _ _ Hsession) as (_ & Hfs2 & _).
  assert (Hc : fs w2 !! cookies_file = Some (saved_file w cookies)).
  { rewrite Hfs2, lookup_insert_ne by discriminate.
    rewrite Hfs1. apply lookup_insert_eq. }
  assert (Hs : fs w2 !! session_file = Some (saved_file w1 session)).
  { rewrite Hfs2. apply lookup_insert_eq. }
  assert (Hloadc : fst (CacheManager.load_cache cookies_file w2)
                   = Ok (json_form cookies)).
  { rewrite (load_cache_json _ _ _ _ Hc). reflexivity. }
  assert (Hloads : fst (bind (CacheManager.load_cache session_file)
                          (fun v => ret (py_or v (VDict []))) w2)
                   = Ok (py_or (json_form session) (VDict []))).
  { unfold bind. rewrite (load_cache_json _ _ _ _ Hs). reflexivity. }
  repeat apply conj.
  - exact Hloadc.
  - exact Hloads.
  - intros Hnative. rewrite Hloadc, (json_form_native _ Hnative). reflexivity.
  - intros Hnative. rewrite Hloads, (json_form_native _ Hnative). reflexivity.
Qed.

Lemma caches_are_independent_witness :
  fst (CacheManager.load_cookies
         (snd (CacheManager.save_session (VDict [("total_browsed", VNum 1)])
                 (snd (CacheManager.save_cookies (VList [clearance_cookie (-1)])
                         (boot 0 ∅ tt))))))
  = Ok (VList [clearance_cookie (-1)]).
Proof.
  refine (proj1 (proj2 (proj2 (caches_are_independent (boot 0 ∅ tt) _ _
                                 (VList [clearance_cookie (-1)])
                                 (VDict [("total_browsed", VNum 1)]) _ _))) _);
    vm_compute; reflexivity.
Defined.

(* ===================================================================== *)
(** * Further properties of the challenge verifier *)
(* ===================================================================== *)

Section ChallengeMore.
Context {B : Type} `{Chromium B}.
Implicit Types (w : world B).

Lemma live_clearance_verdict now c :
  live_clearance now c -> cookie_verdict now c = inr true.
Proof.
  intros Hlive.
  assert (Hentry : cookie_entry c).
  { destruct Hlive as (d & e & -> & _ & He & _). exists d, e. auto. }
  destruct (cookie_entry_verdict now c Hentry) as (b & -> & Hb).
  f_equal. apply Hb. exact Hlive.
Qed.

End ChallengeMore.

(** X8.  [is_cf_cookie_valid] never raises and changes nothing, whatever
    value it is given; for [None], for an empty list and for a value that
    cannot be iterated it answers [False]. *)
Theorem is_cf_cookie_valid_is_safe {B} (w : world B) (cookies : value) :
  (exists b, CloudflareHandler.is_cf_cookie_valid cookies w = (Ok b, w))
  /\ CloudflareHandler.is_cf_cookie_valid VNone w = (Ok false, w)
  /\ CloudflareHandler.is_cf_cookie_valid (VList []) w = (Ok false, w)
  /\ (forall q, CloudflareHandler.is_cf_cookie_valid (VNum q) w = (Ok false, w))
  /\ (forall b, CloudflareHandler.is_cf_cookie_valid (VBool b) w = (Ok false, w)).
Proof.
  split; [apply is_cf_cookie_valid_returns |].
  repeat split; reflexivity.
Qed.

(** X9.  On cached data that is not a clean cookie set the answer depends
    on the order of the items: a valid clearance cookie in first place gives
    [True] whatever follows it, and an item that is not a record in first
    place gives [False] whatever follows it. *)
Theorem is_cf_cookie_valid_stops_at_first_verdict {B} (w : world B)
    (item : value) (rest : list value) :
  (live_clearance (clock w) item ->
   CloudflareHandler.is_cf_cookie_valid (VList (item :: rest)) w = (Ok true, w))
  /\ ((forall d, item <> VDict d) ->
      CloudflareHandler.is_cf_cookie_valid (VList (item :: rest)) w
      = (Ok false, w)).
Proof.
  split; [| apply is_cf_cookie_valid_not_a_record].
  intros Hlive.
  unfold CloudflareHandler.is_cf_cookie_valid, try_except. unfold bind at 1.
  cbn [py_iter lift]. unfold ret at 1. unfold bind at 1.
  cbn [for_each]. unfold bind at 1.
  rewrite check_cookie_verdict, (live_clearance_verdict _ _ Hlive). reflexivity.
Qed.

Lemma is_cf_cookie_valid_stops_at_first_verdict_witness :
  CloudflareHandler.is_cf_cookie_valid
    (VList [VStr "junk"; clearance_cookie (-1)]) (boot 5 ∅ tt)
  = (Ok false, boot 5 ∅ tt)
  /\ CloudflareHandler.is_cf_cookie_valid
       (VList [clearance_cookie (-1); VStr "junk"]) (boot 5 ∅ tt)
     = (Ok true, boot 5 ∅ tt).
Proof.
  split.
  - apply (proj2 (is_cf_cookie_valid_stops_at_first_verdict (boot 5 ∅ tt)
                    (VStr "junk") [clearance_cookie (-1)])).
    discriminate.
  - apply (proj1 (is_cf_cookie_valid_stops_at_first_verdict (boot 5 ∅ tt)
                    (clearance_cookie (-1)) [VStr "junk"])).
    do 2 eexists. split; [reflexivity |].
    split; [reflexivity |]. split; [reflexivity |]. left. reflexivity.
Defined.

(** X10.  On every input, with or without cached cookies, whatever the
    browser answers or raises, [handle_cloudflare] makes at most
    [max_attempts] turns of its polling loop. *)
Theorem handle_cloudflare_turns_bounded {B} `{Chromium B} (w : world B)
    (max_attempts : nat) (timeout : Q) :
  (attempts (log (snd (CloudflareHandler.handle_cloudflare max_attempts
                         timeout w)))
   <= attempts (log w) + max_attempts)%nat.
Proof.
  destruct (handle_cloudflare_outcome w max_attempts timeout)
    as (r & w' & Hrun & _ & Hle).
  rewrite Hrun. exact Hle.
Qed.

(** X11.  A turn of the polling loop whose two probes answered and that
    ends with more than [timeout] seconds elapsed is the last turn: the loop
    ends in the world that turn left, whatever attempts remain. *)
Theorem timed_out_turn_is_last {B} `{Chromium B} (w w1 : world B)
    (start_time timeout : Q) (max_attempts attempt : nat) (rest : list nat)
    (url title : string) (c : ctl bool) :
  page_url (browser w) = inr url ->
  page_title (browser w) = inr title ->
  CloudflareHandler.poll_once start_time timeout max_attempts attempt w
  = (Ok c, w1) ->
  ~ (clock w1 - start_time <= timeout)%Q ->
  exists found,
    for_each (attempt :: rest)
      (CloudflareHandler.poll_once start_time timeout max_attempts) w
    = (Ok found, w1).
Proof.
  intros Hurl Htitle Hturn Hlate.
  cbn [for_each]. unfold bind. rewrite Hturn.
  destruct (poll_once_outcome w start_time timeout max_attempts attempt)
    as (c' & w' & Hturn' & Hc & _).
  rewrite Hturn in Hturn'. injection Hturn' as <- <-.
  destruct Hc as [-> | [-> | ->]]; [| eexists; reflexivity ..].
  exfalso. apply Hlate.
  exact (poll_once_checks_timeout _ _ _ _ _ _ _ _ Hurl Htitle Hturn).
Qed.

Lemma timed_out_turn_is_last_witness :
  exists found,
    for_each (range 8) (CloudflareHandler.poll_once 0 180 8)
      (boot 0 ∅ slow_interstitial)
    = (Ok found,
       snd (CloudflareHandler.poll_once 0 180 8 0 (boot 0 ∅ slow_interstitial))).
Proof.
  refine (timed_out_turn_is_last (boot 0 ∅ slow_interstitial) _ 0 180 8 0
            [1; 2; 3; 4; 5; 6; 7]%nat "https://linux.do/login" "请稍候…" Break
            eq_refl eq_refl _ _).
  - vm_compute. reflexivity.
  - vm_compute. intros Hle. apply Hle. reflexivity.
Defined.

Section ChallengeDuration.
Context {B : Type} `{Chromium B}.
Implicit Types (w : world B).
Variable L : Q.
(** The states in which the probes answer within [L] seconds; waiting does
    not leave them. *)
Variable calm : B -> Prop.
Hypothesis calm_elapse : forall d b, calm b -> calm (elapse d b).
Hypothesis lag_bounded : forall b, calm b -> (0 <= query_lag b <= L)%Q.

(** A turn takes at most two probes and fifteen seconds. *)
Lemma poll_once_duration w w' start_time timeout max_attempts attempt c :
  calm (browser w) ->
  Forall unit_draw (rng w) ->
  CloudflareHandler.poll_once start_time timeout max_attempts attempt w
  = (Ok c, w') ->
  (clock w <= clock w' <= clock w + (2 * L + 15))%Q
  /\ Forall unit_draw (rng w') /\ calm (browser w').
Proof.
  intros Hcalm Hrng.
  pose proof (lag_bounded (browser w) Hcalm) as Hlag.
  unfold CloudflareHandler.poll_once, try_except, bind, query, lift.
  destruct (page_url (browser w)) as [e | url].
  { cbn. intros [= <- <-]. cbn. split; [lra | split; [exact Hrng | auto]]. }
  cbn. destruct (page_title (browser w)) as [e | title].
  { cbn. intros [= <- <-]. cbn. split; [lra | split; [exact Hrng | auto]]. }
  cbn. destruct (CloudflareHandler.page_loaded title).
  { cbn. intros [= <- <-]. cbn. split; [lra | split; [exact Hrng | auto]]. }
  unfold random_uniform, random_random, bind. cbn.
  destruct (rng w) as [| u rest] eqn:Hdraws; cbn.
  - match goal with |- context [Qle_bool ?a ?b] => destruct (Qle_bool a b) end;
      cbn; intros [= <- <-]; cbn; rewrite Hdraws;
      (split; [lra | split; [constructor | auto]]).
  - inversion Hrng as [| ? ? Hu Hrest]; subst. unfold unit_draw in Hu.
    match goal with |- context [Qle_bool ?a ?b] => destruct (Qle_bool a b) end;
      cbn; intros [= <- <-]; cbn;
      (split; [lra | split; [exact Hrest | auto]]).
Qed.


(** The loop takes at most that much for each of its turns. *)
Lemma polling_loop_duration turns w w' start_time timeout max_attempts found :
  calm (browser w) ->
  Forall unit_draw (rng w) ->
  for_each turns (CloudflareHandler.poll_once start_time timeout max_attempts) w
  = (Ok found, w') ->
  (clock w <= clock w'
   <= clock w + inject_Z (Z.of_nat (length turns)) * (2 * L + 15))%Q
  /\ calm (browser w').
Proof.
  revert w. induction turns as [| attempt turns IH]; intros w Hcalm Hrng.
  - cbn [for_each length]. unfold ret. intros [= <- <-].
    change (inject_Z (Z.of_nat 0)) with 0%Q. split; [lra | exact Hcalm].
  - cbn [for_each]. unfold bind.
    destruct (poll_once_outcome w start_time timeout max_attempts attempt)
      as (c & w1 & Hturn & _ & _).
    rewrite Hturn.
    destruct (poll_once_duration _ _ _ _ _ _ _ Hcalm Hrng Hturn)
      as (Hstep & Hrng1 & Hcalm1).
    pose proof (lag_bounded (browser w) Hcalm) as Hlag.
    cbn [length]. rewrite Nat2Z.inj_succ. unfold Z.succ. rewrite inject_Z_plus.
    assert (Hmore : (0 <= inject_Z (Z.of_nat (length turns)) * (2 * L + 15))%Q).
    { apply Qmult_le_0_compat; [| lra].
      change 0%Q with (inject_Z 0). rewrite <- Zle_Qle. lia. }
    destruct c as [| | b].
    + intros Hrest. destruct (IH w1 Hcalm1 Hrng1 Hrest) as [Hlater Hcalm'].
      change (inject_Z 1) with 1%Q. split; [lra | exact Hcalm'].
    + intros [= <- <-]. change (inject_Z 1) with 1%Q. split; [lra | exact Hcalm1].
    + intros [= <- <-]. change (inject_Z 1) with 1%Q. split; [lra | exact Hcalm1].
Qed.

End ChallengeDuration.

(** X12.  With a browser whose probes answer within [L] seconds (now, and
    after any wait) and the draws of [random.random()] in the unit interval,
    the polling path of [handle_cloudflare] (the loop and the final check)
    takes at most [max_attempts * (2 L + 15) + L] seconds, whatever the page
    shows and whatever the probes raise. *)
Theorem full_flow_duration_bounded {B} `{Chromium B} (L : Q) (calm : B -> Prop)
    (w w' : world B) (start_time timeout : Q) (max_attempts : nat)
    (r : result bool) :
  (forall d b, calm b -> calm (elapse d b)) ->
  (forall b, calm b -> (0 <= query_lag b <= L)%Q) ->
  calm (browser w) ->
  Forall unit_draw (rng w) ->
  CloudflareHandler.full_flow start_time timeout max_attempts w = (r, w') ->
  (clock w <= clock w'
   <= clock w + (inject_Z (Z.of_nat max_attempts) * (2 * L + 15) + L))%Q.
Proof.
  intros Hstay Hlag Hcalm Hrng.
  unfold CloudflareHandler.full_flow. unfold bind at 1, logger.
  unfold bind at 1.
  destruct (polling_loop_outcome (logged INFO CfFullFlow w) start_time timeout
              max_attempts (range max_attempts))
    as (found & w1 & Hloop & Hfound & _).
  rewrite Hloop.
  destruct (polling_loop_duration L calm Hstay Hlag _
              (logged INFO CfFullFlow w) _ _ _ _ _ Hcalm Hrng Hloop)
    as [Hclock Hcalm1].
  unfold range in Hclock. rewrite length_seq in Hclock. cbn [clock logged] in Hclock.
  pose proof (Hlag (browser w1) Hcalm1) as Hlast.
  destruct Hfound as [-> | ->].
  { intros [= <- <-]. lra. }
  unfold bind, query, lift.
  destruct (page_title (browser w1)) as [e | title].
  { cbn. intros [= <- <-]. cbn. lra. }
  cbn. destruct (CloudflareHandler.page_loaded title); cbn;
    intros [= <- <-]; cbn; lra.
Qed.

Lemma full_flow_duration_bounded_witness :
  (0 <= clock (snd (CloudflareHandler.full_flow 0 180 8
                      (boot 0 ∅ interstitial_page)))
   <= 0 + (inject_Z (Z.of_nat 8) * (2 * 0 + 15) + 0))%Q.
Proof.
  refine (full_flow_duration_bounded 0 (fun b => sim_lag b = 0%Q)
            (boot 0 ∅ interstitial_page) _ 0 180 8
            (fst (CloudflareHandler.full_flow 0 180 8
                    (boot 0 ∅ interstitial_page))) _ _ _ _ _).
  - intros d b Hb. exact Hb.
  - intros b Hb. cbn. rewrite Hb. lra.
  - reflexivity.
  - constructor.
  - apply surjective_pairing.
Defined.

(** X13.  The short-circuit of [handle_cloudflare]: with a valid clearance
    cookie in the cache, cookies that the browser accepts, a navigation
    that succeeds and a page that is no interstitial five seconds later,
    the answer is [True] and no turn of the polling loop is made. *)
Theorem cached_bypass_skips_polling {B} `{Chromium B} (w : world B)
    (d : list (string * value)) (t : Q) (cookies : list value)
    (title : string) (max_attempts : nat) (timeout : Q) :
  fs w !! cookies_file = Some (File (Json (VDict d)) t) ->
  dict_get "data" d = Some (VList cookies) ->
  Forall cookie_entry cookies ->
  Exists (live_clearance (clock w)) cookies ->
  answer (page_set_cookies (VList cookies) (browser w)) = inr tt ->
  answer (page_get HOME_URL
            (after (page_set_cookies (VList cookies) (browser w)))) = inr tt ->
  page_title
    (elapse 5 (after (page_get HOME_URL
                        (after (page_set_cookies (VList cookies) (browser w))))))
  = inr title ->
  CloudflareHandler.page_loaded title = true ->
  exists w',
    CloudflareHandler.handle_cloudflare max_attempts timeout w = (Ok true, w')
    /\ attempts (log w') = attempts (log w)
    /\ In CfBypassedWithCache (map msg (log w')).
Proof.
  intros Hfile Hdata Hall Hlive Hset Hget Htitle Hloaded.
  assert (Hcookies : cookies <> []).
  { intros ->. inversion Hlive. }
  unfold CloudflareHandler.handle_cloudflare, bind at 1, time_time.
  unfold bind at 1, logger. unfold bind at 1, CacheManager.load_cookies.
  rewrite (load_cache_json (logged INFO CfStart w) cookies_file (VDict d) t Hfile).
  cbn [py_get]. rewrite Hdata. cbn [clock logged].
  assert (Hor : py_or (VList cookies) (VList []) = VList cookies).
  { unfold py_or. destruct cookies; reflexivity. }
  rewrite Hor. unfold bind at 1.
  match goal with
  | |- context [CloudflareHandler.is_cf_cookie_valid _ ?w1] =>
      destruct (is_cf_cookie_valid_entries w1 cookies Hall) as (b & -> & Hb)
  end.
  cbn [clock logged] in Hb.
  destruct b; [| exfalso; destruct Hb as [_ Hb]; specialize (Hb Hlive);
                 discriminate Hb].
  unfold bind at 1.
  unfold CloudflareHandler.try_cached_cookies, try_except, bind, logger.
  assert (Htruthy : truthy (VList cookies) = true).
  { destruct cookies; [contradiction | reflexivity]. }
  rewrite Htruthy. unfold command, time_sleep, query, lift, ret.
  cbn -[CloudflareHandler.page_loaded]. rewrite Hset.
  cbn -[CloudflareHandler.page_loaded]. rewrite Hget.
  cbn -[CloudflareHandler.page_loaded]. rewrite Htitle.
  cbn -[CloudflareHandler.page_loaded]. rewrite Hloaded.
  eexists. split; [reflexivity |]. world_simpl.
  split.
  - rewrite !attempts_snoc. cbn. lia.
  - rewrite !map_app. cbn. apply in_or_app. right. left. reflexivity.
Qed.

Lemma cached_bypass_skips_polling_witness :
  exists w',
    CloudflareHandler.handle_cloudflare 8 180 (boot 1000 fresh_caches login_page)
    = (Ok true, w')
    /\ attempts (log w') = 0%nat.
Proof.
  destruct (cached_bypass_skips_polling (boot 1000 fresh_caches login_page)
              [("data", VList [clearance_cookie (-1)]);
               ("cache_timestamp", VStr "1970-01-01T00:00:00");
               ("cache_version", VStr "1.0");
               ("file_created", VNum 0)]
              0 [clearance_cookie (-1)] "LINUX DO" 8 180)
    as (w' & Hrun & Hnone & _).
  - reflexivity.
  - reflexivity.
  - constructor; [| constructor]. do 2 eexists. split; reflexivity.
  - constructor. do 2 eexists. split; [reflexivity |].
    split; [reflexivity |]. split; [reflexivity |]. left. reflexivity.
  - reflexivity.
  - reflexivity.
  - reflexivity.
  - reflexivity.
  - exists w'. split; [exact Hrun | exact Hnone].
Defined.

(* ===================================================================== *)
(** * Further properties of the retry policy *)
(* ===================================================================== *)

Section RetryMore.
Context {B : Type} `{Chromium B}.
Implicit Types (w : world B) (func : M B value).

Lemma count_snoc p l e :
  count p (l ++ [e]) = (count p l + (if p e then 1 else 0))%nat.
Proof.
  unfold count. rewrite List.filter_app, length_app. cbn.
  destruct (p e); reflexivity.
Qed.

(** The turns [first, first + 1, ...] of the wrapper around a function that
    always fails. *)
Lemma retry_loop_exhausts retries func turns first w :
  always_failing func ->
  exists w',
    for_each (seq first turns) (retry_once retries func) w = (Ok None, w')
    /\ (clock w' == clock w + inject_Z (Z.of_nat turns))%Q
    /\ count is_retry_warning (log w')
       = (count is_retry_warning (log w) + turns)%nat
    /\ count is_retry_error (log w')
       = (count is_retry_error (log w)
          + length (List.filter (fun i => Nat.eqb i (retries - 1))
                      (seq first turns)))%nat.
Proof.
  intros Hfails. revert first w.
  induction turns as [| turns IH]; intros first w.
  - exists w. cbn [seq for_each List.filter length].
    change (inject_Z (Z.of_nat 0)) with 0%Q.
    repeat split; [lra | lia | lia].
  - cbn [seq for_each]. unfold bind. rewrite retry_once_run.
    destruct (Hfails w) as (e & w1 & -> & Hclock & Hlog).
    destruct (IH (S first) (backed_off retries first e w1))
      as (w' & -> & Hclock' & Hwarn & Herr).
    exists w'. split; [reflexivity |].
    rewrite Nat2Z.inj_succ. unfold Z.succ. rewrite inject_Z_plus.
    change (inject_Z 1) with 1%Q.
    unfold backed_off in Hclock', Hwarn, Herr. cbn [List.filter].
    destruct (Nat.eqb first (retries - 1)); world_simpl;
      rewrite ?count_snoc, Hlog in Hwarn, Herr; cbn in Hwarn, Herr;
      rewrite Hclock in Hclock'; cbn [length];
      (split; [lra | split; lia]).
Qed.

Lemma final_attempt_once n :
  length (List.filter (fun i => Nat.eqb i (n - 1)) (seq 0 n))
  = if Nat.eqb n 0 then 0%nat else 1%nat.
Proof.
  destruct n as [| m]; [reflexivity |].
  rewrite seq_S, List.filter_app, length_app. cbn.
  replace (m - 0)%nat with m by lia. rewrite Nat.eqb_refl. cbn.
  assert (Hnone : forall a k,
             (a + k <= m)%nat ->
             List.filter (fun i => Nat.eqb i m) (seq a k) = []).
  { intros a k. revert a. induction k as [| k IHk]; intros a Hle; [reflexivity |].
    cbn. destruct (Nat.eqb_spec a m); [lia |]. apply IHk. lia. }
  rewrite (Hnone 0%nat m) by lia. reflexivity.
Qed.

End RetryMore.

(** X14.  [SystemExit] is not an [Exception]: when the wrapped function
    raises it, the retry wrapper makes no further attempt, logs nothing and
    lets it through. *)
Theorem retry_lets_exit_through {B} `{Chromium B} (retries : nat)
    (func : M B value) (w w1 : world B) (code : Z) :
  (0 < retries)%nat ->
  func w = (Raise (SystemExit code), w1) ->
  retry_decorator retries func w = (Raise (SystemExit code), w1).
Proof.
  intros Hpos Hexit. unfold retry_decorator, range, bind.
  destruct retries as [| n]; [lia |].
  cbn [seq for_each]. unfold bind. rewrite retry_once_run, Hexit. reflexivity.
Qed.

Lemma retry_lets_exit_through_witness :
  retry_decorator 3 (sys_exit 1) (boot 0 ∅ interstitial_page)
  = (Raise (SystemExit 1), boot 0 ∅ interstitial_page).
Proof.
  apply retry_lets_exit_through; [lia | reflexivity].
Defined.

(** X15.  Around a function that always fails, the wrapper with [retries]
    attempts returns [None] after [retries] seconds of backoff, having
    logged one warning for each attempt and one error for the last; with
    [retries = 0] it returns [None] without calling the function. *)
Theorem retry_exhausts_after_all_attempts {B} `{Chromium B} (retries : nat)
    (func : M B value) (w : world B) :
  (always_failing func ->
   exists w',
     retry_decorator retries func w = (Ok VNone, w')
     /\ (clock w' == clock w + inject_Z (Z.of_nat retries))%Q
     /\ count is_retry_warning (log w')
        = (count is_retry_warning (log w) + retries)%nat
     /\ count is_retry_error (log w')
        = (count is_retry_error (log w)
           + if Nat.eqb retries 0 then 0 else 1)%nat)
  /\ retry_decorator 0 func w = (Ok VNone, w).
Proof.
  split; [| reflexivity].
  intros Hfails. unfold retry_decorator, range, bind.
  destruct (retry_loop_exhausts retries func retries 0%nat w Hfails)
    as (w' & -> & Hclock & Hwarn & Herr).
  rewrite final_attempt_once in Herr.
  exists w'. auto.
Qed.

Lemma retry_exhausts_after_all_attempts_witness :
  exists w',
    retry_decorator 3
      (LinuxDoBrowser.click_one_topic_body (B := sim) VNone)
      (boot 0 ∅ interstitial_page)
    = (Ok VNone, w')
    /\ (clock w' == 0 + inject_Z (Z.of_nat 3))%Q.
Proof.
  destruct (proj1 (retry_exhausts_after_all_attempts 3
                     (LinuxDoBrowser.click_one_topic_body (B := sim) VNone)
                     (boot 0 ∅ interstitial_page)))
    as (w' & Hrun & Hclock & _).
  - intros w. exists AttributeError. eexists.
    split; [reflexivity |]. split; cbn; [lra | reflexivity].
  - exists w'. split; [exact Hrun | exact Hclock].
Defined.

(* ===================================================================== *)
(** * Further properties of the identity check *)
(* ===================================================================== *)

Section IdentityMore.
Context {B : Type} `{Chromium B}.
Variable cfg : config.
Variable str_lower : string -> string.
Implicit Types (w : world B).

(** A login button that is found ends the second loop with [False]. *)
Lemma probe_login_buttons_found sels w :
  Exists (fun sel => page_ele sel (browser w) = inr true) sels ->
  exists w1,
    for_each sels LinuxDoBrowser.probe_login_button w = (Ok (Some false), w1)
    /\ browser w1 = browser w
    /\ In LoginButtonFound (map msg (log w1)).
Proof.
  revert w. induction sels as [| sel sels IH]; intros w Hfound;
    [inversion Hfound |].
  cbn [for_each]. unfold bind.
  unfold LinuxDoBrowser.probe_login_button at 1, try_except, bind.
  rewrite query_run.
  destruct (page_ele sel (browser w)) as [e | [|]] eqn:Hsel; cbn.
  - inversion Hfound as [? ? Hhere | ? ? Hlater]; subst; [congruence |].
    apply (IH (waited (query_lag (browser w)) (browser w) w) Hlater).
  - eexists. split; [reflexivity |]. split; [reflexivity |].
    cbn. rewrite map_app. apply in_or_app. right. left. reflexivity.
  - inversion Hfound as [? ? Hhere | ? ? Hlater]; subst; [congruence |].
    apply (IH (waited (query_lag (browser w)) (browser w) w) Hlater).
Qed.

(** With the user name in the page text, the first user element that is
    found ends the first loop with [True]. *)
Lemma probe_users_verified sels w content :
  Exists (fun sel => page_ele sel (browser w) = inr true) sels ->
  page_html (browser w) = inr content ->
  LinuxDoBrowser.username_in cfg str_lower content = inr true ->
  exists w1,
    for_each sels (LinuxDoBrowser.probe_user cfg str_lower) w
    = (Ok (Some true), w1)
    /\ browser w1 = browser w.
Proof.
  intros Hfound Hhtml Hshown. revert w Hfound Hhtml.
  induction sels as [| sel sels IH]; intros w Hfound Hhtml;
    [inversion Hfound |].
  cbn [for_each]. unfold bind.
  unfold LinuxDoBrowser.probe_user at 1, try_except, bind.
  rewrite query_run.
  destruct (page_ele sel (browser w)) as [e | [|]] eqn:Hsel.
  - inversion Hfound as [? ? Hhere | ? ? Hlater]; subst; [congruence |].
    apply (IH (waited (query_lag (browser w)) (browser w) w) Hlater Hhtml).
  - unfold logger, LinuxDoBrowser.verify_username, bind.
    rewrite query_run. world_simpl. rewrite Hhtml, Hshown. cbn.
    eexists. split; reflexivity.
  - inversion Hfound as [? ? Hhere | ? ? Hlater]; subst; [congruence |].
    apply (IH (waited (query_lag (browser w)) (browser w) w) Hlater Hhtml).
Qed.

(** The last tier answers [True] only after it could look for the user
    name. *)
Lemma undetermined_status_needs_username w w' :
  LinuxDoBrowser.undetermined_status cfg str_lower w = (Ok true, w') ->
  exists content shown,
    page_html (browser w) = inr content
    /\ LinuxDoBrowser.username_in cfg str_lower content = inr shown.
Proof.
  unfold LinuxDoBrowser.undetermined_status.
  unfold bind at 1. rewrite query_run.
  destruct (page_html (browser w)) as [e | content] eqn:Hhtml; [discriminate |].
  unfold bind at 1. rewrite query_run. cbn [browser waited].
  destruct (page_title (browser w)) as [e | title] eqn:Htitle; [discriminate |].
  unfold bind at 1.
  destruct (contains "请稍候" title) eqn:Hwait; cbn [negb].
  { unfold ret at 1. unfold bind at 1. unfold ret at 1.
    unfold bind. rewrite query_run. cbn [browser waited]. rewrite Htitle.
    cbn. discriminate. }
  unfold bind at 1. rewrite query_run. cbn [browser waited]. rewrite Htitle.
  unfold ret at 1.
  destruct (contains "Checking" title) eqn:Hchecking; cbn [negb].
  { unfold bind at 1. unfold ret at 1.
    unfold bind. rewrite query_run. cbn [browser waited]. rewrite Htitle.
    cbn. discriminate. }
  unfold bind at 1. unfold bind at 1.
  destruct (LinuxDoBrowser.username_in cfg str_lower content) as [e | shown]
    eqn:Hshown; cbn [lift].
  { discriminate. }
  intros _. eauto.
Qed.

(** Without a user name every probe of a user element asks for the next
    one: [verify_username] raises before it clicks. *)
Lemma probe_users_without_username sels w :
  USERNAME cfg = None ->
  exists w1,
    for_each sels (LinuxDoBrowser.probe_user cfg str_lower) w = (Ok None, w1)
    /\ browser w1 = browser w.
Proof.
  intros Hnone. revert w. induction sels as [| sel sels IH]; intros w.
  - exists w. split; reflexivity.
  - cbn [for_each]. unfold bind.
    unfold LinuxDoBrowser.probe_user at 1, try_except, bind.
    rewrite query_run.
    destruct (page_ele sel (browser w)) as [e | [|]] eqn:Hsel.
    + apply (IH (waited (query_lag (browser w)) (browser w) w)).
    + unfold logger, LinuxDoBrowser.verify_username, bind.
      rewrite query_run. world_simpl.
      unfold LinuxDoBrowser.username_in. rewrite Hnone.
      destruct (page_html (browser w)) as [e | content]; cbn;
        match goal with
        | |- exists _, for_each _ _ ?w0 = _ /\ _ =>
            destruct (IH w0) as (w1 & Hrun & Hb);
            exists w1; split; [exact Hrun | exact Hb]
        end.
    + apply (IH (waited (query_lag (browser w)) (browser w) w)).
Qed.

End IdentityMore.

(** X16.  The login button outranks the fallback: when no marker of a
    logged-in user is found and some login button is, [check_login_status]
    answers [False], whatever the text of the page holds, and has only
    looked at the page. *)
Theorem login_button_means_logged_out {B} `{Chromium B} (cfg : config)
    (str_lower : string -> string) (w : world B) :
  Forall (fun sel => page_ele sel (browser w) <> inr true)
         LinuxDoBrowser.user_indicators ->
  Exists (fun sel => page_ele sel (browser w) = inr true)
         LinuxDoBrowser.login_buttons ->
  exists w',
    LinuxDoBrowser.check_login_status cfg str_lower w = (Ok false, w')
    /\ browser w' = browser w.
Proof.
  intros Hnouser Hbutton.
  destruct (probe_users_nothing cfg str_lower LinuxDoBrowser.user_indicators w)
    as [Hfound | (w1 & Hrun & Hb1)].
  { exfalso. apply Exists_exists in Hfound as (sel & Hin & Hsel).
    rewrite Forall_forall in Hnouser. exact (Hnouser sel Hin Hsel). }
  rewrite <- Hb1 in Hbutton.
  destruct (probe_login_buttons_found _ _ Hbutton) as (w2 & Hrun2 & Hb2 & _).
  unfold LinuxDoBrowser.check_login_status, try_except. unfold bind at 1.
  rewrite Hrun. unfold bind at 1. rewrite Hrun2.
  eexists. split; [reflexivity | congruence].
Qed.

Lemma login_button_means_logged_out_witness :
  fst (LinuxDoBrowser.check_login_status alice ascii_lower
         (boot 0 ∅ guest_page))
  = Ok false.
Proof.
  destruct (login_button_means_logged_out alice ascii_lower
              (boot 0 ∅ guest_page)) as (w' & -> & _); [| | reflexivity].
  - repeat constructor; discriminate.
  - unfold LinuxDoBrowser.login_buttons.
    do 3 apply Exists_cons_tl. constructor. reflexivity.
Defined.

(** X17.  When a marker of a logged-in user is on the page and the text of
    the page holds the user name (case-insensitive), [check_login_status]
    answers [True] without clicking anything; markers whose lookup raises
    are passed over. *)
Theorem user_element_and_name_mean_logged_in {B} `{Chromium B} (cfg : config)
    (str_lower : string -> string) (w : world B) (content : string) :
  user_element_found (browser w) ->
  page_html (browser w) = inr content ->
  LinuxDoBrowser.username_in cfg str_lower content = inr true ->
  exists w',
    LinuxDoBrowser.check_login_status cfg str_lower w = (Ok true, w')
    /\ browser w' = browser w.
Proof.
  intros Hfound Hhtml Hshown.
  destruct (probe_users_verified cfg str_lower _ _ _ Hfound Hhtml Hshown)
    as (w1 & Hrun & Hb).
  unfold LinuxDoBrowser.check_login_status, try_except. unfold bind at 1.
  rewrite Hrun. eexists. split; [reflexivity | exact Hb].
Qed.

Lemma user_element_and_name_mean_logged_in_witness :
  fst (LinuxDoBrowser.check_login_status alice ascii_lower
         (boot 0 ∅ member_page))
  = Ok true.
Proof.
  destruct (user_element_and_name_mean_logged_in alice ascii_lower
              (boot 0 ∅ member_page) "<a href='/u/alice'>Alice</a>")
    as (w' & -> & _); [| reflexivity | reflexivity | reflexivity].
  unfold user_element_found, LinuxDoBrowser.user_indicators.
  do 3 apply Exists_cons_tl. constructor. reflexivity.
Defined.

(** X18.  Without a configured user name ([USERNAME] is [None])
    [check_login_status] answers [False] on every page: the comparison with
    the page text raises, and the exception is taken for "not logged in". *)
Theorem no_username_never_logged_in {B} `{Chromium B} (cfg : config)
    (str_lower : string -> string) (w : world B) :
  USERNAME cfg = None ->
  exists w', LinuxDoBrowser.check_login_status cfg str_lower w = (Ok false, w').
Proof.
  intros Hnone.
  destruct (check_login_status_returns cfg str_lower w) as (b & w' & Hrun).
  exists w'. rewrite Hrun. destruct b; [exfalso | reflexivity].
  revert Hrun.
  destruct (probe_users_without_username cfg str_lower
              LinuxDoBrowser.user_indicators w Hnone) as (w1 & Hloop & _).
  unfold LinuxDoBrowser.check_login_status, try_except. unfold bind at 1.
  rewrite Hloop. unfold bind at 1.
  destruct (probe_login_buttons_outcome LinuxDoBrowser.login_buttons w1)
    as (found & w2 & -> & [-> | ->] & _); [discriminate |].
  destruct (LinuxDoBrowser.undetermined_status cfg str_lower w2)
    as [[[|] | [e | code]] w3] eqn:Hlast; try discriminate.
  intros _.
  destruct (undetermined_status_needs_username cfg str_lower _ _ Hlast)
    as (content & shown & _ & Hshown).
  unfold LinuxDoBrowser.username_in in Hshown. rewrite Hnone in Hshown.
  discriminate Hshown.
Qed.

Lemma no_username_never_logged_in_witness :
  fst (LinuxDoBrowser.check_login_status nobody ascii_lower
         (boot 0 ∅ member_page))
  = Ok false.
Proof.
  destruct (no_username_never_logged_in nobody ascii_lower
              (boot 0 ∅ member_page) eq_refl) as (w' & ->).
  reflexivity.
Defined.

(* ===================================================================== *)
(** * Further properties of the session controller *)
(* ===================================================================== *)

Section SessionMore.
Context {B : Type} `{Chromium B}.
Variable cfg : config.
Variable str_lower : string -> string.
Implicit Types (w : world B).

Lemma tame_load_cache file_name : tame (B := B) (CacheManager.load_cache file_name).
Proof.
  intros w r w' Hrun.
  destruct (load_cache_returns w file_name)
    as (v & w1 & Hrun1 & _ & _ & _ & _ & Hs & _).
  rewrite Hrun1 in Hrun. injection Hrun as <- <-. auto.
Qed.

Lemma tame_is_cf_cookie_valid cookies :
  tame (B := B) (CloudflareHandler.is_cf_cookie_valid cookies).
Proof.
  intros w r w' Hrun.
  destruct (is_cf_cookie_valid_returns w cookies) as (b & Hrun1).
  rewrite Hrun1 in Hrun. injection Hrun as <- <-. auto.
Qed.

Lemma tame_check_login_status :
  tame (LinuxDoBrowser.check_login_status cfg str_lower).
Proof.
  intros w r w' Hrun.
  assert (Hbody : tame (LinuxDoBrowser.check_login_status cfg str_lower)).
  { unfold LinuxDoBrowser.check_login_status.
    tame; auto using tame_probe_user, tame_probe_login_button,
      tame_undetermined_status. }
  exact (Hbody w r w' Hrun).
Qed.

Lemma tame_try_cache_first_approach_body :
  tame (let* cached_cookies := CacheManager.load_cookies in
        let* cached_cf_valid :=
          CloudflareHandler.is_cf_cookie_valid
            (py_or cached_cookies (VList [])) in
        if cached_cf_valid then
          logger INFO CacheFirstTry ;;
          (if truthy cached_cookies
           then command (page_set_cookies cached_cookies)
           else ret tt) ;;
          command (page_get HOME_URL) ;;
          time_sleep 5 ;;
          let* login_status := LinuxDoBrowser.check_login_status cfg str_lower in
          if login_status then logger SUCCESS CacheFirstLoggedIn ;; ret true
          else logger WARNING CacheFirstNotLoggedIn ;; ret false
        else logger INFO CacheFirstNoCookie ;; ret false).
Proof.
  apply tame_bind; [apply tame_load_cache | intros cached].
  apply tame_bind; [apply tame_is_cf_cookie_valid | intros valid].
  destruct valid; tame; apply tame_check_login_status.
Qed.

(** A poll of the widget answers with a token that is truthy, or asks for
    the next poll. *)
Lemma turnstile_once_outcome i w :
  exists c w',
    LinuxDoBrowser.turnstile_once i w = (Ok c, w')
    /\ (c = Next \/ exists token, c = Return token /\ truthy token = true).
Proof.
  unfold LinuxDoBrowser.turnstile_once, try_except, bind, command, lift.
  destruct (answer (page_run_js js_turnstile_get_response (browser w)))
    as [e | response]; cbn.
  { do 2 eexists. split; [reflexivity | auto]. }
  destruct (truthy response) eqn:Htoken; cbn.
  { do 2 eexists. split; [reflexivity |]. right. eauto. }
  match goal with
  | |- context [answer (turnstile_click ?b)] =>
      destruct (answer (turnstile_click b)) as [e | []]
  end; cbn; do 2 eexists; (split; [reflexivity | auto]).
Qed.

Lemma turnstile_polls_outcome polls w :
  exists found w',
    for_each polls LinuxDoBrowser.turnstile_once w = (Ok found, w')
    /\ (found = None \/ exists token, found = Some token /\ truthy token = true).
Proof.
  revert w. induction polls as [| i polls IH]; intros w.
  - exists None, w. split; [reflexivity | auto].
  - cbn [for_each]. unfold bind.
    destruct (turnstile_once_outcome i w)
      as (c & w1 & -> & [-> | (token & -> & Htoken)]).
    + apply IH.
    + do 2 eexists. split; [reflexivity |]. right. eauto.
Qed.

End SessionMore.

(** X19.  [try_cache_first_approach] never raises.  Without a cookie cache
    it answers [False] at once: the browser is not touched and no time
    passes. *)
Theorem try_cache_first_is_safe {B} `{Chromium B} (cfg : config)
    (str_lower : string -> string) (w : world B) :
  (exists b w',
     LinuxDoBrowser.try_cache_first_approach cfg str_lower w = (Ok b, w'))
  /\ (fs w !! cookies_file = None ->
      exists w',
        LinuxDoBrowser.try_cache_first_approach cfg str_lower w = (Ok false, w')
        /\ browser w' = browser w /\ clock w' = clock w /\ fs w' = fs w).
Proof.
  split.
  - unfold LinuxDoBrowser.try_cache_first_approach.
    apply try_except_returns.
    + apply tame_try_cache_first_approach_body.
    + intros e w1. do 2 eexists. reflexivity.
  - intros Hnone.
    unfold LinuxDoBrowser.try_cache_first_approach, try_except.
    unfold bind at 1, CacheManager.load_cookies.
    rewrite (load_cache_missing _ _ Hnone).
    eexists. split; [reflexivity |]. auto.
Qed.

Lemma try_cache_first_is_safe_witness :
  exists w',
    LinuxDoBrowser.try_cache_first_approach alice ascii_lower
      (boot 0 ∅ hung_browser) = (Ok false, w')
    /\ browser w' = hung_browser.
Proof.
  destruct (proj2 (try_cache_first_is_safe alice ascii_lower
                     (boot 0 ∅ hung_browser)))
    as (w' & Hrun & Hb & _); [reflexivity |].
  exists w'. split; [exact Hrun | exact Hb].
Defined.

(** X20.  [getTurnstileToken] resets the widget outside of any [try]: an
    exception of the reset reaches the caller.  Once the reset went through
    it never raises, and what it returns is a truthy token or [None]. *)
Theorem turnstile_token_or_none {B} `{Chromium B} (w : world B) :
  (forall e,
     answer (page_run_js js_turnstile_reset (browser w)) = inl e ->
     fst (LinuxDoBrowser.getTurnstileToken w) = Raise (Exception e))
  /\ (forall v,
        answer (page_run_js js_turnstile_reset (browser w)) = inr v ->
        exists token w',
          LinuxDoBrowser.getTurnstileToken w = (Ok token, w')
          /\ (token = VNone \/ truthy token = true)).
Proof.
  split.
  - intros e Hreset. unfold LinuxDoBrowser.getTurnstileToken, bind, command.
    rewrite Hreset. reflexivity.
  - intros v Hreset. unfold LinuxDoBrowser.getTurnstileToken.
    unfold bind at 1, command at 1. rewrite Hreset. cbn [lift]. unfold ret at 1.
    unfold bind.
    match goal with
    | |- context [for_each ?polls _ ?w0] =>
        destruct (turnstile_polls_outcome polls w0)
          as (found & w' & -> & [-> | (token & -> & Htoken)])
    end.
    + do 2 eexists. split; [reflexivity | auto].
    + do 2 eexists. split; [reflexivity | auto].
Qed.

Lemma turnstile_token_or_none_witness :
  exists token w',
    LinuxDoBrowser.getTurnstileToken (boot 0 ∅ interstitial_page)
    = (Ok token, w')
    /\ (token = VNone \/ truthy token = true).
Proof.
  apply (proj2 (turnstile_token_or_none (boot 0 ∅ interstitial_page)) VNone).
  reflexivity.
Defined.

Section SaveAllMore.
Context {B : Type} `{Chromium B}.
Implicit Types (w : world B).

Lemma dict_get_set_ne k k' v d :
  k <> k' -> dict_get k (dict_set k' v d) = dict_get k d.
Proof.
  intros Hne. induction d as [| [k0 v0] d IH]; cbn.
  - destruct (String.eqb_spec k k'); [contradiction | reflexivity].
  - destruct (String.eqb_spec k' k0) as [-> | Hk0]; cbn.
    + destruct (String.eqb_spec k k0); [contradiction | reflexivity].
    + destruct (String.eqb_spec k k0); [reflexivity | exact IH].
Qed.

Lemma dict_set_not_empty k v d : dict_set k v d <> [].
Proof.
  destruct d as [| [k0 v0] d]; cbn; [discriminate |].
  destruct (String.eqb k k0); discriminate.
Qed.

(** [save_all_caches] once the browser has handed over its cookies and the
    session metadata is a record. *)
Lemma save_all_caches_run w cookies d :
  answer (browser_cookies (browser w)) = inr cookies ->
  session_data w = VDict d ->
  let r := browser_cookies (browser w) in
  let session' := VDict (marked_success d (isoformat w (clock w + took r)%Q)) in
  exists w',
    LinuxDoBrowser.save_all_caches w = (Ok tt, w')
    /\ cache_saved w' = true
    /\ session_data w' = session'
    /\ (healthy w ->
        fs w' !! session_file
        = Some (File (Json (json_form
                              (CacheManager.data_to_save session'
                                 (isoformat w (clock w + took r)%Q)
                                 (clock w + took r)%Q)))
                     (clock w + took r)%Q)
        /\ (truthy cookies = true ->
            fs w' !! cookies_file
            = Some (File (Json (json_form
                                  (CacheManager.data_to_save cookies
                                     (isoformat w (clock w + took r)%Q)
                                     (clock w + took r)%Q)))
                         (clock w + took r)%Q))
        /\ (truthy cookies = false ->
            fs w' !! cookies_file = fs w !! cookies_file)).
Proof.
  intros Hcookies Hsession r session'.
  unfold LinuxDoBrowser.save_all_caches, try_except.
  unfold bind at 1. unfold command at 1. rewrite Hcookies. fold r. cbn [lift].
  unfold ret at 1. unfold bind at 1.
  set (w1 := waited (took r) (after r) w).
  assert (Hstep : exists w2,
             (if truthy cookies
              then CacheManager.save_cookies cookies;; ret ()
              else ret ()) w1 = (Ok tt, w2)
             /\ clock w2 = clock w1 /\ isoformat w2 = isoformat w1
             /\ io_fails w2 = io_fails w1 /\ session_data w2 = session_data w1
             /\ fs w2 !! session_file = fs w1 !! session_file
             /\ (healthy w ->
                 (truthy cookies = true ->
                  fs w2 !! cookies_file = Some (saved_file w1 cookies))
                 /\ (truthy cookies = false -> fs w2 = fs w1))).
  { destruct (truthy cookies) eqn:Htruthy.
    - unfold bind, CacheManager.save_cookies.
      destruct (save_cache_effect w1 cookies cookies_file)
        as (b & w2 & Hrun & Hclock & Hiso & Hio & _ & Hs & _ & _ & _ & Hframe & _).
      rewrite Hrun. exists w2. split; [reflexivity |].
      split; [exact Hclock |]. split; [exact Hiso |]. split; [exact Hio |].
      split; [exact Hs |]. split; [apply Hframe; discriminate |].
      intros Hhealthy. split; [intros _ | discriminate].
      assert (Hok : save_fails w1 cookies_file = false).
      { unfold save_fails. subst w1. cbn [io_fails waited].
        rewrite !Hhealthy. reflexivity. }
      destruct (save_cache_success w1 cookies cookies_file Hok)
        as (w2' & Hrun' & Hfs & _).
      rewrite Hrun' in Hrun. injection Hrun as _ <-.
      rewrite Hfs. apply lookup_insert_eq.
    - exists w1. split; [reflexivity |]. do 5 (split; [reflexivity |]).
      intros _. split; [discriminate | reflexivity]. }
  destruct Hstep as (w2 & -> & Hclock2 & Hiso2 & Hio2 & Hs2 & Hsess2 & Hcook2).
  unfold bind at 1, CacheManager.datetime_now_isoformat.
  unfold bind at 1. unfold bind at 1, get_session_data.
  rewrite Hs2. subst w1. cbn [session_data waited]. rewrite Hsession.
  unfold bind at 1. cbn [py_update lift fold_left fst snd]. unfold ret at 1.
  unfold bind at 1, set_session_data. unfold bind at 1.
  rewrite Hclock2, Hiso2. cbn [clock isoformat waited].
  fold (marked_success d (isoformat w (clock w + took r)%Q)). fold session'.
  match goal with
  | |- context [CacheManager.save_session session' ?x] => set (w3 := x)
  end.
  unfold CacheManager.save_session.
  destruct (save_cache_effect w3 session' session_file)
    as (b & w4 & Hrun & _ & _ & _ & _ & Hs4 & _ & _ & _ & Hframe & _).
  rewrite Hrun. unfold bind, logger, set_cache_saved.
  eexists. split; [reflexivity |]. cbn [cache_saved session_data logged fs].
  split; [reflexivity |]. split; [rewrite Hs4; reflexivity |].
  intros Hhealthy.
  assert (Hok : save_fails w3 session_file = false).
  { unfold save_fails. subst w3. cbn [io_fails]. rewrite Hio2.
    cbn [io_fails waited]. rewrite !Hhealthy. reflexivity. }
  destruct (save_cache_success w3 session' session_file Hok)
    as (w4' & Hrun' & Hfs & _).
  rewrite Hrun' in Hrun. injection Hrun as _ <-.
  destruct (Hcook2 Hhealthy) as [Hkept Hnone].
  split; [| split].
  - rewrite Hfs, lookup_insert_eq. unfold saved_file. subst w3.
    cbn [clock isoformat]. rewrite ?Hclock2, ?Hiso2. reflexivity.
  - intros Htruthy. rewrite Hfs, lookup_insert_ne by discriminate.
    subst w3. cbn [fs]. rewrite (Hkept Htruthy). reflexivity.
  - intros Hfalsy. rewrite Hfs, lookup_insert_ne by discriminate.
    subst w3. cbn [fs]. rewrite (Hnone Hfalsy). reflexivity.
Qed.

(** The optional save of the cookies returns and keeps the session. *)
Lemma save_cookies_if_any w cookies :
  exists w',
    (if truthy cookies
     then CacheManager.save_cookies cookies;; ret ()
     else ret ()) w = (Ok tt, w')
    /\ session_data w' = session_data w /\ cache_saved w' = cache_saved w
    /\ clock w' = clock w.
Proof.
  destruct (truthy cookies).
  - unfold bind, CacheManager.save_cookies.
    destruct (save_cache_effect w cookies cookies_file)
      as (b & w2 & -> & Hclock & _ & _ & _ & Hs & Hc & _).
    exists w2. auto.
  - exists w. auto.
Qed.

Lemma save_all_caches_returns w :
  exists w', LinuxDoBrowser.save_all_caches w = (Ok tt, w').
Proof.
  destruct (answer (browser_cookies (browser w))) as [e | cookies] eqn:Hcookies.
  { unfold LinuxDoBrowser.save_all_caches, try_except, bind, command.
    rewrite Hcookies. eexists. reflexivity. }
  destruct (session_data w) as [| | | | | d |] eqn:Hsession;
    try (unfold LinuxDoBrowser.save_all_caches, try_except;
         unfold bind at 1; unfold command at 1; rewrite Hcookies; cbn [lift];
         unfold ret at 1; unfold bind at 1;
         match goal with
         | |- context [(if truthy cookies then _ else _) ?w1] =>
             destruct (save_cookies_if_any w1 cookies) as (w2 & -> & Hs & _)
         end;
         unfold bind at 1, CacheManager.datetime_now_isoformat;
         unfold bind at 1; unfold bind at 1, get_session_data;
         rewrite Hs; cbn [session_data waited]; rewrite Hsession;
         eexists; reflexivity).
  destruct (save_all_caches_run w cookies d Hcookies Hsession) as (w' & Hrun & _).
  exists w'. exact Hrun.
Qed.

End SaveAllMore.

(** X21.  [save_all_caches] never raises.  When the browser hands over its
    cookies and the session metadata is a record, it marks the login as a
    success and sets [cache_saved], whether or not the files could be
    written; when the browser raises, nothing is written and [cache_saved]
    stays as it was. *)
Theorem save_all_caches_outcomes {B} `{Chromium B} (w : world B) :
  (exists w', LinuxDoBrowser.save_all_caches w = (Ok tt, w'))
  /\ (forall cookies d,
        answer (browser_cookies (browser w)) = inr cookies ->
        session_data w = VDict d ->
        exists w' d',
          LinuxDoBrowser.save_all_caches w = (Ok tt, w')
          /\ cache_saved w' = true
          /\ session_data w' = VDict d'
          /\ dict_get "login_status" d' = Some (VStr "success"))
  /\ (forall e,
        answer (browser_cookies (browser w)) = inl e ->
        exists w',
          LinuxDoBrowser.save_all_caches w = (Ok tt, w')
          /\ cache_saved w' = cache_saved w
          /\ session_data w' = session_data w
          /\ fs w' = fs w).
Proof.
  split; [apply save_all_caches_returns |]. split.
  - intros cookies d Hcookies Hsession.
    destruct (save_all_caches_run w cookies d Hcookies Hsession)
      as (w' & Hrun & Hsaved & Hsess & _).
    exists w'. eexists. split; [exact Hrun |]. split; [exact Hsaved |].
    split; [exact Hsess |].
    unfold marked_success.
    rewrite dict_get_set_ne by discriminate. apply dict_get_set_eq.
  - intros e Hcookies.
    unfold LinuxDoBrowser.save_all_caches, try_except, bind, command.
    rewrite Hcookies. eexists. split; [reflexivity |]. auto.
Qed.

Lemma save_all_caches_outcomes_witness :
  exists w' d',
    LinuxDoBrowser.save_all_caches (disk_full 50 member_page) = (Ok tt, w')
    /\ cache_saved w' = true
    /\ session_data w' = VDict d'
    /\ dict_get "login_status" d' = Some (VStr "success").
Proof.
  apply (proj1 (proj2 (save_all_caches_outcomes (disk_full 50 member_page)))
           (VList []) []); reflexivity.
Defined.

(** X22.  With no refused system call, what [save_all_caches] wrote can be
    read back: [load_session] answers the session metadata as updated, and
    [load_cookies] the cookies of the browser when there are any, both in
    their JSON form, which is the values themselves when they hold no
    tuple. *)
Theorem save_all_caches_reads_back {B} `{Chromium B} (w : world B)
    (cookies : value) (d : list (string * value)) :
  healthy w ->
  answer (browser_cookies (browser w)) = inr cookies ->
  session_data w = VDict d ->
  exists w',
    LinuxDoBrowser.save_all_caches w = (Ok tt, w')
    /\ fst (CacheManager.load_session w') = Ok (json_form (session_data w'))
    /\ (json_native (session_data w) = true ->
        fst (CacheManager.load_session w') = Ok (session_data w'))
    /\ (truthy cookies = true ->
        fst (CacheManager.load_cookies w') = Ok (json_form cookies))
    /\ (truthy cookies = true -> json_native cookies = true ->
        fst (CacheManager.load_cookies w') = Ok cookies).
Proof.
  intros Hhealthy Hcookies Hsession.
  destruct (save_all_caches_run w cookies d Hcookies Hsession)
    as (w' & Hrun & _ & Hsess & Hfiles).
  destruct (Hfiles Hhealthy) as (Hsfile & Hcfile & _).
  assert (Hloads : fst (CacheManager.load_session w')
                   = Ok (json_form (session_data w'))).
  { unfold CacheManager.load_session, bind.
    rewrite (load_cache_json _ _ _ _ Hsfile).
    cbn [json_form CacheManager.data_to_save map fst snd py_get dict_get
         String.eqb Ascii.eqb Bool.eqb andb].
    cbn [fst ret]. rewrite Hsess. unfold py_or, marked_success.
    destruct (dict_set "last_updated" _ _) eqn:Hd; [| reflexivity].
    exfalso. exact (dict_set_not_empty _ _ _ Hd). }
  assert (Hloadc : truthy cookies = true ->
                   fst (CacheManager.load_cookies w') = Ok (json_form cookies)).
  { intros Htruthy. unfold CacheManager.load_cookies.
    rewrite (load_cache_json _ _ _ _ (Hcfile Htruthy)). reflexivity. }
  exists w'. split; [exact Hrun |]. repeat apply conj.
  - exact Hloads.
  - intros Hnative. rewrite Hloads. f_equal. apply json_form_native.
    rewrite Hsess. rewrite Hsession in Hnative. unfold marked_success.
    repeat apply json_native_dict_set; [exact Hnative | reflexivity ..].
  - exact Hloadc.
  - intros Htruthy Hnative. rewrite (Hloadc Htruthy).
    rewrite (json_form_native _ Hnative). reflexivity.
Qed.

Lemma save_all_caches_reads_back_witness :
  exists w',
    LinuxDoBrowser.save_all_caches (boot 50 ∅ member_page) = (Ok tt, w')
    /\ fst (CacheManager.load_session w') = Ok (session_data w').
Proof.
  destruct (save_all_caches_reads_back (boot 50 ∅ member_page) (VList []) [])
    as (w' & Hrun & _ & Hload & _); [intros op f; reflexivity | reflexivity ..|].
  exists w'. split; [exact Hrun | apply Hload; reflexivity].
Defined.

(** X23.  [clear_caches] never raises and touches no file but the two cache
    files.  With no cache file on disk it resets the session metadata and
    reports success; when the removal of the cookie file is refused, the
    files and the session metadata stay as they were. *)
Theorem clear_caches_is_best_effort {B} `{Chromium B} (w : world B) :
  exists w',
    LinuxDoBrowser.clear_caches w = (Ok tt, w')
    /\ (forall other,
          other <> cookies_file -> other <> session_file ->
          fs w' !! other = fs w !! other)
    /\ (fs w !! cookies_file = None -> fs w !! session_file = None ->
        fs w' = fs w /\ session_data w' = VDict []
        /\ log w' = log w ++ [Entry (clock w) INFO AllCachesCleared])
    /\ (fs w !! cookies_file <> None ->
        io_fails w Remove cookies_file = true ->
        fs w' = fs w /\ session_data w' = session_data w).
Proof.
  pose proof cache_files_differ as Hne.
  unfold LinuxDoBrowser.clear_caches, LinuxDoBrowser.cache_files, try_except.
  cbn [for_each]. unfold LinuxDoBrowser.clear_one, bind,
    CacheManager.os_path_exists, CacheManager.os_remove, logger, ret,
    set_session_data.
  destruct (fs w !! cookies_file) as [f1 |] eqn:Hf1;
    [destruct (io_fails w Remove cookies_file) eqn:Hr1 |];
    world_simpl; rewrite ?Hf1; world_simpl;
    rewrite ?(lookup_delete_ne (fs w) cookies_file session_file Hne);
    (destruct (fs w !! session_file) as [f2 |] eqn:Hf2;
     [destruct (io_fails w Remove session_file) eqn:Hr2 |]);
    do 3 (world_simpl;
          rewrite ?(lookup_delete_ne (fs w) cookies_file session_file Hne),
            ?Hf2, ?Hr2);
    world_simpl;
    (eexists; split; [reflexivity |]); world_simpl;
    (split;
     [intros other Hc Hs;
      rewrite ?lookup_delete_ne by (intros Heq; congruence); reflexivity
     |]);
    (split;
     [first [discriminate | intros _; discriminate
            | intros _ _; repeat split; reflexivity]
     |]);
    first [ intros _; discriminate
          | intros Hthere; exfalso; apply Hthere; reflexivity
          | intros _ _; split; reflexivity ].
Qed.

Lemma clear_caches_is_best_effort_witness :
  exists w',
    LinuxDoBrowser.clear_caches (undeletable login_page) = (Ok tt, w')
    /\ fs w' = both_caches.
Proof.
  destruct (clear_caches_is_best_effort (undeletable login_page))
    as (w' & Hrun & _ & _ & Hrefused).
  exists w'. split; [exact Hrun |].
  apply Hrefused; [vm_compute; discriminate | reflexivity].
Defined.

(** [__init__] by what [load_cache] gave for the session file. *)
Lemma init_run {B} `{Chromium B} (w : world B) :
  exists v w1 w',
    CacheManager.load_cache session_file w = (Ok v, w1)
    /\ LinuxDoBrowser.init w = (Ok tt, w')
    /\ session_data w' = py_or v (VDict [])
    /\ cache_saved w' = false
    /\ fs w' = fs w.
Proof.
  unfold LinuxDoBrowser.init. unfold bind at 1, CacheManager.load_session.
  unfold bind at 1.
  destruct (load_cache_returns w session_file)
    as (v & w1 & Hload & Hfs & _).
  exists v, w1. rewrite Hload.
  unfold ret at 1. unfold bind at 1, set_session_data.
  unfold bind at 1, set_cache_saved.
  unfold LinuxDoBrowser.inject_enhanced_script, try_except, bind, command, lift.
  world_simpl.
  destruct (answer (page_run_js js_enhanced_script (browser w1))); cbn;
    eexists; (split; [reflexivity |]); (split; [reflexivity |]); cbn; auto.
Qed.

(** X24.  [__init__] never raises once the browser runs, also when the
    script injection fails: afterwards [cache_saved] is [False], the files
    are as before, and the session metadata is what the session file
    stores, never [None]: the empty record for a missing or unreadable
    file, for a document that is no record and for a falsy payload, and
    else the payload (the [data] member of a wrapper document, the
    document itself when it is a record without [data]). *)
Theorem init_is_safe {B} `{Chromium B} (w : world B) :
  exists w',
    LinuxDoBrowser.init w = (Ok tt, w')
    /\ cache_saved w' = false
    /\ (session_data w' = VDict [] \/ truthy (session_data w') = true)
    /\ fs w' = fs w
    /\ (fs w !! session_file = None -> session_data w' = VDict [])
    /\ (forall bytes t,
          fs w !! session_file = Some (File (Garbled bytes) t) ->
          session_data w' = VDict [])
    /\ (forall d t payload,
          fs w !! session_file = Some (File (Json (VDict d)) t) ->
          dict_get "data" d = Some payload ->
          session_data w' = if truthy payload then payload else VDict [])
    /\ (forall d t,
          fs w !! session_file = Some (File (Json (VDict d)) t) ->
          dict_get "data" d = None ->
          session_data w' = VDict d)
    /\ (forall doc t,
          fs w !! session_file = Some (File (Json doc) t) ->
          (forall d, doc <> VDict d) ->
          session_data w' = VDict []).
Proof.
  destruct (init_run w) as (v & w1 & w' & Hload & Hrun & Hsession & Hsaved & Hfs).
  exists w'. split; [exact Hrun |]. split; [exact Hsaved |].
  split; [| split; [exact Hfs |]].
  { rewrite Hsession. unfold py_or. destruct (truthy v) eqn:Hv; auto. }
  rewrite Hsession. repeat apply conj.
  - intros Hnone. rewrite (load_cache_missing _ _ Hnone) in Hload.
    injection Hload as <- _. reflexivity.
  - intros bytes t Hf. rewrite (load_cache_garbled _ _ _ _ Hf) in Hload.
    injection Hload as <- _. reflexivity.
  - intros d t payload Hf Hdata. rewrite (load_cache_json _ _ _ _ Hf) in Hload.
    cbn [py_get] in Hload. rewrite Hdata in Hload.
    injection Hload as <- _. reflexivity.
  - intros d t Hf Hdata. rewrite (load_cache_json _ _ _ _ Hf) in Hload.
    cbn [py_get] in Hload. rewrite Hdata in Hload.
    injection Hload as <- _. unfold py_or. destruct d; reflexivity.
  - intros doc t Hf Hdoc. rewrite (load_cache_json _ _ _ _ Hf) in Hload.
    destruct doc as [| | | | | d |]; cbn [py_get] in Hload;
      try (injection Hload as <- _; reflexivity).
    exfalso. exact (Hdoc d eq_refl).
Qed.

Lemma init_is_safe_witness :
  exists w',
    LinuxDoBrowser.init (boot 1000 both_caches member_page) = (Ok tt, w')
    /\ session_data w' = VDict [("login_status", VStr "success")].
Proof.
  destruct (init_is_safe (boot 1000 both_caches member_page))
    as (w' & Hrun & _ & _ & _ & _ & _ & Hstored & _).
  exists w'. split; [exact Hrun |].
  refine (Hstored _ 0%Q (VDict [("login_status", VStr "success")]) _ _);
    vm_compute; reflexivity.
Defined.

(* ===================================================================== *)
(** * Further properties of the topic visits *)
(* ===================================================================== *)

Section BrowseMore.
Context {B : Type} `{Chromium B}.
Implicit Types (w : world B).

(** Taking one item out of the pool the way [random.sample] does. *)
Lemma pool_without_pick {A} (pool : list A) j x y :
  pool !! j = Some x ->
  pool !! (length pool - 1)%nat = Some y ->
  x :: take (length pool - 1) (<[j := y]> pool) ≡ₚ pool.
Proof.
  intros Hx Hy.
  pose proof (lookup_lt_Some _ _ _ Hx) as Hj.
  set (n := (length pool - 1)%nat) in *.
  assert (Hpool : pool = take n pool ++ [y]).
  { rewrite <- (take_S_r _ _ _ Hy). symmetry. apply take_ge. lia. }
  destruct (Nat.lt_ge_cases j n) as [Hlt | Hge].
  - rewrite take_insert_lt by exact Hlt.
    assert (Hp : take n pool !! j = Some x).
    { rewrite lookup_take_lt by exact Hlt. exact Hx. }
    rewrite Hpool at 2.
    rewrite insert_take_drop
      by (rewrite length_take; lia).
    rewrite (delete_Permutation _ _ _ Hp) at 3.
    rewrite delete_take_drop.
    rewrite <- Permutation_middle.
    rewrite (Permutation_app_comm _ [y]). cbn. apply perm_swap.
  - assert (j = n) by lia. subst j.
    rewrite Hy in Hx. injection Hx as ->.
    rewrite take_insert_ge by lia.
    rewrite Hpool at 2. apply Permutation_cons_append.
Qed.

Lemma only_draws_refl w : only_draws w w.
Proof. unfold only_draws. auto 10. Qed.

Lemma only_draws_trans w1 w2 w3 :
  only_draws w1 w2 -> only_draws w2 w3 -> only_draws w1 w3.
Proof.
  unfold only_draws.
  intros (? & ? & ? & ? & ? & ? & ?) (? & ? & ? & ? & ? & ? & ?).
  repeat split; congruence.
Qed.

Lemma randbelow_run n w :
  exists j w',
    randbelow n w = (Ok j, w') /\ (j <= n - 1)%nat /\ only_draws w w'.
Proof.
  unfold randbelow, bind, random_random.
  destruct (rng w) as [| u rest]; do 2 eexists;
    (split; [reflexivity |]); (split; [apply Nat.le_min_r |]);
    unfold only_draws; cbn; auto 10.
Qed.

(** The loop of [random.sample] hands back [k] items of the pool, none of
    them from the same position twice. *)
Lemma sample_pool_run {A} (pool : list A) k w :
  (k <= length pool)%nat ->
  exists selected w',
    LinuxDoBrowser.sample_pool pool k w = (Ok selected, w')
    /\ length selected = k
    /\ selected ⊆+ pool
    /\ only_draws w w'.
Proof.
  revert pool w. induction k as [| k IH]; intros pool w Hk.
  - exists [], w. split; [reflexivity |]. split; [reflexivity |].
    split; [apply submseteq_nil_l | apply only_draws_refl].
  - cbn [LinuxDoBrowser.sample_pool]. unfold bind at 1.
    destruct (randbelow_run (length pool) w) as (j & w1 & -> & Hj & Hw1).
    destruct (lookup_lt_is_Some_2 pool j ltac:(lia)) as [x Hx].
    destruct (lookup_lt_is_Some_2 pool (length pool - 1) ltac:(lia)) as [y Hy].
    rewrite Hx, Hy. unfold bind.
    destruct (IH (take (length pool - 1) (<[j := y]> pool)) w1)
      as (rest & w' & -> & Hlen & Hsub & Hw').
    { rewrite length_take, length_insert. lia. }
    exists (x :: rest), w'. split; [reflexivity |].
    split; [cbn; lia |]. split; [| exact (only_draws_trans _ _ _ Hw1 Hw')].
    rewrite <- (pool_without_pick pool j x y Hx Hy).
    apply submseteq_skip. exact Hsub.
Qed.

Lemma random_sample_run {A} (population : list A) k w :
  (k <= length population)%nat ->
  exists selected w',
    LinuxDoBrowser.random_sample population k w = (Ok selected, w')
    /\ length selected = k
    /\ selected ⊆+ population
    /\ only_draws w w'.
Proof.
  intros Hk. unfold LinuxDoBrowser.random_sample.
  destruct (Nat.ltb_spec (length population) k) as [Hlt | _]; [lia |].
  apply sample_pool_run. exact Hk.
Qed.

Lemma random_randint_run a b w :
  exists n w',
    random_randint a b w = (Ok n, w')
    /\ (a <= n <= a + (b - a))%nat /\ only_draws w w'.
Proof.
  unfold random_randint, bind.
  destruct (randbelow_run (b - a + 1) w) as (k & w' & -> & Hk & Hw').
  exists (a + k)%nat, w'. split; [reflexivity |]. split; [lia | exact Hw'].
Qed.

(** Lines of level [INFO] are no lines of the retry wrapper. *)
Lemma count_app_info p l extra :
  (forall e, is_info e -> p e = false) ->
  Forall is_info extra ->
  count p (l ++ extra) = count p l.
Proof.
  intros Hp Hextra. unfold count. rewrite List.filter_app, length_app.
  induction Hextra as [| e extra He _ IH]; cbn; [lia |].
  rewrite (Hp e He). exact IH.
Qed.

Lemma info_is_no_retry_warning e : is_info e -> is_retry_warning e = false.
Proof. unfold is_info, is_retry_warning. intros ->. reflexivity. Qed.

Lemma info_is_no_retry_error e : is_info e -> is_retry_error e = false.
Proof. unfold is_info, is_retry_error. intros ->. reflexivity. Qed.

(** A visit that cannot open its tab. *)
Lemma body_without_tab topic_url w e :
  answer (new_tab (browser w)) = inl e ->
  LinuxDoBrowser.click_one_topic_body topic_url w
  = (Raise (Exception e),
     waited (took (new_tab (browser w))) (after (new_tab (browser w))) w).
Proof.
  intros Hrefused. unfold LinuxDoBrowser.click_one_topic_body, bind, command.
  rewrite Hrefused. reflexivity.
Qed.

(** With a browser that opens no tab the wrapper makes its three attempts. *)
Lemma click_one_topic_without_tab P topic_url w :
  kept_by_tabs P ->
  (forall b, P b -> exists e, answer (new_tab b) = inl e) ->
  P (browser w) ->
  exists w',
    LinuxDoBrowser.click_one_topic topic_url w = (Ok VNone, w')
    /\ count is_retry_warning (log w')
       = (count is_retry_warning (log w) + 3)%nat
    /\ count is_retry_error (log w') = (count is_retry_error (log w) + 1)%nat.
Proof.
  intros HP Hrefuses Hw.
  pose proof HP as (Helapse & Hnew & _).
  destruct (Hrefuses _ Hw) as [e1 H1].
  set (w1 := waited (took (new_tab (browser w))) (after (new_tab (browser w))) w).
  assert (Hb1 : P (browser (backed_off 3 0 e1 w1))).
  { cbn. apply Helapse, Hnew, Hw. }
  destruct (Hrefuses _ Hb1) as [e2 H2].
  set (b1 := backed_off 3 0 e1 w1) in *.
  set (w2 := waited (took (new_tab (browser b1))) (after (new_tab (browser b1))) b1).
  assert (Hb2 : P (browser (backed_off 3 1 e2 w2))).
  { cbn. apply Helapse, Hnew, Hb1. }
  destruct (Hrefuses _ Hb2) as [e3 H3].
  set (b2 := backed_off 3 1 e2 w2) in *.
  set (w3 := waited (took (new_tab (browser b2))) (after (new_tab (browser b2))) b2).
  exists (backed_off 3 2 e3 w3). split.
  - unfold LinuxDoBrowser.click_one_topic.
    apply (three_failures_give_none _ w e1 w1 e2 w2 e3 w3);
      apply body_without_tab; assumption.
  - subst w3 b2 w2 b1 w1. unfold backed_off. cbn [Nat.eqb Nat.sub].
    world_simpl. rewrite !count_snoc. cbn. split; lia.
Qed.

(** The visits when no tab can be opened: three attempts for every topic. *)
Lemma visits_without_tab P browse_count items href_of w old :
  kept_by_tabs P ->
  (forall b, P b -> exists e, answer (new_tab b) = inl e) ->
  P (browser w) ->
  (forall it b,
     In it items -> P b -> ele_attr_href (snd it) b = inr (href_of (snd it))) ->
  browse_history_of (session_data w) = Some old ->
  exists w',
    for_each items (LinuxDoBrowser.visit_topic browse_count) w = (Ok None, w')
    /\ count is_retry_warning (log w')
       = (count is_retry_warning (log w) + 3 * length items)%nat
    /\ count is_retry_error (log w')
       = (count is_retry_error (log w) + length items)%nat.
Proof.
  intros HP Hrefuses. revert w old.
  induction items as [| it items IH]; intros w old Hw Hhref Hold.
  - exists w. cbn. split; [reflexivity |]. split; lia.
  - cbn [for_each]. unfold bind.
    destruct (visit_topic_continues P browse_count it (href_of (snd it)) w old)
      as (v & w1 & w2 & extra & Hvisit & -> & Hw2 & Hs2 & Hlog & Hextra);
      [exact HP | exact Hw
      | intros b; apply Hhref; left; reflexivity | exact Hold |].
    match type of Hvisit with
    | LinuxDoBrowser.click_one_topic ?url ?w0 = _ =>
        destruct (click_one_topic_without_tab P url w0 HP Hrefuses Hw)
          as (w1' & Hvisit' & Hwarn & Herr)
    end.
    rewrite Hvisit in Hvisit'. injection Hvisit' as _ <-.
    world_simpl. rewrite count_snoc in Hwarn, Herr. cbn in Hwarn, Herr.
    destruct (IH w2 (last_n 50 (old ++ [attr_value (href_of (snd it))])) Hw2)
      as (w' & -> & Hwarn' & Herr');
      [intros it' b Hin; apply Hhref; right; exact Hin | exact Hs2 |].
    exists w'. split; [reflexivity |].
    rewrite Hlog in Hwarn', Herr'.
    rewrite (count_app_info _ _ _ info_is_no_retry_warning Hextra) in Hwarn'.
    rewrite (count_app_info _ _ _ info_is_no_retry_error Hextra) in Herr'.
    cbn [length]. split; lia.
Qed.

End BrowseMore.

(** X25.  A topic visit always gives the auxiliary tab back: once the tab
    was opened, the last thing [click_one_topic] 's body does to the browser
    is to close it, whatever was raised in between, and an exception of
    that close is what the caller gets.  When the tab cannot be opened
    nothing else is tried. *)
Theorem tab_is_always_closed {B} `{Chromium B} (w w' : world B)
    (topic_url : value) (r : result value) :
  LinuxDoBrowser.click_one_topic_body topic_url w = (r, w') ->
  (answer (new_tab (browser w)) = inr tt ->
   exists b,
     browser w' = after (tab_close b)
     /\ (forall e, answer (tab_close b) = inl e -> r = Raise (Exception e)))
  /\ (forall e,
        answer (new_tab (browser w)) = inl e ->
        r = Raise (Exception e) /\ browser w' = after (new_tab (browser w))).
Proof.
  unfold LinuxDoBrowser.click_one_topic_body. unfold bind at 1, command at 1.
  intros Hrun. split.
  - intros Hopened. rewrite Hopened in Hrun. cbn [lift] in Hrun.
    unfold ret at 1 in Hrun. unfold try_finally in Hrun.
    match type of Hrun with
    | context [match ?run with pair _ _ => _ end] =>
        destruct run as [r1 w1]
    end.
    unfold command, lift in Hrun.
    exists (browser w1).
    destruct (answer (tab_close (browser w1))) as [e | []] eqn:Hclose;
      cbn in Hrun; injection Hrun as <- <-.
    + split; [reflexivity |]. intros e' [= <-]. reflexivity.
    + split; [reflexivity |]. intros e'. discriminate.
  - intros e Hfailed. rewrite Hfailed in Hrun. cbn in Hrun.
    injection Hrun as <- <-. split; reflexivity.
Qed.

Lemma tab_is_always_closed_witness :
  exists b,
    browser (snd (LinuxDoBrowser.click_one_topic_body (VStr "/t/topic/1")
                    (boot 0 ∅ flaky_tab)))
    = after (tab_close b).
Proof.
  destruct (tab_is_always_closed (boot 0 ∅ flaky_tab) _ (VStr "/t/topic/1") _
              (surjective_pairing _)) as [Hopened _].
  destruct Hopened as (b & Hb & _); [reflexivity |].
  exists b. exact Hb.
Defined.

(** X26.  [click_topic] on a page that lists [n] topics, none of them
    missing when its address is read (the addresses can be read in the
    states [P] of the page, which last through the visits), with a browse
    history that is a list or missing.  It returns whatever the commands of
    the tab raise; it selects between [min 4 n] and [min 8 n] topics, each of
    them a listed topic and no position of the list twice; it records the
    address of every selected topic in the browse history, in the order of
    the selection.  When the browser can open no tab, every selected topic
    is still tried three times: three warnings and one error of the retry
    wrapper are logged for each. *)
Theorem click_topic_visits_a_sample {B} `{Chromium B} (P : B -> Prop)
    (w : world B) (topics : list element) (href_of : element -> option string)
    (old : list value) :
  answer (list_area_titles (browser w)) = inr topics ->
  topics <> [] ->
  kept_by_tabs P ->
  P (after (list_area_titles (browser w))) ->
  (forall topic b,
     In topic topics -> P b -> ele_attr_href topic b = inr (href_of topic)) ->
  browse_history_of (session_data w) = Some old ->
  exists selected w',
    LinuxDoBrowser.click_topic w = (Ok tt, w')
    /\ selected ⊆+ topics
    /\ (Nat.min 4 (length topics) <= length selected
        <= Nat.min 8 (length topics))%nat
    /\ browse_history_of (session_data w')
       = Some (history_after old (map href_of selected))
    /\ ((forall b, P b -> exists e, answer (new_tab b) = inl e) ->
        count is_retry_warning (log w')
        = (count is_retry_warning (log w) + 3 * length selected)%nat
        /\ count is_retry_error (log w')
           = (count is_retry_error (log w) + length selected)%nat).
Proof.
  intros Htopics Hsome HP Hlisted Hhref Hold.
  unfold LinuxDoBrowser.click_topic. unfold bind at 1, command at 1.
  rewrite Htopics. cbn [lift]. unfold ret at 1. unfold bind at 1.
  destruct topics as [| topic topics]; [contradiction |].
  set (listed := topic :: topics) in *.
  unfold ret at 1. unfold bind at 1.
  match goal with
  | |- context [random_randint 4 8 ?w0] =>
      destruct (random_randint_run 4 8 w0) as (drawn & w1 & -> & Hdrawn & Hw1)
  end.
  unfold bind at 1, logger. unfold bind at 1.
  match goal with
  | |- context [LinuxDoBrowser.random_sample listed ?k ?w0] =>
      destruct (random_sample_run listed k w0 ltac:(apply Nat.le_min_r))
        as (selected & w2 & -> & Hlen & Hsub & Hw2)
  end.
  unfold bind at 1, LinuxDoBrowser.enumerate.
  destruct Hw1 as (_ & Hlog1 & _ & _ & Hs1 & _ & Hb1).
  destruct Hw2 as (_ & Hlog2 & _ & _ & Hs2 & _ & Hb2).
  world_simpl.
  assert (Hold2 : browse_history_of (session_data w2) = Some old).
  { rewrite Hs2, Hs1. exact Hold. }
  assert (HP2 : P (browser w2)).
  { rewrite Hb2, Hb1. exact Hlisted. }
  set (items := combine (seq 0 (length selected)) selected).
  assert (Hitems : map snd items = selected) by apply enumerated_topics.
  assert (Hhref2 : forall it b,
             In it items -> P b ->
             ele_attr_href (snd it) b = inr (href_of (snd it))).
  { intros it b Hin. apply Hhref.
    apply list_elem_of_In. apply (elem_of_submseteq selected); [| exact Hsub].
    apply list_elem_of_In. rewrite <- Hitems. apply in_map. exact Hin. }
  destruct (visits_reach_every_topic P (Nat.min drawn (length listed)) items
              href_of w2 old HP HP2 Hhref2 Hold2)
    as (w' & Hrun & _ & Hhistory).
  rewrite Hrun. exists selected, w'. split; [reflexivity |].
  split; [exact Hsub |]. split; [lia |]. split.
  - rewrite Hhistory, <- Hitems, map_map. reflexivity.
  - intros Hrefuses.
    destruct (visits_without_tab P (Nat.min drawn (length listed)) items
                href_of w2 old HP Hrefuses HP2 Hhref2 Hold2)
      as (w'' & Hrun' & Hwarn & Herr).
    rewrite Hrun in Hrun'. injection Hrun' as <-.
    rewrite Hlog2, Hlog1 in Hwarn, Herr. rewrite count_snoc in Hwarn, Herr.
    cbn in Hwarn, Herr.
    assert (Hsize : length items = length selected).
    { rewrite <- (length_map snd items), Hitems. reflexivity. }
    rewrite Hsize in Hwarn, Herr. split; lia.
Qed.

Lemma click_topic_visits_a_sample_witness :
  exists (selected : list element) w',
    LinuxDoBrowser.click_topic (boot 0 ∅ six_topics) = (Ok tt, w')
    /\ (4 <= length selected <= 6)%nat
    /\ count is_retry_warning (log w') = (3 * length selected)%nat.
Proof.
  destruct (click_topic_visits_a_sample (fun b => b = six_topics)
              (boot 0 ∅ six_topics) (seq 0 6)
              (fun topic => match kiosk_topics six_topics !! topic with
                            | Some a => a
                            | None => None
                            end) [])
    as (selected & w' & Hrun & _ & Hlen & _ & Hcount).
  - reflexivity.
  - discriminate.
  - repeat split; intros; assumption.
  - reflexivity.
  - intros topic b Hin ->. cbn in Hin.
    repeat (destruct Hin as [<- | Hin]; [reflexivity |]). contradiction.
  - reflexivity.
  - exists selected, w'. split; [exact Hrun |]. split; [exact Hlen |].
    apply Hcount. intros b _. eexists. reflexivity.
Defined.

(* ===================================================================== *)
(** * Further properties of the start and the end of a run *)
(* ===================================================================== *)

(** A setting read with a fallback is missing exactly when both variables
    are unset or empty. *)
Lemma unset_getenv_or (environ : gmap string string) (primary fallback : string) :
  unset (getenv_or environ primary fallback)
  = unset (environ !! primary) && unset (environ !! fallback).
Proof.
  unfold getenv_or. destruct (unset (environ !! primary)) eqn:Hprimary.
  - reflexivity.
  - rewrite Hprimary. reflexivity.
Qed.

(** X27.  A topic whose link has no [href] is never loaded: each attempt
    of [click_one_topic] 's body on a value that is no string raises; when
    the tab opens, the only other thing the browser is asked for is to
    close it, and the exception is the [AttributeError] of
    [None.startswith] unless closing raised its own. *)
Theorem topic_without_href_is_never_loaded {B} `{Chromium B} (w : world B)
    (topic_url : value) :
  (forall u, topic_url <> VStr u) ->
  exists e w',
    LinuxDoBrowser.click_one_topic_body topic_url w = (Raise (Exception e), w')
    /\ (answer (new_tab (browser w)) = inr tt ->
        browser w' = after (tab_close (after (new_tab (browser w))))
        /\ (answer (tab_close (after (new_tab (browser w)))) = inr tt ->
            e = AttributeError)).
Proof.
  intros Hnostring.
  unfold LinuxDoBrowser.click_one_topic_body. unfold bind at 1, command at 1.
  destruct (answer (new_tab (browser w))) as [e | []] eqn:Hopened; cbn [lift].
  - do 2 eexists. split; [reflexivity |]. intros. discriminate.
  - unfold ret at 1. unfold try_finally, bind at 1.
    assert (Hraise :
      forall w0 : world B,
        match topic_url with
        | VStr u =>
            ret (if String.prefix "/" u
                 then String.append "https://linux.do" u else u)
        | _ => raise (Exception AttributeError)
        end w0 = (Raise (Exception AttributeError), w0)).
    { intros w0. destruct topic_url; try reflexivity.
      exfalso. eapply Hnostring. reflexivity. }
    rewrite Hraise. unfold command, lift. world_simpl.
    destruct (answer (tab_close (after (new_tab (browser w)))))
      as [e | []] eqn:Hclose.
    + do 2 eexists. split; [reflexivity |]. intros _.
      split; [reflexivity |]. intros. discriminate.
    + do 2 eexists. split; [reflexivity |]. intros _.
      split; reflexivity.
Qed.

Lemma topic_without_href_is_never_loaded_witness :
  exists w',
    LinuxDoBrowser.click_one_topic_body VNone (boot 0 ∅ flaky_tab)
    = (Raise (Exception AttributeError), w')
    /\ sim_tab_failures (browser w') = 2%nat.
Proof.
  destruct (topic_without_href_is_never_loaded (boot 0 ∅ flaky_tab) VNone)
    as (e & w' & Hrun & Hopened); [discriminate |].
  destruct Hopened as [Hbrowser He]; [reflexivity |].
  rewrite (He eq_refl) in Hrun.
  exists w'. split; [exact Hrun |]. rewrite Hbrowser. reflexivity.
Defined.

(** X28.  Without credentials nothing is started: when the user name or
    the password is missing both under its [LINUXDO_] name and under its
    fallback name (unset or empty), the script prints one line and exits
    with code 1; the browser is not touched and nothing is logged or
    written. *)
Theorem main_without_credentials {B} `{Chromium B}
    (str_lower : string -> string) (environ : gmap string string)
    (browse_enabled : bool) (w : world B) :
  (unset (environ !! "LINUXDO_USERNAME") && unset (environ !! "USERNAME"))
  || (unset (environ !! "LINUXDO_PASSWORD") && unset (environ !! "PASSWORD"))
  = true ->
  exists w',
    LinuxDoBrowser.main (read_config environ browse_enabled) str_lower w
    = (Raise (SystemExit 1), w')
    /\ length (stdout w') = S (length (stdout w))
    /\ browser w' = browser w /\ log w' = log w /\ fs w' = fs w
    /\ session_data w' = session_data w.
Proof.
  intros Hmissing.
  unfold LinuxDoBrowser.main, read_config. cbn [USERNAME PASSWORD].
  rewrite !unset_getenv_or, Hmissing.
  unfold bind, print, sys_exit, raise. eexists. split; [reflexivity |].
  cbn. rewrite length_app. cbn. split; [lia |]. auto.
Qed.

Lemma main_without_credentials_witness :
  exists w',
    LinuxDoBrowser.main
      (read_config (<["LINUXDO_USERNAME" := ""]>
                      (<["LINUXDO_PASSWORD" := "secret"]> ∅)) true)
      ascii_lower (boot 0 ∅ member_page)
    = (Raise (SystemExit 1), w')
    /\ browser w' = member_page.
Proof.
  destruct (main_without_credentials ascii_lower
              (<["LINUXDO_USERNAME" := ""]>
                 (<["LINUXDO_PASSWORD" := "secret"]> ∅))
              true (boot 0 ∅ member_page))
    as (w' & Hrun & _ & Hbrowser & _); [vm_compute; reflexivity |].
  exists w'. split; [exact Hrun | exact Hbrowser].
Defined.



(** X30.  Loading the connect page is not guarded: when the tab opens but
    the page fails to load, [print_connect_info] raises that exception and
    leaves the tab open, the load being the last thing asked of the
    browser. *)
Theorem connect_info_load_failure_leaves_tab_open {B} `{Chromium B}
    (w : world B) (e : exception) :
  answer (new_tab (browser w)) = inr tt ->
  answer (tab_get "https://connect.linux.do/" (after (new_tab (browser w))))
  = inl e ->
  exists w',
    LinuxDoBrowser.print_connect_info w = (Raise (Exception e), w')
    /\ browser w'
       = after (tab_get "https://connect.linux.do/"
                  (after (new_tab (browser w)))).
Proof.
  intros Hopened Hfailed.
  unfold LinuxDoBrowser.print_connect_info.
  unfold bind at 1, logger.
  unfold bind at 1, command at 1. world_simpl.
  rewrite Hopened. cbn [lift]. unfold ret at 1.
  unfold bind at 1, command at 1. world_simpl.
  rewrite Hfailed. cbn [lift].
  eexists. split; reflexivity.
Qed.

Lemma connect_info_load_failure_leaves_tab_open_witness :
  exists w',
    LinuxDoBrowser.print_connect_info (boot 0 ∅ flaky_tab)
    = (Raise (Exception (BrowserError "load failed")), w')
    /\ sim_tab_failures (browser w') = 1%nat.
Proof.
  destruct (connect_info_load_failure_leaves_tab_open (boot 0 ∅ flaky_tab)
              (BrowserError "load failed"))
    as (w' & Hrun & Hbrowser); [reflexivity | reflexivity |].
  exists w'. split; [exact Hrun |]. rewrite Hbrowser. reflexivity.
Defined.
